(** * Vision2Lang: the orchestration layer of [src/inference.py],
    [src/utils.py] and [src/app.py], embedded as state-and-exception passing
    programs over an explicit environment.

    The Python code is glue around four outside collaborators (torch /
    transformers, Pillow, gTTS, OpenCV).  A collaborator is an oracle of the
    record [World]: it is asked at the current value of a call counter, so the
    same call may answer differently at different moments, and it answers
    with a value or with a raised exception.  Module globals, the camera
    device and the sequence of calls made so far live in [state]. *)

From Stdlib Require Import List ZArith NArith String Ascii Bool Arith Lia.
Import ListNotations.

Set Implicit Arguments.

(** ** Python strings *)

Module Py.

(** A Python [str] is a sequence of Unicode code points. *)
Definition char := N.
Definition str := list char.

(** An ASCII literal of the source. *)
Definition lit (s : string) : str := map N_of_ascii (list_ascii_of_string s).

Definition char_eqb : char -> char -> bool := N.eqb.

Fixpoint str_eqb (a b : str) : bool :=
  match a, b with
  | [], [] => true
  | x :: a', y :: b' => char_eqb x y && str_eqb a' b'
  | _, _ => false
  end.

(** [str.isspace] on one code point: the code points CPython's
    [_PyUnicode_IsWhitespace] accepts. *)
Definition isspace (c : char) : bool :=
  ((9 <=? c) && (c <=? 13) || (28 <=? c) && (c <=? 32)
   || (c =? 133) || (c =? 160) || (c =? 5760)
   || (8192 <=? c) && (c <=? 8202)
   || (c =? 8232) || (c =? 8233) || (c =? 8239) || (c =? 8287)
   || (c =? 12288))%N.

Fixpoint lstrip (s : str) : str :=
  match s with
  | [] => []
  | c :: t => if isspace c then lstrip t else s
  end.

Definition rstrip (s : str) : str := rev (lstrip (rev s)).

(** [s.strip()] *)
Definition strip (s : str) : str := rstrip (lstrip s).

(** Truth value of a string: [bool(s)]. *)
Definition truthy (s : str) : bool :=
  match s with [] => false | _ :: _ => true end.

(** The test both [answer_question] and [text_to_speech] open with:
    [not s or s.strip() == ""]. *)
Definition not_or_blank (s : str) : bool :=
  negb (truthy s) || str_eqb (strip s) [].

(** What the specification calls empty or whitespace-only. *)
Definition whitespace_only (s : str) : Prop := Forall (fun c => isspace c = true) s.

End Py.

Import Py.

(** ** Exceptions and outcomes *)

(** An instance of a subclass of [Exception]: its class and [str(e)]. *)
Record exn := Exn { exn_class : string; exn_str : str }.

Inductive outcome (A : Type) :=
| Ret (a : A)
| Raise (e : exn).
Arguments Ret {A} a.
Arguments Raise {A} e.

Definition returns {A} (o : outcome A) : bool :=
  match o with Ret _ => true | Raise _ => false end.

(** ** Values handed around *)

(** A NumPy array: shape, element type, flattened contents. *)
Record ndarray := Ndarray { nd_shape : list nat; nd_dtype : string; nd_data : list N }.

(** A Pillow image: mode (["RGB"], ["L"], ["RGBA"], ...), size, raster. *)
Record image := Image { im_mode : string; im_width : nat; im_height : nat; im_data : list N }.

(** The mode every image is converted to: three bands, red, green, blue. *)
Definition RGB : string := "RGB".

(** What a caller may pass where an image is expected. *)
Inductive pyobj :=
| PyNone
| PyStr (s : str)
| PyNdarray (a : ndarray)
| PyImage (i : image)
| PyOther (class_name : string).

(** [f"{type(x)}"] *)
Definition type_repr (x : pyobj) : str :=
  let cls := match x with
             | PyNone => "NoneType"
             | PyStr _ => "str"
             | PyNdarray _ => "numpy.ndarray"
             | PyImage _ => "PIL.Image.Image"
             | PyOther n => n
             end%string in
  lit "<class '" ++ lit cls ++ lit "'>".

(** A loaded model: which checkpoint, on which device. *)
Record model := Model { model_name : str; model_device : str; model_id : nat }.

(** A loaded processor (image preprocessing plus tokenizer). *)
Record processor := Processor { processor_name : str; processor_id : nat }.

(** The tensors a processor hands to a model. *)
Record batch := Batch { batch_pixels : list N; batch_text : option str; batch_device : option str }.

Definition token := N.

(** ** The environment *)

(** Every collaborator call the three modules make.  The first argument of
    an oracle is the value of the call counter when the call is made. *)
Record World := {
  (* torch *)
  cuda_is_available : nat -> bool;
  mps_is_available : nat -> bool;
  (* transformers *)
  processor_from_pretrained : nat -> str -> outcome processor;
  caption_from_pretrained : nat -> str -> outcome model;
  vqa_from_pretrained : nat -> str -> outcome model;
  module_to : nat -> model -> str -> option exn;
  processor_call : nat -> processor -> image -> option str -> outcome batch;
  batch_to : nat -> batch -> option str -> option exn;
  model_generate : nat -> model -> batch -> Z -> outcome (list (list token));
  processor_decode : nat -> processor -> list token -> bool -> outcome str;
  (* Pillow *)
  image_open : nat -> str -> outcome image;
  image_fromarray : nat -> ndarray -> outcome image;
  image_convert : nat -> image -> string -> outcome image;
  (* tempfile and gTTS *)
  named_temporary_file : nat -> str -> outcome str;
  gtts_init : nat -> str -> str -> bool -> option exn;
  gtts_save : nat -> str -> str -> option exn;
  (* OpenCV *)
  video_capture : nat -> Z -> outcome bool;
  capture_read : nat -> outcome (option ndarray);
  cvt_color : nat -> ndarray -> Z -> outcome ndarray
}.

(** One entry per call that leaves the three modules, and per printed line. *)
Inductive event :=
| Print (line : str)
| CudaIsAvailable
| MpsIsAvailable
| ProcessorFromPretrained (name : str)
| CaptionFromPretrained (name : str)
| VqaFromPretrained (name : str)
| ModuleTo (m : model) (d : str)
| ProcessorCall (p : processor) (images : image) (text : option str)
| BatchTo (b : batch) (d : option str)
| Generate (m : model) (inputs : batch) (max_length : Z)
| Decode (p : processor) (tokens : list token) (skip_special_tokens : bool)
| ImageOpen (path : str)
| ImageFromarray (a : ndarray)
| ImageConvert (i : image) (mode : string)
| NamedTemporaryFile (suffix : str)
| GTTS (text lang : str) (slow : bool)
| GTTSSave (text path : str)
| VideoCapture (index : Z)
| CapIsOpened
| CapRead
| CapRelease
| CvtColor (frame : ndarray) (code : Z).

(** The module globals of [inference.py], the camera handles this process
    holds open, the call counter and the calls made so far (oldest first). *)
Record state := State {
  caption_model : option model;
  caption_processor : option processor;
  vqa_model : option model;
  vqa_processor : option processor;
  device : option str;
  open_cameras : nat;
  clock : nat;
  log : list event
}.

(** The state a fresh process starts in: [inference.py] lines 10-14. *)
Definition initial_state : state := State None None None None None 0 0 [].

Definition set_caption_model (v : option model) (s : state) : state :=
  State v (caption_processor s) (vqa_model s) (vqa_processor s) (device s)
        (open_cameras s) (clock s) (log s).
Definition set_caption_processor (v : option processor) (s : state) : state :=
  State (caption_model s) v (vqa_model s) (vqa_processor s) (device s)
        (open_cameras s) (clock s) (log s).
Definition set_vqa_model (v : option model) (s : state) : state :=
  State (caption_model s) (caption_processor s) v (vqa_processor s) (device s)
        (open_cameras s) (clock s) (log s).
Definition set_vqa_processor (v : option processor) (s : state) : state :=
  State (caption_model s) (caption_processor s) (vqa_model s) v (device s)
        (open_cameras s) (clock s) (log s).
Definition set_device (v : option str) (s : state) : state :=
  State (caption_model s) (caption_processor s) (vqa_model s) (vqa_processor s) v
        (open_cameras s) (clock s) (log s).
Definition set_open_cameras (v : nat) (s : state) : state :=
  State (caption_model s) (caption_processor s) (vqa_model s) (vqa_processor s)
        (device s) v (clock s) (log s).
Definition record_call (e : event) (s : state) : state :=
  State (caption_model s) (caption_processor s) (vqa_model s) (vqa_processor s)
        (device s) (open_cameras s) (S (clock s)) (log s ++ [e]).
Definition record_line (l : str) (s : state) : state :=
  State (caption_model s) (caption_processor s) (vqa_model s) (vqa_processor s)
        (device s) (open_cameras s) (clock s) (log s ++ [Print l]).

(** ** Computations: state passing with exceptions *)

Definition M (A : Type) : Type := state -> outcome A * state.

Definition ret {A} (a : A) : M A := fun s => (Ret a, s).

Definition raise {A} (e : exn) : M A := fun s => (Raise e, s).

Definition bind {A B} (m : M A) (k : A -> M B) : M B :=
  fun s => match m s with
           | (Ret a, s') => k a s'
           | (Raise e, s') => (Raise e, s')
           end.

(** [try: body  except Exception as e: handler] *)
Definition try_except {A} (body : M A) (handler : exn -> M A) : M A :=
  fun s => match body s with
           | (Ret a, s') => (Ret a, s')
           | (Raise e, s') => handler e s'
           end.

Definition get {A} (f : state -> A) : M A := fun s => (Ret (f s), s).

Definition modify (f : state -> state) : M unit := fun s => (Ret tt, f s).

Declare Scope py_scope.
Delimit Scope py_scope with py.
Notation "x <- c1 ;; c2" := (bind c1 (fun x => c2))
  (at level 61, c1 at next level, right associativity) : py_scope.
Notation "c1 ;; c2" := (bind c1 (fun _ => c2))
  (at level 61, right associativity) : py_scope.
Open Scope py_scope.

(** [print(line)] *)
Definition print (line : str) : M unit := modify (record_line line).

(** A call that leaves the program: noted in the log, answered by the
    oracle at the current count. *)
Definition call {A} (e : event) (oracle : nat -> outcome A) : M A :=
  fun s => (oracle (clock s), record_call e s).

Definition may_raise (r : option exn) : outcome unit :=
  match r with None => Ret tt | Some e => Raise e end.

(** ** The program *)

Section Program.

Variable w : World.

(** *** [src/inference.py] *)

Definition caption_checkpoint : str := lit "Salesforce/blip-image-captioning-base".
Definition vqa_checkpoint : str := lit "Salesforce/blip-vqa-base".

Definition loading_caption_line : str := lit "Loading BLIP captioning model...".
Definition loaded_caption_line : str :=
  [9989; 32]%N ++ lit "Captioning model loaded successfully!".
Definition loading_vqa_line : str := lit "Loading BLIP VQA model...".
Definition loaded_vqa_line : str := [9989; 32]%N ++ lit "VQA model loaded successfully!".
Definition using_device_line (d : str) : str := lit "Using device: " ++ d.

Definition get_device : M str :=
  cuda <- call CudaIsAvailable (fun t => Ret (cuda_is_available w t)) ;;
  if cuda then ret (lit "cuda")
  else
    mps <- call MpsIsAvailable (fun t => Ret (mps_is_available w t)) ;;
    if mps then ret (lit "mps") else ret (lit "cpu").

(** [module.to(device)]: the module itself, moved. *)
Definition to_device (m : model) (d : str) : M model :=
  call (ModuleTo m d) (fun t => may_raise (module_to w t m d)) ;;
  ret (Model (model_name m) d (model_id m)).

Definition load_caption_model : M (option model * option processor * option str) :=
  cm <- get caption_model ;;
  match cm with
  | None =>
      print loading_caption_line ;;
      d <- get_device ;;
      modify (set_device (Some d)) ;;
      print (using_device_line d) ;;
      p <- call (ProcessorFromPretrained caption_checkpoint)
             (fun t => processor_from_pretrained w t caption_checkpoint) ;;
      modify (set_caption_processor (Some p)) ;;
      m <- call (CaptionFromPretrained caption_checkpoint)
             (fun t => caption_from_pretrained w t caption_checkpoint) ;;
      m' <- to_device m d ;;
      modify (set_caption_model (Some m')) ;;
      print loaded_caption_line
  | Some _ => ret tt
  end ;;
  s <- get (fun s => s) ;;
  ret (caption_model s, caption_processor s, device s).

Definition load_vqa_model : M (option model * option processor * option str) :=
  vm <- get vqa_model ;;
  match vm with
  | None =>
      print loading_vqa_line ;;
      d <- get_device ;;
      modify (set_device (Some d)) ;;
      print (using_device_line d) ;;
      p <- call (ProcessorFromPretrained vqa_checkpoint)
             (fun t => processor_from_pretrained w t vqa_checkpoint) ;;
      modify (set_vqa_processor (Some p)) ;;
      m <- call (VqaFromPretrained vqa_checkpoint)
             (fun t => vqa_from_pretrained w t vqa_checkpoint) ;;
      m' <- to_device m d ;;
      modify (set_vqa_model (Some m')) ;;
      print loaded_vqa_line
  | Some _ => ret tt
  end ;;
  s <- get (fun s => s) ;;
  ret (vqa_model s, vqa_processor s, device s).

Definition unsupported_image_type (x : pyobj) : exn :=
  Exn "ValueError" (lit "Unsupported image type: " ++ type_repr x).

(** [img.convert('RGB')] *)
Definition convert_rgb (i : image) : M image :=
  call (ImageConvert i RGB) (fun t => image_convert w t i RGB).

Definition prepare_image (x : pyobj) : M image :=
  match x with
  | PyStr path =>
      i <- call (ImageOpen path) (fun t => image_open w t path) ;;
      convert_rgb i
  | PyNdarray a =>
      i <- call (ImageFromarray a) (fun t => image_fromarray w t a) ;;
      convert_rgb i
  | PyImage i => convert_rgb i
  | _ => raise (unsupported_image_type x)
  end.

(** Calling or dereferencing a global that is still [None]. *)
Definition none_not_callable : exn :=
  Exn "TypeError" (lit "'NoneType' object is not callable").
Definition none_has_no_attribute (a : string) : exn :=
  Exn "AttributeError" (lit "'NoneType' object has no attribute '" ++ lit a ++ lit "'").

(** [processor(images=i, text=q, return_tensors="pt").to(dev)] *)
Definition encode (p : option processor) (i : image) (text : option str)
    (dev : option str) : M batch :=
  match p with
  | None => raise none_not_callable
  | Some p =>
      b <- call (ProcessorCall p i text) (fun t => processor_call w t p i text) ;;
      call (BatchTo b dev) (fun t => may_raise (batch_to w t b dev)) ;;
      ret (Batch (batch_pixels b) (batch_text b) dev)
  end.

(** [model.generate( **inputs, max_length=max_length)] *)
Definition generate (m : option model) (inputs : batch) (max_length : Z)
    : M (list (list token)) :=
  match m with
  | None => raise (none_has_no_attribute "generate")
  | Some m =>
      call (Generate m inputs max_length)
        (fun t => model_generate w t m inputs max_length)
  end.

(** [outputs[0]] *)
Definition first_output (outputs : list (list token)) : M (list token) :=
  match outputs with
  | o :: _ => ret o
  | [] => raise (Exn "IndexError" (lit "index 0 is out of bounds for dimension 0 with size 0"))
  end.

(** [processor.decode(tokens, skip_special_tokens=flag)] *)
Definition decode (p : option processor) (tokens : list token) (flag : bool) : M str :=
  match p with
  | None => raise (none_has_no_attribute "decode")
  | Some p =>
      call (Decode p tokens flag) (fun t => processor_decode w t p tokens flag)
  end.

(** The default of the [max_length] parameter of both entry points. *)
Definition default_max_length : Z := 50.

Definition caption_image (x : pyobj) (max_length : Z) : M str :=
  l <- load_caption_model ;;
  let '(model, processor, dev) := l in
  pil_image <- prepare_image x ;;
  inputs <- encode processor pil_image None dev ;;
  outputs <- generate model inputs max_length ;;
  o <- first_output outputs ;;
  caption <- decode processor o true ;;
  ret caption.

Definition ask_a_question : str := lit "Please ask a question about the image.".

Definition answer_question (x : pyobj) (question : str) (max_length : Z) : M str :=
  if not_or_blank question then ret ask_a_question
  else
    l <- load_vqa_model ;;
    let '(model, processor, dev) := l in
    pil_image <- prepare_image x ;;
    inputs <- encode processor pil_image (Some question) dev ;;
    outputs <- generate model inputs max_length ;;
    o <- first_output outputs ;;
    answer <- decode processor o true ;;
    ret answer.

(** *** [src/utils.py] *)

Definition audio_generated_line (path : str) : str :=
  [128266; 32]%N ++ lit "Audio generated: " ++ path.
Definition speech_error_line (e : exn) : str :=
  [10060; 32]%N ++ lit "Error generating speech: " ++ exn_str e.

(** [tempfile.NamedTemporaryFile(delete=False, suffix=...)], its [name], and
    [close()]: the allocation of a fresh file, which answers with its path
    or raises. *)
Definition new_temporary_file (suffix : str) : M str :=
  call (NamedTemporaryFile suffix) (fun t => named_temporary_file w t suffix).

Definition text_to_speech (text lang : str) (slow : bool) : M (option str) :=
  try_except
    (if not_or_blank text then ret None
     else
       audio_path <- new_temporary_file (lit ".mp3") ;;
       call (GTTS text lang slow) (fun t => may_raise (gtts_init w t text lang slow)) ;;
       call (GTTSSave text audio_path)
         (fun t => may_raise (gtts_save w t text audio_path)) ;;
       print (audio_generated_line audio_path) ;;
       ret (Some audio_path))
    (fun e =>
       print (speech_error_line e) ;;
       ret None).

(** The defaults of [lang] and [slow]. *)
Definition default_lang : str := lit "en".
Definition default_slow : bool := false.

Definition cannot_open_line : str := [10060; 32]%N ++ lit "Cannot open webcam".
Definition failed_capture_line : str := [10060; 32]%N ++ lit "Failed to capture frame".
Definition capture_error_line (e : exn) : str :=
  [10060; 32]%N ++ lit "Error capturing webcam frame: " ++ exn_str e.

(** [cv2.COLOR_BGR2RGB] *)
Definition COLOR_BGR2RGB : Z := 4.

(** [cv2.VideoCapture(index)]: the capture object, here its opened flag; an
    opened capture holds the device until it is released. *)
Definition open_capture (index : Z) : M bool :=
  opened <- call (VideoCapture index) (fun t => video_capture w t index) ;;
  modify (fun s => if opened then set_open_cameras (S (open_cameras s)) s else s) ;;
  ret opened.

(** [cap.isOpened()] *)
Definition is_opened (cap : bool) : M bool :=
  call CapIsOpened (fun _ => Ret cap).

(** [cap.read()]: [(True, frame)] is [Some frame], [(False, None)] is [None]. *)
Definition read_frame : M (option ndarray) :=
  call CapRead (fun t => capture_read w t).

(** [cap.release()] *)
Definition release (cap : bool) : M unit :=
  call CapRelease (fun _ => Ret tt) ;;
  modify (fun s => if cap then set_open_cameras (pred (open_cameras s)) s else s).

(** The end of the local [cap]: when the function returns, the capture
    object is destroyed, and the destructor of [cv2.VideoCapture] gives the
    camera back if the object still holds it.  [held] is the number of
    cameras the process held when the function was entered; the object
    still holds the camera when the number is above that. *)
Definition destroy_capture (held : nat) : M unit :=
  modify (fun s => if held <? open_cameras s
                   then set_open_cameras (pred (open_cameras s)) s else s).

Definition capture_webcam_frame : M (option ndarray) :=
  held <- get open_cameras ;;
  result <- try_except
              (cap <- open_capture 0 ;;
               opened <- is_opened cap ;;
               if negb opened then
                 print cannot_open_line ;;
                 ret None
               else
                 r <- read_frame ;;
                 release cap ;;
                 match r with
                 | Some frame =>
                     frame_rgb <- call (CvtColor frame COLOR_BGR2RGB)
                                    (fun t => cvt_color w t frame COLOR_BGR2RGB) ;;
                     ret (Some frame_rgb)
                 | None =>
                     print failed_capture_line ;;
                     ret None
                 end)
              (fun e =>
                 print (capture_error_line e) ;;
                 ret None) ;;
  destroy_capture held ;;
  ret result.

(** *** [src/app.py] *)

Definition upload_first : str := lit "Please upload an image first.".
Definition enter_a_question : str := lit "Please enter a question.".
Definition capture_failed : str :=
  lit "Failed to capture webcam frame. Make sure your webcam is connected.".
Definition error_msg (e : exn) : str := [10060; 32]%N ++ lit "Error: " ++ exn_str e.
Definition generating_caption_line : str :=
  [128444; 65039; 32]%N ++ lit "Generating caption...".
Definition generating_audio_line : str := [128266; 32]%N ++ lit "Generating audio...".
Definition caption_line (c : str) : str := [9989; 32]%N ++ lit "Caption: " ++ c.
Definition question_line (q : str) : str := [10067; 32]%N ++ lit "Question: " ++ q.
Definition answer_line (a : str) : str := [9989; 32]%N ++ lit "Answer: " ++ a.
Definition capturing_line : str := [128248; 32]%N ++ lit "Capturing webcam frame...".

Definition is_none (x : pyobj) : bool :=
  match x with PyNone => true | _ => false end.

(** The [except Exception as e] block the three actions share, up to the
    shape of the tuple. *)
Definition report_error {A} (result : str -> A) (e : exn) : M A :=
  print (error_msg e) ;;
  ret (result (error_msg e)).

(** [audio_path = None; if enable_tts: ...] of the two upload actions. *)
Definition speak_if (enable_tts : bool) (text : str) : M (option str) :=
  if enable_tts then
    print generating_audio_line ;;
    text_to_speech text default_lang default_slow
  else ret None.

(** The [try] block of [generate_caption_with_audio]. *)
Definition describe_body (x : pyobj) (enable_tts : bool) : M (str * option str) :=
  print generating_caption_line ;;
  caption <- caption_image x default_max_length ;;
  print (caption_line caption) ;;
  audio_path <- speak_if enable_tts caption ;;
  ret (caption, audio_path).

Definition generate_caption_with_audio (x : pyobj) (enable_tts : bool)
    : M (str * option str) :=
  if is_none x then ret (upload_first, None)
  else try_except (describe_body x enable_tts) (report_error (fun msg => (msg, None))).

(** The [try] block of [answer_with_audio]. *)
Definition answer_body (x : pyobj) (question : str) (enable_tts : bool)
    : M (str * option str) :=
  print (question_line question) ;;
  answer <- answer_question x question default_max_length ;;
  print (answer_line answer) ;;
  audio_path <- speak_if enable_tts answer ;;
  ret (answer, audio_path).

Definition answer_with_audio (x : pyobj) (question : str) (enable_tts : bool)
    : M (str * option str) :=
  if is_none x then ret (upload_first, None)
  else if not_or_blank question then ret (enter_a_question, None)
  else try_except (answer_body x question enable_tts)
         (report_error (fun msg => (msg, None))).

(** The [try] block of [capture_and_caption]. *)
Definition capture_body (enable_tts : bool) : M (option ndarray * str * option str) :=
  print capturing_line ;;
  frame <- capture_webcam_frame ;;
  match frame with
  | None => ret (None, capture_failed, None)
  | Some f =>
      caption <- caption_image (PyNdarray f) default_max_length ;;
      print (caption_line caption) ;;
      audio_path <- (if enable_tts then
                       text_to_speech caption default_lang default_slow
                     else ret None) ;;
      ret (Some f, caption, audio_path)
  end.

Definition capture_and_caption (enable_tts : bool)
    : M (option ndarray * str * option str) :=
  try_except (capture_body enable_tts) (report_error (fun msg => (None, msg, None))).

(** *** A process serving requests one after another *)

(** What the process is asked to do: the two entry points of
    [inference.py], as [demo_usage.py] calls them, and the three actions of
    [app.py]. *)
Inductive request :=
| CaptionImage (x : pyobj) (max_length : Z)
| AnswerQuestion (x : pyobj) (question : str) (max_length : Z)
| DescribeImage (x : pyobj) (enable_tts : bool)
| AnswerAction (x : pyobj) (question : str) (enable_tts : bool)
| CaptureAction (enable_tts : bool).

(** One request; whether it returned or raised is the caller's business,
    the process goes on with the state it left. *)
Definition serve (r : request) (s : state) : state :=
  match r with
  | CaptionImage x n => snd (caption_image x n s)
  | AnswerQuestion x q n => snd (answer_question x q n s)
  | DescribeImage x tts => snd (generate_caption_with_audio x tts s)
  | AnswerAction x q tts => snd (answer_with_audio x q tts s)
  | CaptureAction tts => snd (capture_and_caption tts s)
  end.

Definition serve_all (rs : list request) (s : state) : state :=
  fold_left (fun s r => serve r s) rs s.

End Program.

(** ** Reading the log *)

Definition count (p : event -> bool) (l : list event) : nat := List.length (filter p l).

Definition prints (line : str) (e : event) : bool :=
  match e with Print l => str_eqb l line | _ => false end.

(** A device resolution is a run of [get_device], which opens with the CUDA
    query. *)
Definition is_resolution (e : event) : bool :=
  match e with CudaIsAvailable => true | _ => false end.

Definition is_generate (e : event) : bool :=
  match e with Generate _ _ _ => true | _ => false end.

Definition is_release (e : event) : bool :=
  match e with CapRelease => true | _ => false end.

Definition resolutions (l : list event) : nat := count is_resolution l.

(** Construction attempts and completed constructions, by the lines the two
    loaders print when they start and when they finish. *)
Definition caption_attempts (l : list event) : nat := count (prints loading_caption_line) l.
Definition vqa_attempts (l : list event) : nat := count (prints loading_vqa_line) l.
Definition caption_constructions (l : list event) : nat :=
  count (prints loaded_caption_line) l.

Definition built (s : state) : nat :=
  match caption_model s with Some _ => 1 | None => 0 end.

(** The three representations [prepare_image] dispatches on. *)
Definition supported (x : pyobj) : bool :=
  match x with
  | PyStr _ | PyNdarray _ | PyImage _ => true
  | PyNone | PyOther _ => false
  end.

Definition is_some {A} (o : option A) : bool :=
  match o with Some _ => true | None => false end.

(** A handle that is set has its processor set. *)
Definition paired (s : state) : bool :=
  implb (is_some (caption_model s)) (is_some (caption_processor s))
  && implb (is_some (vqa_model s)) (is_some (vqa_processor s)).

(** How a process may move between two moments: a handle that is set stays
    the same object and its loader does not start again; every resolution
    of the device belongs to one construction attempt; the captioning handle
    is set exactly by a completed construction. *)
Record evolves (s s' : state) : Prop := Evolves {
  ev_caption : forall m, caption_model s = Some m ->
     caption_model s' = Some m /\ caption_attempts (log s') = caption_attempts (log s);
  ev_vqa : forall m, vqa_model s = Some m ->
     vqa_model s' = Some m /\ vqa_attempts (log s') = vqa_attempts (log s);
  ev_resolved :
     resolutions (log s') + (caption_attempts (log s) + vqa_attempts (log s))
     = resolutions (log s) + (caption_attempts (log s') + vqa_attempts (log s'));
  ev_built :
     caption_constructions (log s') + built s = caption_constructions (log s) + built s';
  ev_paired : paired s = true -> paired s' = true
}.

(** Lines other than the three the loaders' bookkeeping is read from. *)
Definition ordinary (l : str) : bool :=
  negb (str_eqb l loading_caption_line) && negb (str_eqb l loading_vqa_line)
  && negb (str_eqb l loaded_caption_line).

(** The calls a computation adds to the log, none of them to [generate]. *)
Definition quiet {A} (m : M A) (s : state) : Prop :=
  exists new, log (snd (m s)) = log s ++ new /\ forall e, In e new -> is_generate e = false.

(** A computation all of whose runs stay within a relation on states. *)
Definition respects (R : state -> state -> Prop) {A} (m : M A) : Prop :=
  forall s, R s (snd (m s)).

(** What the allocation of the temporary file answers to a
    [text_to_speech] started in [s]. *)
Definition allocation (w : World) (s : state) : outcome str :=
  named_temporary_file w (clock s) (lit ".mp3").

(** What the speech backend answers to a [text_to_speech] started in [s]
    once the file at [path] is allocated: the error of the [gTTS]
    constructor or of [save], if either raises. *)
Definition backend_error (w : World) (text lang : str) (slow : bool) (s : state)
    (path : str) : option exn :=
  match gtts_init w (S (clock s)) text lang slow with
  | Some e => Some e
  | None => gtts_save w (S (S (clock s))) text path
  end.

(** Width and height of the raster an array holds, as [fromarray] takes
    them: [shape[1]] and [shape[0]], and for an array of one dimension a
    width of one; an array of no dimension holds no raster. *)
Definition array_size (a : ndarray) : option (nat * nat) :=
  match nd_shape a with
  | [] => None
  | [h] => Some (1, h)
  | h :: w :: _ => Some (w, h)
  end.

(** What Pillow promises of [convert('RGB')] alone. *)
Definition converts_to_rgb (w : World) : Prop :=
  forall t i i', image_convert w t i RGB = Ret i' -> im_mode i' = RGB.

(** The number of bands of a Pillow mode. *)
Definition bands (mode : string) : nat :=
  if (String.eqb mode "RGB" || String.eqb mode "YCbCr" || String.eqb mode "LAB"
      || String.eqb mode "HSV")%bool then 3
  else if (String.eqb mode "RGBA" || String.eqb mode "CMYK" || String.eqb mode "RGBX")%bool
  then 4
  else if (String.eqb mode "LA" || String.eqb mode "PA")%bool then 2
  else 1.

(** What Pillow promises of the calls [prepare_image] makes: [convert]
    answers in the mode asked for and keeps the size; [fromarray] answers
    with the size of the array. *)
Record pillow_contract (w : World) : Prop := {
  convert_mode : forall t i m i', image_convert w t i m = Ret i' -> im_mode i' = m;
  convert_size : forall t i m i', image_convert w t i m = Ret i' ->
    im_width i' = im_width i /\ im_height i' = im_height i;
  fromarray_size : forall t a i, image_fromarray w t a = Ret i ->
    array_size a = Some (im_width i, im_height i)
}.

(** The image an argument stands for, when normalization starts at count
    [t]: what [Image.open] decodes from a path, what [fromarray] wraps, the
    image itself. *)
Definition source (w : World) (x : pyobj) (t : nat) : option image :=
  match x with
  | PyStr path => match image_open w t path with Ret i => Some i | Raise _ => None end
  | PyNdarray a => match image_fromarray w t a with Ret i => Some i | Raise _ => None end
  | PyImage i => Some i
  | _ => None
  end.

(** Width and height of the source. *)
Definition source_size (w : World) (x : pyobj) (t : nat) : option (nat * nat) :=
  match x with
  | PyNdarray a => array_size a
  | _ => option_map (fun i => (im_width i, im_height i)) (source w x t)
  end.

(** Whether Pillow reads and converts the argument when asked at count [t]. *)
Definition pillow_accepts (w : World) (x : pyobj) (t : nat) : bool :=
  match x, source w x t with
  | PyImage i, _ => returns (image_convert w t i RGB)
  | _, Some i => returns (image_convert w (S t) i RGB)
  | _, None => false
  end.

(** The steps [caption_image] and [answer_question] share once the handle
    is loaded and the image prepared: encode, generate, take the first
    sequence, decode it without its special tokens. *)
Definition infer (w : World) (m : option model) (p : option processor)
    (dev : option str) (i : image) (text : option str) (max_length : Z) : M str :=
  inputs <- encode w p i text dev ;;
  outputs <- generate w m inputs max_length ;;
  o <- first_output outputs ;;
  r <- decode w p o true ;;
  ret r.

(** The transformers side answers every call, and [generate] with at least
    one sequence. *)
Record transformers_work (w : World) : Prop := {
  processor_loads : forall t name, returns (processor_from_pretrained w t name) = true;
  caption_loads : forall t name, returns (caption_from_pretrained w t name) = true;
  vqa_loads : forall t name, returns (vqa_from_pretrained w t name) = true;
  module_moves : forall t m d, module_to w t m d = None;
  processor_encodes : forall t p i q, returns (processor_call w t p i q) = true;
  batch_moves : forall t b d, batch_to w t b d = None;
  model_generates : forall t m b n,
    exists o outs, model_generate w t m b n = Ret (o :: outs);
  processor_decodes : forall t p o flag, returns (processor_decode w t p o flag) = true
}.

(** The shape the two entry points have in common: get the handle from a
    loader, prepare the image, run the shared steps. *)
Definition pipeline (w : World) (loader : M (option model * option processor * option str))
    (x : pyobj) (text : option str) (max_length : Z) : M str :=
  l <- loader ;;
  let '(m, p, dev) := l in
  i <- prepare_image w x ;;
  infer w m p dev i text max_length.

(** The priority order in words: the GPU if there is one, else the Apple
    accelerator if there is one, else the CPU; the first query is made at
    count [t], the second, when it is made, at the next. *)
Definition first_available (w : World) (t : nat) : str :=
  if cuda_is_available w t then lit "cuda"
  else if mps_is_available w (S t) then lit "mps"
  else lit "cpu".

(** ** Sample environments *)

(** A 2 x 3 frame with three channels. *)
Definition sample_frame : ndarray :=
  Ndarray [2; 3; 3] "uint8" [255; 0; 0; 255; 0; 0; 255; 0; 0; 0; 0; 0; 0; 0; 0; 0; 0; 0]%N.

(** Five values in a row: the data of an array of one dimension. *)
Definition sample_row : list N := [0; 64; 128; 192; 255]%N.

(** A 4 x 3 image with an alpha channel, as a decoder may deliver it. *)
Definition sample_image : image := Image "RGBA" 4 3 [].

Definition sample_path : str := lit "data/cat.png".

(** Token ids below 3 are the model's control tokens; the others are the
    code points of the text. *)
Definition sample_tokens : list token := [1; 97; 32; 99; 97; 116; 2]%N.

Definition sample_decode (tokens : list token) (skip_special_tokens : bool) : str :=
  if skip_special_tokens then filter (fun t => (3 <=? t)%N) tokens else tokens.

Definition sample_fromarray (a : ndarray) : outcome image :=
  match nd_shape a with
  | [h] => Ret (Image "L" 1 h (nd_data a))
  | [h; w] => Ret (Image "L" w h (nd_data a))
  | [h; w; 3] => Ret (Image "RGB" w h (nd_data a))
  | [h; w; 4] => Ret (Image "RGBA" w h (nd_data a))
  | _ => Raise (Exn "TypeError" (lit "Cannot handle this data type"))
  end.

(** An environment in which everything works except what the four
    arguments decide: loading the captioning weights, opening the camera,
    reading a frame, and saving synthesized speech.  One file exists. *)
Definition environment
    (loader : nat -> str -> outcome model)
    (opener : nat -> Z -> outcome bool)
    (reader : nat -> outcome (option ndarray))
    (saver : nat -> str -> str -> option exn) : World := {|
  cuda_is_available := fun _ => false;
  mps_is_available := fun _ => false;
  processor_from_pretrained := fun _ name => Ret (Processor name 0);
  caption_from_pretrained := loader;
  vqa_from_pretrained := fun _ name => Ret (Model name (lit "cpu") 2);
  module_to := fun _ _ _ => None;
  processor_call := fun _ _ i text => Ret (Batch (im_data i) text None);
  batch_to := fun _ _ _ => None;
  model_generate := fun _ _ _ n => Ret [firstn (Z.to_nat n) sample_tokens];
  processor_decode := fun _ _ tokens flag => Ret (sample_decode tokens flag);
  image_open := fun _ path =>
    if str_eqb path sample_path then Ret sample_image
    else Raise (Exn "FileNotFoundError" (lit "No such file or directory"));
  image_fromarray := fun _ a => sample_fromarray a;
  image_convert := fun _ i mode => Ret (Image mode (im_width i) (im_height i) (im_data i));
  named_temporary_file := fun _ suffix => Ret (lit "/tmp/tmpk3v1" ++ suffix);
  gtts_init := fun _ _ _ _ => None;
  gtts_save := saver;
  video_capture := opener;
  capture_read := reader;
  cvt_color := fun _ frame _ => Ret frame
|}.

Definition loads : nat -> str -> outcome model :=
  fun _ name => Ret (Model name (lit "cpu") 1).
Definition opens : nat -> Z -> outcome bool := fun _ _ => Ret true.
Definition reads : nat -> outcome (option ndarray) := fun _ => Ret (Some sample_frame).
Definition saves : nat -> str -> str -> option exn := fun _ _ _ => None.

(** Everything works. *)
Definition calm : World := environment loads opens reads saves.

(** The first download of the captioning weights fails, later ones work. *)
Definition offline_at_first : World :=
  environment
    (fun t name => if t <? 4 then Raise (Exn "OSError" (lit "Connection error"))
                   else loads t name)
    opens reads saves.

(** The camera opens, and reading from it raises. *)
Definition broken_read : World :=
  environment loads opens
    (fun _ => Raise (Exn "cv2.error" (lit "Unknown C++ exception from OpenCV code")))
    saves.

(** No camera is attached. *)
Definition no_camera : World :=
  environment loads (fun _ _ => Ret false) reads saves.

(** No temporary file can be made; everything else is as in [calm]. *)
Definition no_tempdir : World := {|
  cuda_is_available := cuda_is_available calm;
  mps_is_available := mps_is_available calm;
  processor_from_pretrained := processor_from_pretrained calm;
  caption_from_pretrained := caption_from_pretrained calm;
  vqa_from_pretrained := vqa_from_pretrained calm;
  module_to := module_to calm;
  processor_call := processor_call calm;
  batch_to := batch_to calm;
  model_generate := model_generate calm;
  processor_decode := processor_decode calm;
  image_open := image_open calm;
  image_fromarray := image_fromarray calm;
  image_convert := image_convert calm;
  named_temporary_file := fun _ _ =>
    Raise (Exn "FileNotFoundError" (lit "No usable temporary directory found"));
  gtts_init := gtts_init calm;
  gtts_save := gtts_save calm;
  video_capture := video_capture calm;
  capture_read := capture_read calm;
  cvt_color := cvt_color calm
|}.

(** The speech service refuses. *)
Definition speech_down : World :=
  environment loads opens reads
    (fun _ _ _ => Some (Exn "gTTSError" (lit "Failed to connect"))).

(** ** Sample requests *)

Definition sample_question : str := lit "What animal is this?".

Definition two_captions : list request :=
  [CaptionImage (PyImage sample_image) 50; CaptionImage (PyImage sample_image) 50].

Definition caption_then_answer : list request :=
  [CaptionImage (PyImage sample_image) 50;
   AnswerQuestion (PyImage sample_image) sample_question 50].

(** ** The rest of the code *)

(** [str(n)] for a non-negative integer. *)
Fixpoint digits (u : Decimal.uint) : str :=
  match u with
  | Decimal.Nil => []
  | Decimal.D0 u => 48%N :: digits u
  | Decimal.D1 u => 49%N :: digits u
  | Decimal.D2 u => 50%N :: digits u
  | Decimal.D3 u => 51%N :: digits u
  | Decimal.D4 u => 52%N :: digits u
  | Decimal.D5 u => 53%N :: digits u
  | Decimal.D6 u => 54%N :: digits u
  | Decimal.D7 u => 55%N :: digits u
  | Decimal.D8 u => 56%N :: digits u
  | Decimal.D9 u => 57%N :: digits u
  end.

Definition str_of_nat (n : nat) : str := digits (Nat.to_uint n).

(** [os.path.join(a, b)] on a POSIX system. *)
Definition startswith_sep (s : str) : bool :=
  match s with c :: _ => (c =? 47)%N | [] => false end.
Definition endswith_sep (s : str) : bool := startswith_sep (rev s).
Definition path_join (a b : str) : str :=
  if startswith_sep b then b
  else if negb (truthy a) || endswith_sep a then a ++ b
  else a ++ [47%N] ++ b.

(** The collaborators only the remaining functions call: the file system,
    two more methods of a Pillow image, and the download. *)
Record Host := {
  os_makedirs : nat -> str -> bool -> option exn;
  image_save : nat -> image -> str -> option exn;
  image_resize : nat -> image -> nat * nat -> Z -> outcome image;
  urlretrieve : nat -> str -> str -> option exn
}.

Inductive host_event :=
| Makedirs (path : str) (exist_ok : bool)
| ImageSave (i : image) (path : str)
| ImageResize (i : image) (size : nat * nat) (resample : Z)
| Urlretrieve (url filename : str).

(** A process together with the host calls it made, each with the count at
    which it was made. *)
Record session := Session { process : state; host_log : list (nat * host_event) }.

Definition MH (A : Type) : Type := session -> outcome A * session.

Definition hret {A} (a : A) : MH A := fun ss => (Ret a, ss).

Definition hraise {A} (e : exn) : MH A := fun ss => (Raise e, ss).

Definition hbind {A B} (m : MH A) (k : A -> MH B) : MH B :=
  fun ss => match m ss with
            | (Ret a, ss') => k a ss'
            | (Raise e, ss') => (Raise e, ss')
            end.

Definition htry_except {A} (body : MH A) (handler : exn -> MH A) : MH A :=
  fun ss => match body ss with
            | (Ret a, ss') => (Ret a, ss')
            | (Raise e, ss') => handler e ss'
            end.

(** A computation of the process, run inside a session. *)
Definition lift {A} (m : M A) : MH A :=
  fun ss => (fst (m (process ss)), Session (snd (m (process ss))) (host_log ss)).

Definition tick (s : state) : state :=
  State (caption_model s) (caption_processor s) (vqa_model s) (vqa_processor s)
        (device s) (open_cameras s) (S (clock s)) (log s).

Definition host_call {A} (e : host_event) (oracle : nat -> outcome A) : MH A :=
  fun ss => (oracle (clock (process ss)),
             Session (tick (process ss)) (host_log ss ++ [(clock (process ss), e)])).

Declare Scope host_scope.
Delimit Scope host_scope with host.
Notation "x <- c1 ;; c2" := (hbind c1 (fun x => c2))
  (at level 61, c1 at next level, right associativity) : host_scope.
Notation "c1 ;; c2" := (hbind c1 (fun _ => c2))
  (at level 61, right associativity) : host_scope.

Section Rest.

Variable w : World.
Variable h : Host.

(** *** [src/utils.py], continued *)

(** [Image.LANCZOS] *)
Definition LANCZOS : Z := 1.

Definition preprocess_image (x : pyobj) (target_size : option (nat * nat)) : MH image :=
  (pil_image <- match x with
                | PyStr path =>
                    lift (i <- call (ImageOpen path) (fun t => image_open w t path) ;;
                          convert_rgb w i)%py
                | PyNdarray a =>
                    lift (i <- call (ImageFromarray a) (fun t => image_fromarray w t a) ;;
                          convert_rgb w i)%py
                | PyImage i => lift (convert_rgb w i)
                | _ => hraise (unsupported_image_type x)
                end ;;
   match target_size with
   | Some size =>
       host_call (ImageResize pil_image size LANCZOS)
         (fun t => image_resize h t pil_image size LANCZOS)
   | None => hret pil_image
   end)%host.

Definition image_saved_line (path : str) : str :=
  [128190; 32]%N ++ lit "Image saved: " ++ path.
Definition save_error_line (e : exn) : str :=
  [10060; 32]%N ++ lit "Error saving image: " ++ exn_str e.

Definition save_uploaded_image (x : pyobj) (directory filename : str) : MH (option str) :=
  htry_except
    (host_call (Makedirs directory true)
       (fun t => may_raise (os_makedirs h t directory true)) ;;
     pil_image <- match x with
                  | PyNdarray a =>
                      lift (call (ImageFromarray a) (fun t => image_fromarray w t a))
                  | PyImage i => hret i
                  | _ => hraise (unsupported_image_type x)
                  end ;;
     let save_path := path_join directory filename in
     host_call (ImageSave pil_image save_path)
       (fun t => may_raise (image_save h t pil_image save_path)) ;;
     lift (print (image_saved_line save_path)) ;;
     hret (Some save_path))%host
    (fun e =>
       lift (print (save_error_line e)) ;;
       hret None)%host.

(** The defaults of [directory] and [filename]. *)
Definition default_directory : str := lit "data".
Definition default_filename : str := lit "uploaded_image.jpg".

(** *** [demo_usage.py] *)

Definition rule : str := repeat 61%N 60.
Definition banner : str := 10%N :: rule.

Definition sample_url : str :=
  lit "https://images.unsplash.com/photo-1518791841217-8f162f1e1131".
Definition sample_save_path : str := lit "data/sample_cat.jpg".
Definition downloading_line : str := [128229; 32]%N ++ lit "Downloading sample image...".
Definition image_saved_to_line (path : str) : str :=
  [9989; 32]%N ++ lit "Image saved to: " ++ path.
Definition download_failed_line (e : exn) : str :=
  [10060; 32]%N ++ lit "Failed to download: " ++ exn_str e.

Definition download_sample_image : MH (option str) :=
  (host_call (Makedirs (lit "data") true)
     (fun t => may_raise (os_makedirs h t (lit "data") true)) ;;
   lift (print downloading_line) ;;
   htry_except
     (host_call (Urlretrieve sample_url sample_save_path)
        (fun t => may_raise (urlretrieve h t sample_url sample_save_path)) ;;
      lift (print (image_saved_to_line sample_save_path)) ;;
      hret (Some sample_save_path))
     (fun e =>
        lift (print (download_failed_line e)) ;;
        hret None))%host.

Definition demo1_title : str :=
  [128444; 65039; 32; 32]%N ++ lit "DEMO 1: Image Captioning".
Definition loaded_image_line (path : str) : str :=
  [128247; 32]%N ++ lit "Loaded image: " ++ path.
(** [f"   Size: {image.size}"] *)
Definition size_line (i : image) : str :=
  lit "   Size: (" ++ str_of_nat (im_width i) ++ lit ", " ++ str_of_nat (im_height i)
  ++ lit ")".
Definition demo_generating_caption_line : str :=
  [10; 129302; 32]%N ++ lit "Generating caption...".
Definition quoted_caption_line (c : str) : str :=
  [10; 9989; 32]%N ++ lit "Caption: " ++ [34%N] ++ c ++ [34%N].
Definition demo_generating_audio_line : str :=
  [10; 128266; 32]%N ++ lit "Generating audio...".
Definition audio_saved_line (path : str) : str :=
  [9989; 32]%N ++ lit "Audio saved to: " ++ path.

(** [if audio_path:] *)
Definition truthy_path (p : option str) : bool :=
  match p with Some s => truthy s | None => false end.

Definition demo_captioning (image_path : str) : M (option str) :=
  print banner ;;
  print demo1_title ;;
  print rule ;;
  try_except
    (image <- call (ImageOpen image_path) (fun t => image_open w t image_path) ;;
     print (loaded_image_line image_path) ;;
     print (size_line image) ;;
     print demo_generating_caption_line ;;
     caption <- caption_image w (PyImage image) default_max_length ;;
     print (quoted_caption_line caption) ;;
     print demo_generating_audio_line ;;
     audio_path <- text_to_speech w caption default_lang default_slow ;;
     (if truthy_path audio_path
      then print (audio_saved_line (match audio_path with Some p => p | None => [] end))
      else ret tt) ;;
     ret (Some caption))
    (fun e =>
       print (error_msg e) ;;
       ret None).

Definition demo2_title : str :=
  [128172; 32]%N ++ lit "DEMO 2: Visual Question Answering".
Definition using_image_line (path : str) : str :=
  [128247; 32]%N ++ lit "Using image: " ++ path.
Definition numbered_question_line (i : nat) (q : str) : str :=
  [10; 10067; 32]%N ++ lit "Question " ++ str_of_nat i ++ lit ": " ++ q.

(** The [for] loop of [demo_vqa], from index [i] on. *)
Fixpoint ask_all (image : image) (i : nat) (questions : list str) : M unit :=
  match questions with
  | [] => ret tt
  | question :: rest =>
      print (numbered_question_line i question) ;;
      answer <- answer_question w (PyImage image) question default_max_length ;;
      print (answer_line answer) ;;
      ask_all image (S i) rest
  end.

Definition demo_vqa (image_path : str) (questions : list str) : M unit :=
  print banner ;;
  print demo2_title ;;
  print rule ;;
  try_except
    (image <- call (ImageOpen image_path) (fun t => image_open w t image_path) ;;
     print (using_image_line image_path) ;;
     ask_all image 1 questions)
    (fun e => print (error_msg e)).

Definition demo3_title : str := [128230; 32]%N ++ lit "DEMO 3: Batch Processing".
Definition processing_line (i total : nat) (path : str) : str :=
  [10; 91]%N ++ str_of_nat i ++ [47%N] ++ str_of_nat total ++ lit "] Processing: " ++ path.
Definition batch_ok_line (c : str) : str := lit "   " ++ [9989; 32]%N ++ c.
Definition batch_error_line (e : exn) : str :=
  lit "   " ++ [10060; 32]%N ++ lit "Error: " ++ exn_str e.

(** The [for] loop of [demo_batch_processing], from index [i] on; a result
    is the pair of the ["image"] and the ["caption"] entry of the dict. *)
Fixpoint process_all (total i : nat) (image_paths : list str) (results : list (str * str))
    : M (list (str * str)) :=
  match image_paths with
  | [] => ret results
  | path :: rest =>
      print (processing_line i total path) ;;
      results' <- try_except
                    (image <- call (ImageOpen path) (fun t => image_open w t path) ;;
                     caption <- caption_image w (PyImage image) default_max_length ;;
                     print (batch_ok_line caption) ;;
                     ret (results ++ [(path, caption)]))
                    (fun e =>
                       print (batch_error_line e) ;;
                       ret results) ;;
      process_all total (S i) rest results'
  end.

Definition demo_batch_processing (image_paths : list str) : M (list (str * str)) :=
  print banner ;;
  print demo3_title ;;
  print rule ;;
  process_all (List.length image_paths) 1 image_paths [].

End Rest.

(** ** Sample hosts *)

Definition calm_host : Host := {|
  os_makedirs := fun _ _ _ => None;
  image_save := fun _ _ _ => None;
  image_resize := fun _ i size _ => Ret (Image (im_mode i) (fst size) (snd size) (im_data i));
  urlretrieve := fun _ _ _ => None
|}.

(** Nothing can be written and the network is down. *)
Definition stuck_host : Host := {|
  os_makedirs := fun _ _ _ => None;
  image_save := fun _ _ _ => Some (Exn "OSError" (lit "No space left on device"));
  image_resize := fun _ i size _ => Ret (Image (im_mode i) (fst size) (snd size) (im_data i));
  urlretrieve := fun _ _ _ => Some (Exn "URLError" (lit "Name or service not known"))
|}.

Definition fresh_session : session := Session initial_state [].

(** ** More readings of the log and the state *)

Definition vqa_constructions (l : list event) : nat := count (prints loaded_vqa_line) l.

Definition vqa_built (s : state) : nat :=
  match vqa_model s with Some _ => 1 | None => 0 end.

(** The question-answering handle is set exactly by a completed
    construction. *)
Definition vqa_settled (s s' : state) : Prop :=
  vqa_constructions (log s') + vqa_built s = vqa_constructions (log s) + vqa_built s'.

(** Between two moments only events of one kind were logged. *)
Definition adds (P : event -> bool) (s s' : state) : Prop :=
  exists new, log s' = log s ++ new /\ forallb P new = true.

(** The calls [text_to_speech] makes. *)
Definition is_speech (e : event) : bool :=
  match e with
  | NamedTemporaryFile _ | GTTS _ _ _ | GTTSSave _ _ => true
  | _ => false
  end.

Definition no_speech (e : event) : bool := negb (is_speech e).

(** Every event but a [generate] with another cap than [n]. *)
Definition capped (n : Z) (e : event) : bool :=
  match e with Generate _ _ k => (k =? n)%Z | _ => true end.

Definition is_open (e : event) : bool :=
  match e with ImageOpen _ => true | _ => false end.

Definition is_read (e : event) : bool :=
  match e with CapRead => true | _ => false end.

(** The paths [Image.open] was called with, in order. *)
Definition opened_paths (l : list event) : list str :=
  flat_map (fun e => match e with ImageOpen p => [p] | _ => [] end) l.

Definition keeps_vqa (s s' : state) : Prop :=
  vqa_model s' = vqa_model s /\ vqa_processor s' = vqa_processor s.

Definition keeps_caption (s s' : state) : Prop :=
  caption_model s' = caption_model s /\ caption_processor s' = caption_processor s.

Definition is_call (e : event) : bool :=
  match e with Print _ => false | _ => true end.

Definition other_line (line l : str) : bool := negb (str_eqb l line).

(** The two kinds of argument [save_uploaded_image] accepts. *)
Definition savable (x : pyobj) : bool :=
  match x with PyNdarray _ | PyImage _ => true | _ => false end.

Definition is_save (e : nat * host_event) : bool :=
  match snd e with ImageSave _ _ => true | _ => false end.

(** The image [save_uploaded_image] gets from its argument when the
    directory was made at count [t], and the count at which it then saves. *)
Definition image_to_save (w : World) (x : pyobj) (t : nat) : option image :=
  match x with
  | PyNdarray a => match image_fromarray w (S t) a with Ret i => Some i | Raise _ => None end
  | PyImage i => Some i
  | _ => None
  end.
Definition save_count (x : pyobj) (t : nat) : nat :=
  match x with PyNdarray _ => S (S t) | _ => S t end.

(** What Pillow promises of [resize]: the size asked for, the mode kept. *)
Record resize_contract (h : Host) : Prop := {
  resize_size : forall t i size r i', image_resize h t i size r = Ret i' ->
    (im_width i', im_height i') = size;
  resize_mode : forall t i size r i', image_resize h t i size r = Ret i' ->
    im_mode i' = im_mode i
}.

(** A relation on states that running code step by step stays within:
    a preorder that printed lines accepted by [line_ok], calls accepted by
    [call_ok] and the bookkeeping of the camera keep. *)
Record stepwise (R : state -> state -> Prop) (line_ok : str -> bool)
    (call_ok : event -> bool) : Prop := {
  sw_refl : forall s, R s s;
  sw_trans : forall s1 s2 s3, R s1 s2 -> R s2 s3 -> R s1 s3;
  sw_line : forall l s, line_ok l = true -> R s (record_line l s);
  sw_call : forall e s, call_ok e = true -> R s (record_call e s);
  sw_cameras : forall n s, R s (set_open_cameras n s)
}.

(** [a] is [b] with some elements left out. *)
Inductive subsequence : list str -> list str -> Prop :=
| sub_nil : subsequence [] []
| sub_take (x : str) (a b : list str) : subsequence a b -> subsequence (x :: a) (x :: b)
| sub_skip (y : str) (a b : list str) : subsequence a b -> subsequence a (y :: b).

(** What [demo_vqa] prints in its loop, from index [i] on, for questions
    that are all blank: each question line, answered with the fixed
    sentence. *)
Fixpoint blank_dialogue (i : nat) (questions : list str) : list event :=
  match questions with
  | [] => []
  | q :: rest =>
      Print (numbered_question_line i q) :: Print (answer_line ask_a_question)
      :: blank_dialogue (S i) rest
  end.

(** A question that gets past the guard of [answer_question]. *)
Definition asks (q : str) : bool := negb (not_or_blank q).

Definition not_open (e : event) : bool := negb (is_open e).

Definition not_generate (e : event) : bool := negb (is_generate e).

(** The state in which [demo_captioning] calls [caption_image], once
    [Image.open] at the path has returned [i]. *)
Definition demo_captioning_ready (path : str) (i : image) (s : state) : state :=
  record_line demo_generating_caption_line
    (record_line (size_line i)
       (record_line (loaded_image_line path)
          (record_call (ImageOpen path)
             (record_line rule (record_line demo1_title (record_line banner s)))))).

(** ** Strings *)

Section Strings.

Lemma str_eqb_nil (s : str) : str_eqb s [] = true <-> s = [].
Proof. destruct s; simpl; split; congruence. Qed.

Lemma lstrip_nil (s : str) : lstrip s = [] <-> whitespace_only s.
Proof.
  unfold whitespace_only.
  induction s as [|c t IH]; simpl.
  - split; auto.
  - destruct (isspace c) eqn:E.
    + rewrite IH. split; intro H.
      * constructor; assumption.
      * inversion H; assumption.
    + split; intro H; [discriminate|].
      inversion H; congruence.
Qed.

Lemma whitespace_only_lstrip (s : str) : whitespace_only (lstrip s) <-> whitespace_only s.
Proof.
  unfold whitespace_only.
  induction s as [|c t IH]; simpl; [tauto|].
  destruct (isspace c) eqn:E; [|tauto].
  rewrite IH. split; intro H.
  - constructor; assumption.
  - inversion H; assumption.
Qed.

Lemma whitespace_only_rev (s : str) : whitespace_only (rev s) <-> whitespace_only s.
Proof.
  unfold whitespace_only. rewrite !Forall_forall.
  split; intros H c Hc; apply H.
  - rewrite <- in_rev. exact Hc.
  - rewrite in_rev. exact Hc.
Qed.

Lemma strip_nil (s : str) : strip s = [] <-> whitespace_only s.
Proof.
  unfold strip, rstrip.
  rewrite <- (whitespace_only_lstrip s), <- (whitespace_only_rev (lstrip s)).
  rewrite <- lstrip_nil.
  split; intro H.
  - apply (f_equal (@rev char)) in H. rewrite rev_involutive in H. exact H.
  - rewrite H. reflexivity.
Qed.

(** The guard [not s or s.strip() == ""] holds exactly of the empty and the
    whitespace-only strings. *)
Lemma not_or_blank_spec (s : str) : not_or_blank s = true <-> whitespace_only s.
Proof.
  unfold not_or_blank. rewrite orb_true_iff, str_eqb_nil, strip_nil.
  split.
  - intros [H|H]; [|exact H]. destruct s; [constructor|discriminate].
  - intro H; right; exact H.
Qed.

Lemma not_or_blank_false (s : str) : not_or_blank s = false <-> ~ whitespace_only s.
Proof.
  rewrite <- not_or_blank_spec. destruct (not_or_blank s); split; congruence.
Qed.

End Strings.

(** ** How the log and the handles evolve *)

Section Evolution.

Variable w : World.

Lemma count_snoc (p : event -> bool) (l : list event) (e : event) :
  count p (l ++ [e]) = count p l + (if p e then 1 else 0).
Proof.
  unfold count. rewrite filter_app, length_app. simpl.
  destruct (p e); reflexivity.
Qed.

Lemma evolves_refl (s : state) : evolves s s.
Proof. constructor; intros; auto. Qed.

Lemma evolves_trans (s1 s2 s3 : state) : evolves s1 s2 -> evolves s2 s3 -> evolves s1 s3.
Proof.
  intros [c1 v1 r1 b1 p1] [c2 v2 r2 b2 p2]. constructor.
  - intros m H. destruct (c1 m H) as [H1 E1]. destruct (c2 m H1) as [H2 E2].
    split; congruence.
  - intros m H. destruct (v1 m H) as [H1 E1]. destruct (v2 m H1) as [H2 E2].
    split; congruence.
  - lia.
  - lia.
  - auto.
Qed.

Lemma evolves_record_line (l : str) (s : state) :
  ordinary l = true -> evolves s (record_line l s).
Proof.
  unfold ordinary. rewrite !andb_true_iff, !negb_true_iff. intros [[H1 H2] H3].
  constructor; simpl; unfold caption_attempts, vqa_attempts, resolutions,
    caption_constructions, built; simpl; rewrite ?count_snoc; simpl;
    rewrite ?H1, ?H2, ?H3; intros; try split; auto; lia.
Qed.

Lemma evolves_record_call (e : event) (s : state) :
  is_resolution e = false -> (forall l, e <> Print l) -> evolves s (record_call e s).
Proof.
  intros H1 H2.
  assert (P : forall l, prints l e = false).
  { intro l. destruct e; try reflexivity. exfalso. apply (H2 line). reflexivity. }
  constructor; simpl; unfold caption_attempts, vqa_attempts, resolutions,
    caption_constructions, built; simpl; rewrite ?count_snoc; simpl;
    rewrite ?H1, ?P; intros; try split; auto; lia.
Qed.

Lemma respects_ret {A} (a : A) : respects evolves (ret a).
Proof. intro s. apply evolves_refl. Qed.

Lemma respects_raise {A} (e : exn) : respects evolves (@raise A e).
Proof. intro s. apply evolves_refl. Qed.

Lemma respects_get {A} (f : state -> A) : respects evolves (get f).
Proof. intro s. apply evolves_refl. Qed.

Lemma respects_bind {A B} (m : M A) (k : A -> M B) :
  respects evolves m -> (forall a, respects evolves (k a)) -> respects evolves (bind m k).
Proof.
  intros Hm Hk s. unfold bind. specialize (Hm s).
  destruct (m s) as [[a|e] s']; simpl in *.
  - eapply evolves_trans; [exact Hm | apply Hk].
  - exact Hm.
Qed.

Lemma respects_try_except {A} (body : M A) (handler : exn -> M A) :
  respects evolves body -> (forall e, respects evolves (handler e)) ->
  respects evolves (try_except body handler).
Proof.
  intros Hm Hk s. unfold try_except. specialize (Hm s).
  destruct (body s) as [[a|e] s']; simpl in *.
  - exact Hm.
  - eapply evolves_trans; [exact Hm | apply Hk].
Qed.

Lemma respects_print (l : str) : ordinary l = true -> respects evolves (print l).
Proof. intros H s. apply evolves_record_line, H. Qed.

Lemma respects_call {A} (e : event) (oracle : nat -> outcome A) :
  is_resolution e = false -> (forall l, e <> Print l) -> respects evolves (call e oracle).
Proof. intros H1 H2 s. apply evolves_record_call; assumption. Qed.

Lemma respects_set_open_cameras (f : state -> state) :
  (forall s, f s = s \/ exists n, f s = set_open_cameras n s) ->
  respects evolves (modify f).
Proof.
  intros H s. simpl. destruct (H s) as [E|[n E]]; rewrite E.
  - apply evolves_refl.
  - constructor; simpl; intros; auto.
Qed.

Ltac steady_with known :=
  repeat first
    [ assumption
    | known
    | apply respects_ret | apply respects_raise | apply respects_get
    | apply respects_bind; [|intro]
    | apply respects_try_except; [|intro]
    | apply respects_print; reflexivity
    | apply respects_call; [reflexivity | intro; discriminate]
    | match goal with |- respects _ (match ?x with _ => _ end) => destruct x end
    | match goal with |- respects _ (if ?x then _ else _) => destruct x end ].

Ltac steady := steady_with fail.

Ltac tally :=
  constructor;
  unfold caption_attempts, vqa_attempts, resolutions, caption_constructions, built;
  simpl; rewrite ?count_snoc; simpl; intros;
  repeat match goal with H : ?x = _ |- context [match ?x with _ => _ end] => rewrite H end;
  try split; try congruence; try lia;
  try (match goal with
       | s : state, H : paired _ = true |- _ =>
           unfold paired in *; simpl in *;
           destruct (caption_model s), (caption_processor s), (vqa_model s),
             (vqa_processor s); simpl in *; congruence
       end).

Lemma load_caption_model_evolves : respects evolves (load_caption_model w).
Proof.
  intro s. unfold load_caption_model, bind, get, print, modify, ret, get_device,
    to_device, call, bind, ret.
  destruct (caption_model s) eqn:E; simpl.
  - apply evolves_refl.
  - destruct (cuda_is_available w (clock s)); simpl.
    + destruct (processor_from_pretrained w _ _); simpl; [|tally].
      destruct (caption_from_pretrained w _ _); simpl; [|tally].
      destruct (module_to w _ _ _); simpl; tally.
    + destruct (mps_is_available w _); simpl.
      * destruct (processor_from_pretrained w _ _); simpl; [|tally].
        destruct (caption_from_pretrained w _ _); simpl; [|tally].
        destruct (module_to w _ _ _); simpl; tally.
      * destruct (processor_from_pretrained w _ _); simpl; [|tally].
        destruct (caption_from_pretrained w _ _); simpl; [|tally].
        destruct (module_to w _ _ _); simpl; tally.
Qed.

Lemma load_vqa_model_evolves : respects evolves (load_vqa_model w).
Proof.
  intro s. unfold load_vqa_model, bind, get, print, modify, ret, get_device,
    to_device, call, bind, ret.
  destruct (vqa_model s) eqn:E; simpl.
  - apply evolves_refl.
  - destruct (cuda_is_available w (clock s)); simpl.
    + destruct (processor_from_pretrained w _ _); simpl; [|tally].
      destruct (vqa_from_pretrained w _ _); simpl; [|tally].
      destruct (module_to w _ _ _); simpl; tally.
    + destruct (mps_is_available w _); simpl.
      * destruct (processor_from_pretrained w _ _); simpl; [|tally].
        destruct (vqa_from_pretrained w _ _); simpl; [|tally].
        destruct (module_to w _ _ _); simpl; tally.
      * destruct (processor_from_pretrained w _ _); simpl; [|tally].
        destruct (vqa_from_pretrained w _ _); simpl; [|tally].
        destruct (module_to w _ _ _); simpl; tally.
Qed.

Lemma prepare_image_evolves (x : pyobj) : respects evolves (prepare_image w x).
Proof. unfold prepare_image, convert_rgb. steady. Qed.

Lemma caption_image_evolves (x : pyobj) (n : Z) : respects evolves (caption_image w x n).
Proof.
  unfold caption_image, encode, generate, first_output, decode.
  apply respects_bind; [apply load_caption_model_evolves|].
  intros [[m p] d].
  apply respects_bind; [apply prepare_image_evolves|]. intro.
  steady.
Qed.

Lemma answer_question_evolves (x : pyobj) (q : str) (n : Z) :
  respects evolves (answer_question w x q n).
Proof.
  unfold answer_question, encode, generate, first_output, decode.
  destruct (not_or_blank q); [steady|].
  apply respects_bind; [apply load_vqa_model_evolves|].
  intros [[m p] d].
  apply respects_bind; [apply prepare_image_evolves|]. intro.
  steady.
Qed.

Lemma text_to_speech_evolves (text lang : str) (slow : bool) :
  respects evolves (text_to_speech w text lang slow).
Proof. unfold text_to_speech, new_temporary_file. steady. Qed.

Lemma capture_webcam_frame_evolves : respects evolves (capture_webcam_frame w).
Proof.
  unfold capture_webcam_frame, open_capture, is_opened, read_frame, release,
    destroy_capture.
  apply respects_bind; [steady|intro held].
  apply respects_bind;
    [|intro result; apply respects_bind; [|intro; steady];
      apply respects_set_open_cameras; intro s; destruct (held <? open_cameras s); eauto].
  apply respects_try_except; [|intro; steady].
  apply respects_bind; [|intro cap].
  { apply respects_bind; [steady|intro opened].
    apply respects_bind; [|intro; steady].
    apply respects_set_open_cameras. intro s. destruct opened; eauto. }
  apply respects_bind; [steady|intro opened].
  destruct (negb opened); [steady|].
  apply respects_bind; [steady|intro r].
  apply respects_bind; [|intro; steady].
  apply respects_bind; [steady|intro].
  apply respects_set_open_cameras. intro s. destruct cap; eauto.
Qed.

Ltac steady' :=
  steady_with ltac:(first
    [ apply caption_image_evolves | apply answer_question_evolves
    | apply text_to_speech_evolves | apply capture_webcam_frame_evolves ]).

Lemma generate_caption_with_audio_evolves (x : pyobj) (tts : bool) :
  respects evolves (generate_caption_with_audio w x tts).
Proof.
  unfold generate_caption_with_audio, describe_body, report_error, speak_if. steady'.
Qed.

Lemma answer_with_audio_evolves (x : pyobj) (q : str) (tts : bool) :
  respects evolves (answer_with_audio w x q tts).
Proof.
  unfold answer_with_audio, answer_body, report_error, speak_if. steady'.
Qed.

Lemma capture_and_caption_evolves (tts : bool) :
  respects evolves (capture_and_caption w tts).
Proof.
  unfold capture_and_caption, capture_body, report_error. steady'.
Qed.

Lemma serve_evolves (r : request) (s : state) : evolves s (serve w r s).
Proof.
  destruct r; simpl.
  - apply caption_image_evolves.
  - apply answer_question_evolves.
  - apply generate_caption_with_audio_evolves.
  - apply answer_with_audio_evolves.
  - apply capture_and_caption_evolves.
Qed.

Lemma serve_all_evolves (rs : list request) (s : state) : evolves s (serve_all w rs s).
Proof.
  revert s. induction rs as [|r rs IH]; intro s; simpl.
  - apply evolves_refl.
  - eapply evolves_trans; [apply serve_evolves | apply IH].
Qed.

(** Every state a process reaches has its handles paired with processors. *)
Lemma serve_all_paired (rs : list request) : paired (serve_all w rs initial_state) = true.
Proof. apply (ev_paired (serve_all_evolves rs initial_state)). reflexivity. Qed.

End Evolution.

(** ** The claims *)

Section Claims.

Variable w : World.

(** *** Capture Source *)


Lemma ltb_succ_self (n : nat) : (n <? S n) = true.
Proof. apply Nat.ltb_lt. lia. Qed.




(** *** Speech Synthesizer *)

Lemma text_to_speech_blank (text lang : str) (slow : bool) (s : state) :
  whitespace_only text -> text_to_speech w text lang slow s = (Ret None, s).
Proof.
  intro H. apply not_or_blank_spec in H.
  unfold text_to_speech, try_except. rewrite H. reflexivity.
Qed.

(** C5, as the code has it: [text_to_speech] never raises; on an empty or
    whitespace-only text it returns [None] leaving the state as it was, so
    without a call to the backend; it returns [None] in exactly three cases:
    the text is such, the allocation of the temporary file raises, in which
    case the error is printed and the backend is not called either, or a
    backend call raises, and then that error is printed; otherwise it
    returns the path of the temporary file the speech was saved to. *)
Theorem text_to_speech_none_exactly (text lang : str) (slow : bool) (s : state) :
  let r := text_to_speech w text lang slow s in
  (exists v, fst r = Ret v)
  /\ (whitespace_only text -> r = (Ret None, s))
  /\ (fst r = Ret None <->
      whitespace_only text
      \/ (exists e, allocation w s = Raise e)
      \/ (exists path, allocation w s = Ret path
                       /\ backend_error w text lang slow s path <> None))
  /\ (forall e, ~ whitespace_only text -> allocation w s = Raise e ->
      log (snd r) = log s ++ [NamedTemporaryFile (lit ".mp3"); Print (speech_error_line e)])
  /\ (forall path e, ~ whitespace_only text -> allocation w s = Ret path ->
      backend_error w text lang slow s path = Some e ->
      exists l, log (snd r) = l ++ [Print (speech_error_line e)])
  /\ (forall path, ~ whitespace_only text -> allocation w s = Ret path ->
      backend_error w text lang slow s path = None ->
      fst r = Ret (Some path) /\ In (GTTSSave text path) (log (snd r))).
Proof.
  intros r. subst r.
  destruct (not_or_blank text) eqn:B.
  - assert (W : whitespace_only text) by (apply not_or_blank_spec; exact B).
    rewrite (text_to_speech_blank lang slow s W). simpl.
    split; [eauto|]. split; [reflexivity|].
    split; [split; [intros _; left; exact W | reflexivity]|].
    split; [intros e N; tauto|]. split; [intros path e N; tauto|]. intros path N; tauto.
  - assert (W : ~ whitespace_only text) by (apply not_or_blank_false; exact B).
    unfold allocation, backend_error, text_to_speech, try_except, new_temporary_file,
      bind, call, print, modify, ret, may_raise. rewrite B. simpl.
    destruct (named_temporary_file w (clock s) (lit ".mp3")) as [path|e0]; simpl.
    2:{ split; [eauto|]. split; [tauto|].
        split; [split; [intros _; right; left; eauto | reflexivity]|].
        split; [intros e _ E; injection E as <-; rewrite <- app_assoc; reflexivity|].
        split; [intros p e _ E; discriminate|]. intros p _ E; discriminate. }
    destruct (gtts_init w (S (clock s)) text lang slow) as [e1|]; simpl.
    + split; [eauto|]. split; [tauto|].
      split; [split; [intros _; right; right; exists path; split;
                      [reflexivity | discriminate] | reflexivity]|].
      split; [intros e _ E; discriminate|].
      split; [intros p e _ E1 E2; injection E2 as <-; eexists; reflexivity|].
      intros p _ E1 E2; discriminate.
    + destruct (gtts_save w (S (S (clock s))) text path) as [e2|] eqn:Sv; simpl.
      * split; [eauto|]. split; [tauto|].
        split; [split; [intros _; right; right; exists path; split;
                        [reflexivity | rewrite Sv; discriminate] | reflexivity]|].
        split; [intros e _ E; discriminate|].
        split; [intros p e _ E1 E2; injection E1 as <-; rewrite Sv in E2;
                injection E2 as <-; eexists; reflexivity|].
        intros p _ E1 E2. injection E1 as <-. rewrite Sv in E2. discriminate.
      * split; [eauto|]. split; [tauto|].
        split; [split; [discriminate|]|].
        { intros [H|[[e H]|[p [H1 H2]]]]; [tauto | discriminate |].
          injection H1 as <-. rewrite Sv in H2. congruence. }
        split; [intros e _ E; discriminate|].
        split; [intros p e _ E1 E2; injection E1 as <-; rewrite Sv in E2; discriminate|].
        intros p _ E1 _. injection E1 as <-. split; [reflexivity|].
        apply in_or_app. left. apply in_or_app. right. left. reflexivity.
Qed.

(** *** Image Normalizer *)

(** [prepare_image] returns exactly when Pillow reads the argument. *)
Lemma prepare_image_accepts (x : pyobj) (s : state) :
  returns (fst (prepare_image w x s)) = pillow_accepts w x (clock s).
Proof.
  unfold prepare_image, convert_rgb, bind, call, raise, pillow_accepts, source.
  destruct x; simpl; auto.
  - destruct (image_open w _ _); reflexivity.
  - destruct (image_fromarray w _ _); reflexivity.
Qed.

(** C6: [prepare_image] turns an argument away, before any call to Pillow,
    exactly when it is none of a path string, an array and an image; the
    error is a [ValueError] whose text carries the type of the argument; an
    argument of the three kinds is handed to Pillow and accepted whenever
    Pillow reads it. *)
Theorem prepare_image_unsupported (x : pyobj) (s : state) :
  (supported x = false <->
   prepare_image w x s = (Raise (unsupported_image_type x), s))
  /\ exn_class (unsupported_image_type x) = "ValueError"%string
  /\ exn_str (unsupported_image_type x) = lit "Unsupported image type: " ++ type_repr x
  /\ (forall n, x = PyOther n ->
      exn_str (unsupported_image_type x)
      = lit "Unsupported image type: <class '" ++ lit n ++ lit "'>")
  /\ (supported x = true ->
      returns (fst (prepare_image w x s)) = pillow_accepts w x (clock s)
      /\ List.length (log s) < List.length (log (snd (prepare_image w x s)))).
Proof.
  assert (G : supported x = true ->
              List.length (log s) < List.length (log (snd (prepare_image w x s)))).
  { destruct x; simpl; try discriminate; intros _;
      unfold bind, call, convert_rgb; simpl.
    - destruct (image_open w (clock s) s0); simpl; rewrite ?length_app; simpl; lia.
    - destruct (image_fromarray w (clock s) a); simpl; rewrite ?length_app; simpl; lia.
    - rewrite ?length_app; simpl; lia. }
  split; [split|].
  - destruct x; simpl; intro H; try discriminate; reflexivity.
  - destruct (supported x) eqn:S; [|reflexivity].
    intro H. exfalso. specialize (G eq_refl). rewrite H in G. simpl in G. lia.
  - split; [reflexivity|]. split; [reflexivity|]. split.
    + intros n ->. reflexivity.
    + intro S. split; [apply prepare_image_accepts | apply G, S].
Qed.

(** C7: for an argument of one of the three kinds that Pillow reads,
    whose source is the image decoded from the path, wrapped around the
    array, or the image itself, [prepare_image] returns an image; that image
    has mode RGB, so three bands, and the width and height of the source. *)
Theorem prepare_image_rgb_same_size (x : pyobj) (s : state) :
  pillow_contract w ->
  supported x = true ->
  returns (fst (prepare_image w x s)) = pillow_accepts w x (clock s)
  /\ forall img, fst (prepare_image w x s) = Ret img ->
       im_mode img = RGB /\ bands (im_mode img) = 3
       /\ source_size w x (clock s) = Some (im_width img, im_height img).
Proof.
  intros [Hm Hs Hf] Hx.
  assert (K : forall t i img, image_convert w t i RGB = Ret img ->
            im_mode img = RGB /\ bands (im_mode img) = 3
            /\ Some (im_width i, im_height i) = Some (im_width img, im_height img)).
  { intros t i img H. pose proof (Hm _ _ _ _ H) as E. destruct (Hs _ _ _ _ H) as [E1 E2].
    rewrite E, E1, E2. repeat split. }
  destruct x; try discriminate; unfold prepare_image, convert_rgb, bind, call,
    pillow_accepts, source_size, source; simpl.
  - destruct (image_open w (clock s) s0) as [i|e] eqn:O; simpl.
    + split; [reflexivity|]. intros img H. apply (K _ _ _ H).
    + split; [reflexivity|]. discriminate.
  - destruct (image_fromarray w (clock s) a) as [i|e] eqn:O; simpl.
    + split; [reflexivity|]. intros img H. rewrite (Hf _ _ _ O). apply (K _ _ _ H).
    + split; [reflexivity|]. discriminate.
  - split; [reflexivity|]. intros img H. apply (K _ _ _ H).
Qed.

(** *** Caption Engine and Visual-QA Engine *)

Lemma caption_image_unfold (x : pyobj) (n : Z) :
  caption_image w x n = pipeline w (load_caption_model w) x None n.
Proof. reflexivity. Qed.

Lemma answer_question_unfold (x : pyobj) (q : str) (n : Z) :
  not_or_blank q = false ->
  answer_question w x q n = pipeline w (load_vqa_model w) x (Some q) n.
Proof. intro H. unfold answer_question. rewrite H. reflexivity. Qed.

(** A returning run of the shared steps called [generate] once, with the
    cap it was given, and returns what [decode] made of the first sequence
    with the special tokens left out. *)
Lemma infer_returns (m : option model) (p : option processor) (dev : option str)
    (i : image) (text : option str) (n : Z) (s s' : state) (r : str) :
  infer w m p dev i text n s = (Ret r, s') ->
  exists m0 p0 b o outs,
    m = Some m0 /\ p = Some p0
    /\ log s' = log s ++ [ProcessorCall p0 i text; BatchTo b dev;
                           Generate m0 (Batch (batch_pixels b) (batch_text b) dev) n;
                           Decode p0 o true]
    /\ model_generate w (S (S (clock s))) m0 (Batch (batch_pixels b) (batch_text b) dev) n
       = Ret (o :: outs)
    /\ processor_decode w (S (S (S (clock s)))) p0 o true = Ret r
    /\ clock s' = 4 + clock s
    /\ caption_model s' = caption_model s /\ caption_processor s' = caption_processor s
    /\ vqa_model s' = vqa_model s /\ vqa_processor s' = vqa_processor s.
Proof.
  unfold infer, encode, generate, first_output, decode, bind, call, ret, raise, may_raise.
  intro H.
  destruct p as [p0|]; [|discriminate].
  simpl in H.
  destruct (processor_call w (clock s) p0 i text) as [b|] eqn:E1; [|discriminate].
  simpl in H.
  destruct (batch_to w (S (clock s)) b dev) eqn:E2; [discriminate|].
  simpl in H.
  destruct m as [m0|]; [|discriminate].
  simpl in H.
  destruct (model_generate w _ m0 _ n) as [[|o outs]|] eqn:E3; try discriminate.
  simpl in H.
  destruct (processor_decode w _ p0 o true) as [r'|] eqn:E4; [|discriminate].
  simpl in H. injection H as <- <-.
  exists m0, p0, b, o, outs. simpl.
  repeat split; auto.
  rewrite <- !app_assoc. reflexivity.
Qed.

(** Whatever happens, the shared steps call [generate] at most once and
    only with the cap they were given. *)
Lemma infer_cap (m : option model) (p : option processor) (dev : option str)
    (i : image) (text : option str) (n : Z) (s : state) :
  exists new, log (snd (infer w m p dev i text n s)) = log s ++ new
    /\ count is_generate new <= 1
    /\ forall m0 b k, In (Generate m0 b k) new -> k = n.
Proof.
  unfold infer, encode, generate, first_output, decode, bind, call, ret, raise, may_raise.
  destruct p as [p0|]; simpl.
  2:{ exists []. rewrite app_nil_r. repeat split; auto. simpl; tauto. }
  destruct (processor_call w (clock s) p0 i text) as [b|]; simpl.
  2:{ eexists. split; [reflexivity|]. split; [cbv; lia|].
      simpl. intros ? ? ? [H|[]]; discriminate. }
  destruct (batch_to w (S (clock s)) b dev); simpl.
  { eexists. split; [rewrite <- !app_assoc; reflexivity|]. split; [cbv; lia|].
    simpl. intros ? ? ? [H|[H|[]]]; discriminate. }
  destruct m as [m0|]; simpl.
  2:{ eexists. split; [rewrite <- !app_assoc; reflexivity|]. split; [cbv; lia|].
      simpl. intros ? ? ? [H|[H|[]]]; discriminate. }
  destruct (model_generate w _ m0 _ n) as [[|o outs]|]; simpl.
  1,3: eexists; (split; [rewrite <- !app_assoc; reflexivity|]); (split; [cbv; lia|]);
       simpl; intros ? ? ? [H|[H|[H|[]]]]; congruence.
  destruct (processor_decode w _ p0 o true); simpl;
    eexists; (split; [rewrite <- !app_assoc; reflexivity|]); (split; [cbv; lia|]);
    simpl; intros ? ? ? [H|[H|[H|[H|[]]]]]; congruence.
Qed.

Ltac quiet_case :=
  eexists; split;
  [ rewrite <- ?app_assoc; reflexivity
  | simpl; intros ? H; repeat (destruct H as [<-|H]; [reflexivity|]); contradiction ].

Lemma load_caption_model_quiet (s : state) : quiet (load_caption_model w) s.
Proof.
  unfold quiet, load_caption_model, bind, get, print, modify, ret, get_device,
    to_device, call, bind, ret, may_raise.
  destruct (caption_model s); simpl.
  - exists []. rewrite app_nil_r. split; [reflexivity | intros ? []].
  - destruct (cuda_is_available w (clock s)); simpl;
      [|destruct (mps_is_available w _); simpl];
      (destruct (processor_from_pretrained w _ _); simpl; [|quiet_case]);
      (destruct (caption_from_pretrained w _ _); simpl; [|quiet_case]);
      destruct (module_to w _ _ _); simpl; quiet_case.
Qed.

Lemma load_vqa_model_quiet (s : state) : quiet (load_vqa_model w) s.
Proof.
  unfold quiet, load_vqa_model, bind, get, print, modify, ret, get_device,
    to_device, call, bind, ret, may_raise.
  destruct (vqa_model s); simpl.
  - exists []. rewrite app_nil_r. split; [reflexivity | intros ? []].
  - destruct (cuda_is_available w (clock s)); simpl;
      [|destruct (mps_is_available w _); simpl];
      (destruct (processor_from_pretrained w _ _); simpl; [|quiet_case]);
      (destruct (vqa_from_pretrained w _ _); simpl; [|quiet_case]);
      destruct (module_to w _ _ _); simpl; quiet_case.
Qed.

Lemma prepare_image_quiet (x : pyobj) (s : state) : quiet (prepare_image w x) s.
Proof.
  unfold quiet, prepare_image, convert_rgb, bind, call, raise.
  destruct x; simpl.
  - exists []. rewrite app_nil_r. split; [reflexivity | intros ? []].
  - destruct (image_open w _ _); simpl; quiet_case.
  - destruct (image_fromarray w _ _); simpl; quiet_case.
  - quiet_case.
  - exists []. rewrite app_nil_r. split; [reflexivity | intros ? []].
Qed.

(** What a loader returns is what the globals hold when it returns, and the
    handle is among it. *)
Lemma load_caption_model_returns (s s' : state) l :
  load_caption_model w s = (Ret l, s') ->
  l = (caption_model s', caption_processor s', device s')
  /\ is_some (caption_model s') = true.
Proof.
  unfold load_caption_model, bind, get, print, modify, ret, get_device,
    to_device, call, bind, ret, may_raise.
  destruct (caption_model s) eqn:E; simpl.
  - intro H. injection H as <- <-. rewrite E. auto.
  - destruct (cuda_is_available w (clock s)); simpl;
      [|destruct (mps_is_available w _); simpl];
      (destruct (processor_from_pretrained w _ _); simpl; [|discriminate]);
      (destruct (caption_from_pretrained w _ _); simpl; [|discriminate]);
      (destruct (module_to w _ _ _); simpl; [discriminate|]);
      intro H; injection H as <- <-; auto.
Qed.

Lemma load_vqa_model_returns (s s' : state) l :
  load_vqa_model w s = (Ret l, s') ->
  l = (vqa_model s', vqa_processor s', device s')
  /\ is_some (vqa_model s') = true.
Proof.
  unfold load_vqa_model, bind, get, print, modify, ret, get_device,
    to_device, call, bind, ret, may_raise.
  destruct (vqa_model s) eqn:E; simpl.
  - intro H. injection H as <- <-. rewrite E. auto.
  - destruct (cuda_is_available w (clock s)); simpl;
      [|destruct (mps_is_available w _); simpl];
      (destruct (processor_from_pretrained w _ _); simpl; [|discriminate]);
      (destruct (vqa_from_pretrained w _ _); simpl; [|discriminate]);
      (destruct (module_to w _ _ _); simpl; [discriminate|]);
      intro H; injection H as <- <-; auto.
Qed.

(** [prepare_image] touches no global. *)
Lemma prepare_image_globals (x : pyobj) (s : state) :
  let s' := snd (prepare_image w x s) in
  caption_model s' = caption_model s /\ caption_processor s' = caption_processor s
  /\ vqa_model s' = vqa_model s /\ vqa_processor s' = vqa_processor s
  /\ device s' = device s.
Proof.
  unfold prepare_image, convert_rgb, bind, call, raise.
  destruct x; simpl; auto.
  - destruct (image_open w _ _); simpl; auto.
  - destruct (image_fromarray w _ _); simpl; auto.
Qed.

Ltac works H :=
  match goal with
  | |- context [processor_from_pretrained w ?t ?n] =>
      let E := fresh in pose proof (processor_loads H t n) as E;
      destruct (processor_from_pretrained w t n); [clear E|discriminate E]
  | |- context [caption_from_pretrained w ?t ?n] =>
      let E := fresh in pose proof (caption_loads H t n) as E;
      destruct (caption_from_pretrained w t n); [clear E|discriminate E]
  | |- context [vqa_from_pretrained w ?t ?n] =>
      let E := fresh in pose proof (vqa_loads H t n) as E;
      destruct (vqa_from_pretrained w t n); [clear E|discriminate E]
  | |- context [module_to w ?t ?m ?d] => rewrite (module_moves H t m d)
  | |- context [batch_to w ?t ?b ?d] => rewrite (batch_moves H t b d)
  | |- context [processor_call w ?t ?p ?i ?q] =>
      let E := fresh in pose proof (processor_encodes H t p i q) as E;
      destruct (processor_call w t p i q); [clear E|discriminate E]
  | |- context [model_generate w ?t ?m ?b ?n] =>
      let o := fresh "o" in let outs := fresh "outs" in let E := fresh in
      destruct (model_generates H t m b n) as (o & outs & E); rewrite E
  | |- context [processor_decode w ?t ?p ?o ?f] =>
      let E := fresh in pose proof (processor_decodes H t p o f) as E;
      destruct (processor_decode w t p o f); [clear E|discriminate E]
  end; simpl.

Lemma load_caption_model_works (s : state) :
  transformers_work w -> returns (fst (load_caption_model w s)) = true.
Proof.
  intro H.
  unfold load_caption_model, bind, get, print, modify, ret, get_device,
    to_device, call, bind, ret, may_raise.
  destruct (caption_model s); simpl; [reflexivity|].
  destruct (cuda_is_available w (clock s)); simpl;
    [|destruct (mps_is_available w _); simpl]; repeat works H; reflexivity.
Qed.

Lemma load_vqa_model_works (s : state) :
  transformers_work w -> returns (fst (load_vqa_model w s)) = true.
Proof.
  intro H.
  unfold load_vqa_model, bind, get, print, modify, ret, get_device,
    to_device, call, bind, ret, may_raise.
  destruct (vqa_model s); simpl; [reflexivity|].
  destruct (cuda_is_available w (clock s)); simpl;
    [|destruct (mps_is_available w _); simpl]; repeat works H; reflexivity.
Qed.

Lemma infer_works (m : model) (p : processor) (dev : option str) (i : image)
    (text : option str) (n : Z) (s : state) :
  transformers_work w -> returns (fst (infer w (Some m) (Some p) dev i text n s)) = true.
Proof.
  intro H.
  unfold infer, encode, generate, first_output, decode, bind, call, ret, raise, may_raise.
  simpl. repeat works H. reflexivity.
Qed.

Lemma count_app (p : event -> bool) (a b : list event) :
  count p (a ++ b) = count p a + count p b.
Proof. unfold count. rewrite filter_app, length_app. reflexivity. Qed.

Lemma count_none (p : event -> bool) (l : list event) :
  (forall e, In e l -> p e = false) -> count p l = 0.
Proof.
  unfold count. induction l as [|e l IH]; intro H; simpl; [reflexivity|].
  rewrite (H e (or_introl eq_refl)). apply IH. intros e' He'. apply H. right. exact He'.
Qed.

Section Pipeline.

Variable loader : M (option model * option processor * option str).
Variables (x : pyobj) (text : option str) (n : Z).

Lemma pipeline_returns (s s' : state) (c : str) :
  pipeline w loader x text n s = (Ret c, s') ->
  exists m p dev s1 i s2,
    loader s = (Ret (m, p, dev), s1)
    /\ prepare_image w x s1 = (Ret i, s2)
    /\ infer w m p dev i text n s2 = (Ret c, s').
Proof.
  unfold pipeline, bind at 1.
  destruct (loader s) as [[[[m p] dev]|e] s1]; [|discriminate].
  unfold bind at 1.
  destruct (prepare_image w x s1) as [[i|e] s2] eqn:P; [|discriminate].
  intro H. exists m, p, dev, s1, i, s2. repeat split; auto.
Qed.

Lemma pipeline_cap (s : state) :
  (forall s0, quiet loader s0) ->
  exists new, log (snd (pipeline w loader x text n s)) = log s ++ new
    /\ count is_generate new <= 1
    /\ forall m b k, In (Generate m b k) new -> k = n.
Proof.
  intro Q.
  destruct (Q s) as (new1 & L1 & N1).
  unfold pipeline, bind at 1.
  destruct (loader s) as [[[[m p] dev]|e] s1]; simpl in *.
  2:{ exists new1. split; [exact L1|]. split.
      - rewrite (count_none _ _ N1). lia.
      - intros m b k H. apply N1 in H. discriminate. }
  destruct (prepare_image_quiet x s1) as (new2 & L2 & N2).
  unfold bind at 1.
  destruct (prepare_image w x s1) as [[i|e] s2]; simpl in *.
  2:{ exists (new1 ++ new2). split; [rewrite L2, L1, app_assoc; reflexivity|]. split.
      - rewrite count_app, (count_none _ _ N1), (count_none _ _ N2). lia.
      - intros m0 b k H. apply in_app_or in H. destruct H as [H|H];
          [apply N1 in H | apply N2 in H]; discriminate. }
  destruct (infer_cap m p dev i text n s2) as (new3 & L3 & C3 & N3).
  exists (new1 ++ new2 ++ new3). split.
  - rewrite L3, L2, L1, <- !app_assoc. reflexivity.
  - split.
    + rewrite !count_app, (count_none _ _ N1), (count_none _ _ N2). lia.
    + intros m0 b k H. apply in_app_or in H. destruct H as [H|H].
      * apply N1 in H. discriminate.
      * apply in_app_or in H. destruct H as [H|H].
        -- apply N2 in H. discriminate.
        -- apply (N3 _ _ _ H).
Qed.

Lemma pipeline_generates_once (s s' : state) (c : str) :
  (forall s0, quiet loader s0) ->
  pipeline w loader x text n s = (Ret c, s') ->
  count is_generate (log s') = S (count is_generate (log s))
  /\ List.length (log s) < List.length (log s').
Proof.
  intros Q H.
  destruct (pipeline_returns _ H) as (m & p & dev & s1 & i & s2 & L & P & I).
  destruct (Q s) as (new1 & L1 & N1). rewrite L in L1. simpl in L1.
  destruct (prepare_image_quiet x s1) as (new2 & L2 & N2). rewrite P in L2. simpl in L2.
  destruct (infer_returns _ _ _ _ _ _ _ I) as (m0 & p0 & b & o & outs & _ & _ & El & _).
  rewrite El, L2, L1. split.
  - rewrite !count_app, (count_none _ _ N1), (count_none _ _ N2).
    unfold count. simpl. lia.
  - rewrite !length_app. simpl. lia.
Qed.

End Pipeline.

Lemma pair_eta {A B} (p : A * B) (a : A) : fst p = a -> p = (a, snd p).
Proof. destruct p; simpl; congruence. Qed.

(** C9: [caption_image x n] calls [generate] at most once and never with
    a cap other than [n]; when it returns, the last two calls it made are
    [generate] on the captioning handle with [max_length = n] and [decode]
    of the first generated sequence with [skip_special_tokens=True], and it
    returns the string [decode] answered; it does return whenever the
    transformers side and Pillow answer; the default cap is 50. *)
Theorem caption_image_generates_with_cap (x : pyobj) (n : Z) (s : state) :
  let r := caption_image w x n s in
  (exists new, log (snd r) = log s ++ new /\ count is_generate new <= 1
     /\ forall m b k, In (Generate m b k) new -> k = n)
  /\ (forall c, fst r = Ret c ->
      exists m p b o outs pre,
        caption_model (snd r) = Some m /\ caption_processor (snd r) = Some p
        /\ log (snd r) = pre ++ [Generate m b n; Decode p o true]
        /\ model_generate w (clock (snd r) - 2) m b n = Ret (o :: outs)
        /\ processor_decode w (clock (snd r) - 1) p o true = Ret c)
  /\ (transformers_work w -> paired s = true -> (forall t, pillow_accepts w x t = true) ->
      returns (fst r) = true)
  /\ default_max_length = 50%Z.
Proof.
  intro r. subst r. rewrite caption_image_unfold.
  split; [apply pipeline_cap, load_caption_model_quiet|].
  split; [|split; [|reflexivity]].
  - intros c H. apply pair_eta in H.
    destruct (pipeline_returns _ _ _ _ _ H) as (m & p & dev & s1 & i & s2 & L & P & I).
    destruct (load_caption_model_returns _ L) as [El _].
    injection El as -> -> ->.
    pose proof (prepare_image_globals x s1) as G. rewrite P in G. simpl in G.
    destruct G as (G1 & G2 & _).
    destruct (infer_returns _ _ _ _ _ _ _ I)
      as (m0 & p0 & b & o & outs & Em & Ep & El & Eg & Ed & Ec & K1 & K2 & _).
    exists m0, p0, (Batch (batch_pixels b) (batch_text b) (device s1)), o, outs,
      (log s2 ++ [ProcessorCall p0 i None; BatchTo b (device s1)]).
    rewrite K1, K2, G1, G2, Ec.
    replace (4 + clock s2 - 2) with (S (S (clock s2))) by lia.
    replace (4 + clock s2 - 1) with (S (S (S (clock s2)))) by lia.
    repeat split; auto.
    rewrite El, <- app_assoc. reflexivity.
  - intros T Hp Ha. unfold pipeline, bind at 1.
    pose proof (load_caption_model_works s T) as Lw.
    pose proof (load_caption_model_evolves w s) as Ev.
    destruct (load_caption_model w s) as [[l|e] s1] eqn:L; [|discriminate Lw].
    destruct (load_caption_model_returns _ L) as [-> Hm].
    simpl in Ev. apply ev_paired in Ev; [|exact Hp].
    unfold bind at 1.
    pose proof (prepare_image_accepts x s1) as Pa. rewrite Ha in Pa.
    pose proof (prepare_image_globals x s1) as G.
    destruct (prepare_image w x s1) as [[i|e] s2]; [|discriminate Pa].
    unfold paired in Ev. destruct (caption_model s1); [|discriminate Hm].
    destruct (caption_processor s1); [|discriminate Ev].
    apply infer_works, T.
Qed.

Lemma answer_question_blank (x : pyobj) (q : str) (n : Z) (s : state) :
  whitespace_only q -> answer_question w x q n s = (Ret ask_a_question, s).
Proof.
  intro H. apply not_or_blank_spec in H. unfold answer_question. rewrite H. reflexivity.
Qed.

(** C4: [answer_question] returns the fixed sentence, with the state and so
    the log and the handles as they were, exactly when the question is
    empty or whitespace-only: nothing is loaded and nothing is called.  For
    any other question the model path is taken: a returning call has called
    [generate] on the question-answering handle and returns the decoded
    answer, and the call returns, with [generate] called once, whenever the
    transformers side and Pillow answer. *)
Theorem answer_question_short_circuit (x : pyobj) (q : str) (n : Z) (s : state) :
  let r := answer_question w x q n s in
  (whitespace_only q <-> r = (Ret ask_a_question, s))
  /\ (~ whitespace_only q -> forall a, fst r = Ret a ->
      exists m p b o pre,
        vqa_model (snd r) = Some m /\ vqa_processor (snd r) = Some p
        /\ log (snd r) = pre ++ [Generate m b n; Decode p o true]
        /\ processor_decode w (clock (snd r) - 1) p o true = Ret a)
  /\ (~ whitespace_only q -> transformers_work w -> paired s = true ->
      (forall t, pillow_accepts w x t = true) ->
      returns (fst r) = true
      /\ count is_generate (log (snd r)) = S (count is_generate (log s))).
Proof.
  intro r. subst r.
  destruct (not_or_blank q) eqn:B.
  - assert (W : whitespace_only q) by (apply not_or_blank_spec; exact B).
    rewrite (answer_question_blank x n s W). simpl.
    split; [tauto|]. split; intro; tauto.
  - assert (W : ~ whitespace_only q) by (apply not_or_blank_false; exact B).
    rewrite (@answer_question_unfold x q n B).
    assert (R : forall a, fst (pipeline w (load_vqa_model w) x (Some q) n s) = Ret a ->
              exists m p b o pre,
                vqa_model (snd (pipeline w (load_vqa_model w) x (Some q) n s)) = Some m
                /\ vqa_processor (snd (pipeline w (load_vqa_model w) x (Some q) n s)) = Some p
                /\ log (snd (pipeline w (load_vqa_model w) x (Some q) n s))
                   = pre ++ [Generate m b n; Decode p o true]
                /\ processor_decode w
                     (clock (snd (pipeline w (load_vqa_model w) x (Some q) n s)) - 1) p o true
                   = Ret a).
    { intros a H. apply pair_eta in H.
      destruct (pipeline_returns _ _ _ _ _ H) as (m & p & dev & s1 & i & s2 & L & P & I).
      destruct (load_vqa_model_returns _ L) as [El _].
      injection El as -> -> ->.
      pose proof (prepare_image_globals x s1) as G. rewrite P in G. simpl in G.
      destruct G as (_ & _ & G1 & G2 & _).
      destruct (infer_returns _ _ _ _ _ _ _ I)
        as (m0 & p0 & b & o & outs & Em & Ep & El & Eg & Ed & Ec & _ & _ & K1 & K2).
      exists m0, p0, (Batch (batch_pixels b) (batch_text b) (device s1)), o,
        (log s2 ++ [ProcessorCall p0 i (Some q); BatchTo b (device s1)]).
      rewrite K1, K2, G1, G2, Ec.
      replace (4 + clock s2 - 1) with (S (S (S (clock s2)))) by lia.
      repeat split; auto.
      rewrite El, <- app_assoc. reflexivity. }
    split; [|split].
    + split; [tauto|]. intro H. exfalso.
      destruct (pipeline_generates_once _ _ _ _ load_vqa_model_quiet H) as [_ Hl]. lia.
    + intros _. exact R.
    + intros _ T Hp Ha.
      assert (Rt : returns (fst (pipeline w (load_vqa_model w) x (Some q) n s)) = true).
      { unfold pipeline, bind at 1.
        pose proof (load_vqa_model_works s T) as Lw.
        pose proof (load_vqa_model_evolves w s) as Ev.
        destruct (load_vqa_model w s) as [[l|e] s1] eqn:L; [|discriminate Lw].
        destruct (load_vqa_model_returns _ L) as [-> Hm].
        simpl in Ev. apply ev_paired in Ev; [|exact Hp].
        unfold bind at 1.
        pose proof (prepare_image_accepts x s1) as Pa. rewrite Ha in Pa.
        destruct (prepare_image w x s1) as [[i|e] s2]; [|discriminate Pa].
        unfold paired in Ev. destruct (vqa_model s1); [|discriminate Hm].
        rewrite andb_true_iff in Ev. destruct Ev as [_ Ev].
        destruct (vqa_processor s1); [|discriminate Ev].
        apply infer_works, T. }
      split; [exact Rt|].
      destruct (fst (pipeline w (load_vqa_model w) x (Some q) n s)) as [a|] eqn:F;
        [|discriminate Rt].
      apply pair_eta in F.
      apply (pipeline_generates_once _ _ _ _ load_vqa_model_quiet F).
Qed.

(** C10: on an empty or whitespace-only question [answer_question] returns
    the fixed sentence whatever the image argument is, with the state as it
    was, so with no call to Pillow; an argument of an unsupported type,
    which with any other question ends in the normalization error once the
    handle is loaded, makes no difference. *)
Theorem answer_question_checks_question_first (x : pyobj) (q : str) (n : Z) (s : state) :
  whitespace_only q ->
  answer_question w x q n s = (Ret ask_a_question, s)
  /\ (supported x = false -> forall q', ~ whitespace_only q' ->
      returns (fst (load_vqa_model w s)) = true ->
      fst (answer_question w x q' n s) = Raise (unsupported_image_type x)).
Proof.
  intro W. split; [apply answer_question_blank, W|].
  intros U q' W' L. apply not_or_blank_false in W'.
  rewrite (@answer_question_unfold x q' n W'). unfold pipeline, bind at 1.
  destruct (load_vqa_model w s) as [[[[m p] d]|e] s1]; [|discriminate L].
  unfold bind at 1. destruct x; try discriminate U; reflexivity.
Qed.

(** *** Orchestration Shell *)

Lemma try_report_returns {A} (body : M A) (f : str -> A) (s : state) :
  exists v, fst (try_except body (report_error f) s) = Ret v.
Proof.
  unfold try_except. destruct (body s) as [[a|e] s']; simpl; eauto.
Qed.

Lemma try_report_raise {A} (body : M A) (f : str -> A) (s : state) (e : exn) :
  fst (body s) = Raise e ->
  fst (try_except body (report_error f) s) = Ret (f (error_msg e))
  /\ exists l, log (snd (try_except body (report_error f) s)) = l ++ [Print (error_msg e)].
Proof.
  unfold try_except. destruct (body s) as [[a|e'] s']; simpl; intro H; [discriminate|].
  injection H as ->. split; [reflexivity|]. eexists. reflexivity.
Qed.

(** C8: none of the three actions raises; an exception that escapes the
    [try] block of an action comes back as the error line in the text slot
    of the tuple it returns, and is printed; when no frame is captured, as
    when the camera does not open, the capture action returns the
    capture-failed sentence. *)
Theorem actions_never_raise (s : state) :
  (forall x tts, exists text audio,
      fst (generate_caption_with_audio w x tts s) = Ret (text, audio))
  /\ (forall x q tts, exists text audio,
      fst (answer_with_audio w x q tts s) = Ret (text, audio))
  /\ (forall tts, exists frame text audio,
      fst (capture_and_caption w tts s) = Ret (frame, text, audio))
  /\ (forall x tts e, is_none x = false -> fst (describe_body w x tts s) = Raise e ->
      fst (generate_caption_with_audio w x tts s) = Ret (error_msg e, None))
  /\ (forall x q tts e, is_none x = false -> not_or_blank q = false ->
      fst (answer_body w x q tts s) = Raise e ->
      fst (answer_with_audio w x q tts s) = Ret (error_msg e, None))
  /\ (forall tts e, fst (capture_body w tts s) = Raise e ->
      fst (capture_and_caption w tts s) = Ret (None, error_msg e, None))
  /\ (forall tts, fst (capture_webcam_frame w (record_line capturing_line s)) = Ret None ->
      fst (capture_and_caption w tts s) = Ret (None, capture_failed, None))
  /\ (forall tts, video_capture w (clock s) 0 = Ret false ->
      fst (capture_and_caption w tts s) = Ret (None, capture_failed, None)).
Proof.
  assert (K : forall tts,
             fst (capture_webcam_frame w (record_line capturing_line s)) = Ret None ->
             fst (capture_and_caption w tts s) = Ret (None, capture_failed, None)).
  { intros tts H. unfold capture_and_caption, try_except, capture_body, print, modify.
    unfold bind at 1. simpl. unfold bind at 1.
    destruct (capture_webcam_frame w (record_line capturing_line s)) as [[[f|]|e] s1];
      simpl in H; try discriminate. reflexivity. }
  repeat split.
  - intros x tts. unfold generate_caption_with_audio.
    destruct (is_none x); [simpl; eauto|].
    destruct (try_report_returns (describe_body w x tts) (fun msg => (msg, None)) s)
      as [[text audio] H]. eauto.
  - intros x q tts. unfold answer_with_audio.
    destruct (is_none x); [simpl; eauto|].
    destruct (not_or_blank q); [simpl; eauto|].
    destruct (try_report_returns (answer_body w x q tts) (fun msg => (msg, None)) s)
      as [[text audio] H]. eauto.
  - intros tts. unfold capture_and_caption.
    destruct (try_report_returns (capture_body w tts) (fun msg => (None, msg, None)) s)
      as [[[frame text] audio] H]. eauto.
  - intros x tts e N H. unfold generate_caption_with_audio. rewrite N.
    apply (try_report_raise _ (fun msg => (msg, @None str)) _ H).
  - intros x q tts e N B H. unfold answer_with_audio. rewrite N, B.
    apply (try_report_raise _ (fun msg => (msg, @None str)) _ H).
  - intros tts e H. unfold capture_and_caption.
    apply (try_report_raise _ (fun msg => (@None ndarray, msg, @None str)) _ H).
  - exact K.
  - intros tts H. apply K.
    unfold capture_webcam_frame, try_except, open_capture, is_opened, bind, call,
      modify, print, ret. simpl. rewrite H. reflexivity.
Qed.

(** *** Model Handles and the compute device *)

Ltac loader_paths :=
  unfold load_caption_model, load_vqa_model, first_available, bind, get, print, modify,
    ret, get_device, to_device, call, bind, ret, may_raise.

Ltac tally_log :=
  unfold resolutions, caption_attempts, vqa_attempts, caption_constructions;
  simpl; rewrite ?count_snoc; simpl; try lia.

Lemma load_caption_model_fresh (s : state) :
  caption_model s = None ->
  let s' := snd (load_caption_model w s) in
  resolutions (log s') = S (resolutions (log s))
  /\ caption_attempts (log s') = S (caption_attempts (log s))
  /\ device s' = Some (first_available w (clock s)).
Proof.
  intro E. loader_paths. rewrite E. simpl.
  destruct (cuda_is_available w (clock s)); simpl;
    [|destruct (mps_is_available w _); simpl];
    (destruct (processor_from_pretrained w _ _); simpl; [|repeat split; tally_log]);
    (destruct (caption_from_pretrained w _ _); simpl; [|repeat split; tally_log]);
    destruct (module_to w _ _ _); simpl; repeat split; tally_log.
Qed.

Lemma load_vqa_model_fresh (s : state) :
  vqa_model s = None ->
  let s' := snd (load_vqa_model w s) in
  resolutions (log s') = S (resolutions (log s))
  /\ vqa_attempts (log s') = S (vqa_attempts (log s))
  /\ device s' = Some (first_available w (clock s)).
Proof.
  intro E. loader_paths. rewrite E. simpl.
  destruct (cuda_is_available w (clock s)); simpl;
    [|destruct (mps_is_available w _); simpl];
    (destruct (processor_from_pretrained w _ _); simpl; [|repeat split; tally_log]);
    (destruct (vqa_from_pretrained w _ _); simpl; [|repeat split; tally_log]);
    destruct (module_to w _ _ _); simpl; repeat split; tally_log.
Qed.

Lemma load_caption_model_cached (s : state) :
  caption_model s <> None ->
  load_caption_model w s = (Ret (caption_model s, caption_processor s, device s), s).
Proof.
  intro E. loader_paths. destruct (caption_model s) eqn:C; [simpl; rewrite C; reflexivity|congruence].
Qed.

Lemma load_vqa_model_cached (s : state) :
  vqa_model s <> None ->
  load_vqa_model w s = (Ret (vqa_model s, vqa_processor s, device s), s).
Proof.
  intro E. loader_paths. destruct (vqa_model s) eqn:C; [simpl; rewrite C; reflexivity|congruence].
Qed.

(** C2, as the code has it: [get_device] picks the first available of GPU,
    Apple accelerator and CPU; it runs once in every construction attempt of
    either handle, so again when the second handle is constructed, and each
    time the answer is stored in the one process-wide variable, which is
    what both loaders hand out; a loader that finds its handle set runs
    nothing and leaves the state as it was. *)
Theorem device_resolved_per_construction (rs : list request) (s : state) :
  fst (get_device w s) = Ret (first_available w (clock s))
  /\ resolutions (log (serve_all w rs initial_state))
     = caption_attempts (log (serve_all w rs initial_state))
       + vqa_attempts (log (serve_all w rs initial_state))
  /\ (caption_model s = None ->
      resolutions (log (snd (load_caption_model w s))) = S (resolutions (log s))
      /\ device (snd (load_caption_model w s)) = Some (first_available w (clock s)))
  /\ (vqa_model s = None ->
      resolutions (log (snd (load_vqa_model w s))) = S (resolutions (log s))
      /\ device (snd (load_vqa_model w s)) = Some (first_available w (clock s)))
  /\ (caption_model s <> None ->
      load_caption_model w s = (Ret (caption_model s, caption_processor s, device s), s))
  /\ (vqa_model s <> None ->
      load_vqa_model w s = (Ret (vqa_model s, vqa_processor s, device s), s))
  /\ (forall l s', load_caption_model w s = (Ret l, s') -> snd l = device s')
  /\ (forall l s', load_vqa_model w s = (Ret l, s') -> snd l = device s').
Proof.
  split.
  { unfold get_device, first_available, bind, call, ret. simpl.
    destruct (cuda_is_available w (clock s)); simpl; [reflexivity|].
    destruct (mps_is_available w (S (clock s))); reflexivity. }
  split.
  { pose proof (ev_resolved (serve_all_evolves w rs initial_state)) as H.
    simpl in H. unfold resolutions, caption_attempts, vqa_attempts, count in H.
    simpl in H. unfold resolutions, caption_attempts, vqa_attempts, count. lia. }
  split; [intro E; destruct (load_caption_model_fresh s E) as (H1 & _ & H2); auto|].
  split; [intro E; destruct (load_vqa_model_fresh s E) as (H1 & _ & H2); auto|].
  split; [apply load_caption_model_cached|].
  split; [apply load_vqa_model_cached|].
  split.
  - intros l s' H. destruct (load_caption_model_returns _ H) as [-> _]. reflexivity.
  - intros l s' H. destruct (load_vqa_model_returns _ H) as [-> _]. reflexivity.
Qed.

Lemma infer_evolves (m : option model) (p : option processor) (dev : option str)
    (i : image) (text : option str) (n : Z) :
  respects evolves (infer w m p dev i text n).
Proof.
  unfold infer, encode, generate, first_output, decode.
  repeat first
    [ apply respects_ret | apply respects_raise
    | apply respects_bind; [|intro]
    | apply respects_call; [reflexivity | intro; discriminate]
    | match goal with |- respects _ (match ?x with _ => _ end) => destruct x end ].
Qed.

(** A call of [caption_image] that finds the handle unset starts one
    construction. *)
Lemma caption_image_attempts (x : pyobj) (n : Z) (s : state) :
  caption_model s = None ->
  caption_attempts (log (snd (caption_image w x n s))) = S (caption_attempts (log s)).
Proof.
  intro E. destruct (load_caption_model_fresh s E) as (_ & A & _).
  rewrite caption_image_unfold. unfold pipeline, bind at 1.
  destruct (load_caption_model w s) as [[[[m p] dev]|e] s1] eqn:L; simpl in A; [|exact A].
  destruct (load_caption_model_returns _ L) as [_ Hm].
  destruct (caption_model s1) as [m1|] eqn:M; [|discriminate Hm].
  assert (Ev : evolves s1 (snd ((i <- prepare_image w x ;; infer w m p dev i None n) s1))).
  { apply respects_bind; [apply prepare_image_evolves|]. intro. apply infer_evolves. }
  destruct (ev_caption Ev M) as [_ Ea]. rewrite Ea. exact A.
Qed.

(** C3, as the code has it: over any sequence of requests a process
    serves, the captioning model is constructed at most once, and the
    handle is set exactly when a construction has completed; from then on
    the handle stays the same object, and no request starts or completes a
    construction again.  A call that finds the handle unset starts a
    construction, so a construction that raised is started again by the
    next call and the loading line is printed once per attempt. *)
Theorem caption_model_constructed_once (rs : list request) :
  caption_constructions (log (serve_all w rs initial_state)) <= 1
  /\ caption_constructions (log (serve_all w rs initial_state))
     = built (serve_all w rs initial_state)
  /\ (forall s m rs', caption_model s = Some m ->
      caption_model (serve_all w rs' s) = Some m
      /\ caption_attempts (log (serve_all w rs' s)) = caption_attempts (log s)
      /\ caption_constructions (log (serve_all w rs' s)) = caption_constructions (log s))
  /\ (forall s x n, caption_model s = None ->
      caption_attempts (log (snd (caption_image w x n s))) = S (caption_attempts (log s))).
Proof.
  pose proof (ev_built (serve_all_evolves w rs initial_state)) as B.
  change (caption_constructions (log initial_state)) with 0 in B.
  change (built initial_state) with 0 in B.
  split; [|split; [|split]].
  - unfold built in B. destruct (caption_model (serve_all w rs initial_state)); lia.
  - lia.
  - intros s m rs' H.
    pose proof (serve_all_evolves w rs' s) as Ev.
    destruct (ev_caption Ev H) as [H1 H2].
    pose proof (ev_built Ev) as Bs. unfold built in Bs. rewrite H, H1 in Bs.
    repeat split; auto. lia.
  - intros s x n. apply caption_image_attempts.
Qed.

End Claims.

(** ** The claims at sample environments *)

Lemma calm_pillow : pillow_contract calm.
Proof.
  constructor; simpl.
  - intros t i m i' H. injection H as <-. reflexivity.
  - intros t i m i' H. injection H as <-. split; reflexivity.
  - intros t a i. unfold sample_fromarray, array_size.
    destruct (nd_shape a) as [|h [|wd [|c rest]]]; try discriminate;
      try (intro H; injection H as <-; reflexivity).
    destruct rest; destruct c as [|[|[|[|[|c]]]]]; try discriminate;
      intro H; injection H as <-; reflexivity.
Defined.

Lemma calm_transformers : transformers_work calm.
Proof.
  constructor; simpl; try reflexivity. intros. eauto.
Defined.


(** C5 as stated fails: when no temporary file can be made, a greeting gets
    [None] although the text is not blank and the backend, which would have
    answered, was never called. *)
Lemma text_to_speech_none_without_backend :
  ~ whitespace_only (lit "hello")
  /\ gtts_init no_tempdir 1 (lit "hello") default_lang default_slow = None
  /\ fst (text_to_speech no_tempdir (lit "hello") default_lang default_slow initial_state)
     = Ret None
  /\ log (snd (text_to_speech no_tempdir (lit "hello") default_lang default_slow
                 initial_state))
     = [NamedTemporaryFile (lit ".mp3");
        Print (speech_error_line
                 (Exn "FileNotFoundError" (lit "No usable temporary directory found")))].
Proof.
  split.
  - intro H. inversion H. discriminate.
  - repeat split.
Qed.

(** C2 as stated fails: a process that captions and then answers a question
    resolves the device once for the first handle and again when the second
    handle is constructed. *)
Lemma device_resolved_again :
  resolutions (log (serve_all calm [CaptionImage (PyImage sample_image) 50] initial_state)) = 1
  /\ is_some (vqa_model (serve_all calm [CaptionImage (PyImage sample_image) 50]
                          initial_state)) = false
  /\ resolutions (log (serve_all calm caption_then_answer initial_state)) = 2
  /\ is_some (vqa_model (serve_all calm caption_then_answer initial_state)) = true
  /\ ~ resolutions (log (serve_all calm caption_then_answer initial_state)) <= 1.
Proof.
  assert (E : resolutions (log (serve_all calm caption_then_answer initial_state)) = 2)
    by reflexivity.
  repeat split; try reflexivity. rewrite E. lia.
Qed.

(** C3 as stated fails: when the first download of the weights raises, the
    handle is still unset after the first call, the model is constructed
    during the second call, and the loading line is printed twice. *)
Lemma loading_line_printed_twice :
  caption_model (serve_all offline_at_first [CaptionImage (PyImage sample_image) 50]
                   initial_state) = None
  /\ is_some (caption_model (serve_all offline_at_first two_captions initial_state)) = true
  /\ caption_attempts (log (serve_all offline_at_first two_captions initial_state)) = 2
  /\ ~ caption_attempts (log (serve_all offline_at_first two_captions initial_state)) <= 1.
Proof.
  assert (E : caption_attempts
                (log (serve_all offline_at_first two_captions initial_state)) = 2)
    by reflexivity.
  repeat split; try reflexivity. rewrite E. lia.
Qed.

Lemma blank_question : whitespace_only (lit "   ").
Proof. repeat constructor. Defined.

Lemma sample_question_not_blank : ~ whitespace_only sample_question.
Proof. intro H. inversion H. discriminate. Defined.

Lemma hello_not_blank : ~ whitespace_only (lit "hello").
Proof. intro H. inversion H. discriminate. Defined.

(** C2 at work: after a captioning and a question the two resolutions are
    the two construction attempts, and the loader of the second handle, on
    the state the first left, resolves again. *)
Lemma device_resolved_per_construction_witness :
  resolutions (log (serve_all calm caption_then_answer initial_state))
  = caption_attempts (log (serve_all calm caption_then_answer initial_state))
    + vqa_attempts (log (serve_all calm caption_then_answer initial_state))
  /\ resolutions (log (snd (load_vqa_model calm
        (serve calm (CaptionImage (PyImage sample_image) 50) initial_state))))
     = S (resolutions (log (serve calm (CaptionImage (PyImage sample_image) 50)
                              initial_state))).
Proof.
  split.
  - exact (proj1 (proj2 (device_resolved_per_construction calm caption_then_answer
                           initial_state))).
  - exact (proj1 (proj1 (proj2 (proj2 (proj2
             (device_resolved_per_construction calm []
                (serve calm (CaptionImage (PyImage sample_image) 50) initial_state)))))
             eq_refl)).
Defined.

(** C3 at work: once the first call has set the handle, two more calls
    leave it and start nothing. *)
Lemma caption_model_constructed_once_witness :
  caption_model (serve_all calm two_captions
                   (serve calm (CaptionImage (PyImage sample_image) 50) initial_state))
  = Some (Model caption_checkpoint (lit "cpu") 1)
  /\ caption_attempts (log (serve_all calm two_captions
        (serve calm (CaptionImage (PyImage sample_image) 50) initial_state)))
     = caption_attempts (log (serve calm (CaptionImage (PyImage sample_image) 50)
                                initial_state))
  /\ caption_constructions (log (serve_all calm two_captions
        (serve calm (CaptionImage (PyImage sample_image) 50) initial_state)))
     = caption_constructions (log (serve calm (CaptionImage (PyImage sample_image) 50)
                                     initial_state)).
Proof.
  exact (proj1 (proj2 (proj2 (caption_model_constructed_once calm [])))
           (serve calm (CaptionImage (PyImage sample_image) 50) initial_state)
           (Model caption_checkpoint (lit "cpu") 1) two_captions eq_refl).
Defined.

(** C4 at work: three spaces get the fixed sentence and an untouched state,
    even with an integer for an image; a real question about a real image
    reaches [generate]. *)
Lemma answer_question_short_circuit_witness :
  answer_question calm (PyOther "int") (lit "   ") 50 initial_state
  = (Ret ask_a_question, initial_state)
  /\ returns (fst (answer_question calm (PyImage sample_image) sample_question 50
                     initial_state)) = true
  /\ count is_generate (log (snd (answer_question calm (PyImage sample_image)
                                    sample_question 50 initial_state)))
     = S (count is_generate (log initial_state)).
Proof.
  split.
  - exact (proj1 (proj1 (answer_question_short_circuit calm (PyOther "int") (lit "   ")
                           50 initial_state)) blank_question).
  - exact (proj2 (proj2 (answer_question_short_circuit calm (PyImage sample_image)
                           sample_question 50 initial_state))
             sample_question_not_blank calm_transformers eq_refl (fun _ => eq_refl)).
Defined.

(** C5 at work: a greeting is saved to the temporary file; when the
    service refuses, the answer is [None]. *)
Lemma text_to_speech_none_exactly_witness :
  fst (text_to_speech calm (lit "hello") default_lang default_slow initial_state)
  = Ret (Some (lit "/tmp/tmpk3v1.mp3"))
  /\ fst (text_to_speech speech_down (lit "hello") default_lang default_slow initial_state)
     = Ret None.
Proof.
  split.
  - exact (proj1 (proj2 (proj2 (proj2 (proj2 (proj2
             (text_to_speech_none_exactly calm (lit "hello") default_lang default_slow
                initial_state))))) (lit "/tmp/tmpk3v1.mp3") hello_not_blank eq_refl
             eq_refl)).
  - apply (proj2 (proj1 (proj2 (proj2
             (text_to_speech_none_exactly speech_down (lit "hello") default_lang
                default_slow initial_state))))).
    right. right. exists (lit "/tmp/tmpk3v1.mp3"). split; [reflexivity | discriminate].
Defined.

(** C6 at work: an integer is turned away with its type in the message. *)
Lemma prepare_image_unsupported_witness :
  prepare_image calm (PyOther "int") initial_state
  = (Raise (Exn "ValueError" (lit "Unsupported image type: <class 'int'>")), initial_state).
Proof.
  exact (proj1 (proj1 (prepare_image_unsupported calm (PyOther "int") initial_state))
           eq_refl).
Defined.

(** C7 at work: the RGBA file of 4 by 3 comes out RGB and 4 by 3, and an
    array of one dimension and five entries comes out RGB and 1 by 5. *)
Lemma prepare_image_rgb_same_size_witness :
  pillow_contract calm
  /\ supported (PyStr sample_path) = true
  /\ returns (fst (prepare_image calm (PyStr sample_path) initial_state)) = true
  /\ (im_mode (Image RGB 4 3 []) = RGB /\ bands (im_mode (Image RGB 4 3 [])) = 3
      /\ source_size calm (PyStr sample_path) 0 = Some (4, 3))
  /\ (im_mode (Image RGB 1 5 sample_row) = RGB
      /\ bands (im_mode (Image RGB 1 5 sample_row)) = 3
      /\ source_size calm (PyNdarray (Ndarray [5] "uint8" sample_row)) 0 = Some (1, 5)).
Proof.
  split; [exact calm_pillow|]. split; [reflexivity|].
  split; [|split].
  - exact (proj1 (prepare_image_rgb_same_size (PyStr sample_path) initial_state
                    calm_pillow eq_refl)).
  - exact (proj2 (prepare_image_rgb_same_size (PyStr sample_path) initial_state
                    calm_pillow eq_refl) (Image RGB 4 3 []) eq_refl).
  - exact (proj2 (prepare_image_rgb_same_size
                    (PyNdarray (Ndarray [5] "uint8" sample_row)) initial_state
                    calm_pillow eq_refl) (Image RGB 1 5 sample_row) eq_refl).
Defined.

(** C8 at work: an integer for an image comes back as an error line, and
    without a camera the capture action says so. *)
Lemma actions_never_raise_witness :
  fst (generate_caption_with_audio calm (PyOther "int") true initial_state)
  = Ret (error_msg (unsupported_image_type (PyOther "int")), None)
  /\ fst (capture_and_caption no_camera true initial_state)
     = Ret (None, capture_failed, None).
Proof.
  split.
  - exact (proj1 (proj2 (proj2 (proj2 (actions_never_raise calm initial_state))))
             (PyOther "int") true (unsupported_image_type (PyOther "int")) eq_refl eq_refl).
  - exact (proj2 (proj2 (proj2 (proj2 (proj2 (proj2 (proj2
             (actions_never_raise no_camera initial_state))))))) true eq_refl).
Defined.

(** C9 at work: with the cap at 5 the caption of the sample file returns. *)
Lemma caption_image_generates_with_cap_witness :
  returns (fst (caption_image calm (PyStr sample_path) 5 initial_state)) = true.
Proof.
  exact (proj1 (proj2 (proj2 (caption_image_generates_with_cap calm (PyStr sample_path) 5
                                initial_state)))
           calm_transformers eq_refl (fun _ => eq_refl)).
Defined.

(** C10 at work: with an empty question an integer for an image goes
    unnoticed; with a real question it is the normalization error. *)
Lemma answer_question_checks_question_first_witness :
  whitespace_only []
  /\ answer_question calm (PyOther "int") [] 50 initial_state
     = (Ret ask_a_question, initial_state)
  /\ fst (answer_question calm (PyOther "int") sample_question 50 initial_state)
     = Raise (unsupported_image_type (PyOther "int")).
Proof.
  split; [constructor|]. split.
  - exact (proj1 (answer_question_checks_question_first calm (PyOther "int") 50
                    initial_state (Forall_nil _))).
  - exact (proj2 (answer_question_checks_question_first calm (PyOther "int") 50
                    initial_state (Forall_nil _))
             eq_refl sample_question sample_question_not_blank eq_refl).
Defined.

(** ** Walking through the code under a relation *)

Section Steps.

Variable R : state -> state -> Prop.
Variable line_ok : str -> bool.
Variable call_ok : event -> bool.
Hypothesis HR : stepwise R line_ok call_ok.

Lemma step_ret {A} (a : A) : respects R (ret a).
Proof. intro s. apply (sw_refl HR). Qed.

Lemma step_raise {A} (e : exn) : respects R (@raise A e).
Proof. intro s. apply (sw_refl HR). Qed.

Lemma step_get {A} (f : state -> A) : respects R (get f).
Proof. intro s. apply (sw_refl HR). Qed.

Lemma step_bind {A B} (m : M A) (k : A -> M B) :
  respects R m -> (forall a, respects R (k a)) -> respects R (bind m k).
Proof.
  intros Hm Hk s. unfold bind. specialize (Hm s).
  destruct (m s) as [[a|e] s']; simpl in *.
  - eapply (sw_trans HR); [exact Hm | apply Hk].
  - exact Hm.
Qed.

Lemma step_try_except {A} (body : M A) (handler : exn -> M A) :
  respects R body -> (forall e, respects R (handler e)) ->
  respects R (try_except body handler).
Proof.
  intros Hm Hk s. unfold try_except. specialize (Hm s).
  destruct (body s) as [[a|e] s']; simpl in *.
  - exact Hm.
  - eapply (sw_trans HR); [exact Hm | apply Hk].
Qed.

Lemma step_print (l : str) : line_ok l = true -> respects R (print l).
Proof. intros H s. apply (sw_line HR), H. Qed.

Lemma step_call {A} (e : event) (oracle : nat -> outcome A) :
  call_ok e = true -> respects R (call e oracle).
Proof. intros H s. apply (sw_call HR), H. Qed.

Lemma step_cameras (b : bool) (f : nat -> nat) :
  respects R (modify (fun s => if b then set_open_cameras (f (open_cameras s)) s else s)).
Proof.
  intro s. simpl. destruct b; [apply (sw_cameras HR) | apply (sw_refl HR)].
Qed.

Lemma step_destroy (held : nat) : respects R (destroy_capture held).
Proof.
  intro s. unfold destroy_capture. simpl.
  destruct (held <? open_cameras s); [apply (sw_cameras HR) | apply (sw_refl HR)].
Qed.

End Steps.

Ltac walk HR known :=
  repeat first
    [ assumption
    | known
    | apply (step_ret HR) | apply (step_raise HR) | apply (step_get HR)
    | apply (step_bind HR); [|intro]
    | apply (step_try_except HR); [|intro]
    | apply (step_print HR); reflexivity
    | apply (step_call HR); reflexivity
    | apply (step_cameras HR)
    | apply (step_destroy HR)
    | match goal with |- respects _ (match ?x with _ => _ end) => destruct x end
    | match goal with |- respects _ (if ?x then _ else _) => destruct x end ].

(** ** The question-answering handle *)

Section VqaHandle.

Variable w : World.

Lemma vqa_settled_stepwise : stepwise vqa_settled (other_line loaded_vqa_line) is_call.
Proof.
  constructor; unfold vqa_settled, vqa_constructions, vqa_built.
  - reflexivity.
  - intros s1 s2 s3 H1 H2. lia.
  - intros l s H. unfold other_line in H. apply negb_true_iff in H.
    simpl. rewrite count_snoc. simpl. rewrite H. lia.
  - intros e s H. simpl. rewrite count_snoc.
    destruct e; try discriminate H; simpl; lia.
  - intros n s. simpl. reflexivity.
Qed.

Lemma vqa_settled_modify (f : state -> state) :
  (forall s, log (f s) = log s /\ vqa_model (f s) = vqa_model s) ->
  respects vqa_settled (modify f).
Proof.
  intros H s. simpl. destruct (H s) as [H1 H2].
  unfold vqa_settled, vqa_built. rewrite H1, H2. reflexivity.
Qed.

Ltac settled known :=
  walk vqa_settled_stepwise
    ltac:(first [ known | apply vqa_settled_modify; intro; split; reflexivity ]).

Lemma load_caption_model_settled : respects vqa_settled (load_caption_model w).
Proof. unfold load_caption_model, get_device, to_device. settled fail. Qed.

Lemma load_vqa_model_settled : respects vqa_settled (load_vqa_model w).
Proof.
  intro s. unfold vqa_settled, vqa_constructions, vqa_built.
  unfold load_vqa_model, bind, get, print, modify, ret, get_device,
    to_device, call, bind, ret, may_raise.
  destruct (vqa_model s) eqn:E; simpl; [rewrite E; reflexivity|].
  destruct (cuda_is_available w (clock s)); simpl;
    [|destruct (mps_is_available w _); simpl];
    (destruct (processor_from_pretrained w _ _); simpl;
       [|rewrite ?count_snoc, ?E; simpl; lia]);
    (destruct (vqa_from_pretrained w _ _); simpl;
       [|rewrite ?count_snoc, ?E; simpl; lia]);
    destruct (module_to w _ _ _); simpl; rewrite ?count_snoc, ?E; simpl; lia.
Qed.

Lemma caption_image_settled (x : pyobj) (n : Z) : respects vqa_settled (caption_image w x n).
Proof.
  unfold caption_image, prepare_image, convert_rgb, encode, generate, first_output, decode.
  settled ltac:(apply load_caption_model_settled).
Qed.

Lemma answer_question_settled (x : pyobj) (q : str) (n : Z) :
  respects vqa_settled (answer_question w x q n).
Proof.
  unfold answer_question, prepare_image, convert_rgb, encode, generate, first_output,
    decode.
  settled ltac:(apply load_vqa_model_settled).
Qed.

Lemma text_to_speech_settled (text lang : str) (slow : bool) :
  respects vqa_settled (text_to_speech w text lang slow).
Proof. unfold text_to_speech, new_temporary_file. settled fail. Qed.

Lemma capture_webcam_frame_settled : respects vqa_settled (capture_webcam_frame w).
Proof.
  unfold capture_webcam_frame, open_capture, is_opened, read_frame, release.
  settled fail.
Qed.

Ltac settled' :=
  settled ltac:(first
    [ apply caption_image_settled | apply answer_question_settled
    | apply text_to_speech_settled | apply capture_webcam_frame_settled ]).

Lemma serve_settled (r : request) (s : state) : vqa_settled s (serve w r s).
Proof.
  destruct r; simpl.
  - apply caption_image_settled.
  - apply answer_question_settled.
  - revert s. change (respects vqa_settled (generate_caption_with_audio w x enable_tts)).
    unfold generate_caption_with_audio, describe_body, report_error, speak_if. settled'.
  - revert s. change (respects vqa_settled (answer_with_audio w x question enable_tts)).
    unfold answer_with_audio, answer_body, report_error, speak_if. settled'.
  - revert s. change (respects vqa_settled (capture_and_caption w enable_tts)).
    unfold capture_and_caption, capture_body, report_error. settled'.
Qed.

Lemma serve_all_settled (rs : list request) (s : state) : vqa_settled s (serve_all w rs s).
Proof.
  revert s. induction rs as [|r rs IH]; intro s; simpl.
  - apply (sw_refl vqa_settled_stepwise).
  - eapply (sw_trans vqa_settled_stepwise); [apply serve_settled | apply IH].
Qed.

(** X1: over any sequence of requests a process serves, the
    question-answering model is constructed at most once and its handle is
    set exactly when a construction has completed; a handle that is set
    stays the same object, and no later request starts or completes a
    construction of it. *)
Theorem vqa_model_constructed_once (rs : list request) :
  vqa_constructions (log (serve_all w rs initial_state)) <= 1
  /\ vqa_constructions (log (serve_all w rs initial_state))
     = vqa_built (serve_all w rs initial_state)
  /\ (forall s m rs', vqa_model s = Some m ->
      vqa_model (serve_all w rs' s) = Some m
      /\ vqa_attempts (log (serve_all w rs' s)) = vqa_attempts (log s)
      /\ vqa_constructions (log (serve_all w rs' s)) = vqa_constructions (log s)).
Proof.
  pose proof (serve_all_settled rs initial_state) as B. unfold vqa_settled in B.
  change (vqa_constructions (log initial_state)) with 0 in B.
  change (vqa_built initial_state) with 0 in B.
  split; [|split].
  - unfold vqa_built in B. destruct (vqa_model (serve_all w rs initial_state)); lia.
  - lia.
  - intros s m rs' H.
    destruct (ev_vqa (serve_all_evolves w rs' s) H) as [H1 H2].
    pose proof (serve_all_settled rs' s) as Bs. unfold vqa_settled, vqa_built in Bs.
    rewrite H, H1 in Bs. repeat split; auto. lia.
Qed.

End VqaHandle.

(** ** The two handles do not touch each other *)

Section Independence.

Variable w : World.

Lemma keeps_vqa_stepwise : stepwise keeps_vqa (fun _ => true) (fun _ => true).
Proof.
  constructor; unfold keeps_vqa; simpl; auto.
  intros s1 s2 s3 [A1 B1] [A2 B2]. split; congruence.
Qed.

Lemma keeps_caption_stepwise : stepwise keeps_caption (fun _ => true) (fun _ => true).
Proof.
  constructor; unfold keeps_caption; simpl; auto.
  intros s1 s2 s3 [A1 B1] [A2 B2]. split; congruence.
Qed.

Lemma keeps_vqa_modify (f : state -> state) :
  (forall s, vqa_model (f s) = vqa_model s /\ vqa_processor (f s) = vqa_processor s) ->
  respects keeps_vqa (modify f).
Proof. intros H s. apply H. Qed.

Lemma keeps_caption_modify (f : state -> state) :
  (forall s, caption_model (f s) = caption_model s
             /\ caption_processor (f s) = caption_processor s) ->
  respects keeps_caption (modify f).
Proof. intros H s. apply H. Qed.

Lemma caption_image_keeps_vqa (x : pyobj) (n : Z) : respects keeps_vqa (caption_image w x n).
Proof.
  unfold caption_image, load_caption_model, get_device, to_device, prepare_image,
    convert_rgb, encode, generate, first_output, decode.
  walk keeps_vqa_stepwise ltac:(apply keeps_vqa_modify; intro; split; reflexivity).
Qed.

Lemma answer_question_keeps_caption (x : pyobj) (q : str) (n : Z) :
  respects keeps_caption (answer_question w x q n).
Proof.
  unfold answer_question, load_vqa_model, get_device, to_device, prepare_image,
    convert_rgb, encode, generate, first_output, decode.
  walk keeps_caption_stepwise ltac:(apply keeps_caption_modify; intro; split; reflexivity).
Qed.

Lemma text_to_speech_keeps_vqa (text lang : str) (slow : bool) :
  respects keeps_vqa (text_to_speech w text lang slow).
Proof. unfold text_to_speech, new_temporary_file. walk keeps_vqa_stepwise fail. Qed.

Lemma text_to_speech_keeps_caption (text lang : str) (slow : bool) :
  respects keeps_caption (text_to_speech w text lang slow).
Proof. unfold text_to_speech, new_temporary_file. walk keeps_caption_stepwise fail. Qed.

Lemma capture_webcam_frame_keeps_vqa : respects keeps_vqa (capture_webcam_frame w).
Proof.
  unfold capture_webcam_frame, open_capture, is_opened, read_frame, release.
  walk keeps_vqa_stepwise fail.
Qed.

(** X2: captioning, from the entry point or from either action that
    captions, never sets or changes the question-answering model and its
    processor, and answering a question never sets or changes the captioning
    model and its processor. *)
Theorem handles_independent (x : pyobj) (q : str) (n : Z) (tts : bool) (s : state) :
  keeps_vqa s (snd (caption_image w x n s))
  /\ keeps_caption s (snd (answer_question w x q n s))
  /\ keeps_vqa s (snd (generate_caption_with_audio w x tts s))
  /\ keeps_vqa s (snd (capture_and_caption w tts s))
  /\ keeps_caption s (snd (answer_with_audio w x q tts s)).
Proof.
  split; [apply caption_image_keeps_vqa|].
  split; [apply answer_question_keeps_caption|].
  split; [|split]; revert s.
  - change (respects keeps_vqa (generate_caption_with_audio w x tts)).
    unfold generate_caption_with_audio, describe_body, report_error, speak_if.
    walk keeps_vqa_stepwise
      ltac:(first [apply caption_image_keeps_vqa | apply text_to_speech_keeps_vqa]).
  - change (respects keeps_vqa (capture_and_caption w tts)).
    unfold capture_and_caption, capture_body, report_error.
    walk keeps_vqa_stepwise
      ltac:(first [apply caption_image_keeps_vqa | apply text_to_speech_keeps_vqa
                  | apply capture_webcam_frame_keeps_vqa]).
  - change (respects keeps_caption (answer_with_audio w x q tts)).
    unfold answer_with_audio, answer_body, report_error, speak_if.
    walk keeps_caption_stepwise
      ltac:(first [apply answer_question_keeps_caption
                  | apply text_to_speech_keeps_caption]).
Qed.

End Independence.

(** ** More on the two entry points *)

Section EntryPoints.

Variable w : World.

Lemma pipeline_unsupported (loader : M (option model * option processor * option str))
    (x : pyobj) (text : option str) (n : Z) (s : state) :
  supported x = false ->
  (returns (fst (loader s)) = true ->
   fst (pipeline w loader x text n s) = Raise (unsupported_image_type x)
   /\ snd (pipeline w loader x text n s) = snd (loader s))
  /\ (forall e, fst (loader s) = Raise e ->
      fst (pipeline w loader x text n s) = Raise e
      /\ snd (pipeline w loader x text n s) = snd (loader s)).
Proof.
  intro U.
  destruct (loader s) as [[[[m p] d]|e] s1] eqn:L; simpl.
  - assert (E : pipeline w loader x text n s = (Raise (unsupported_image_type x), s1)).
    { unfold pipeline, bind. rewrite L. destruct x; try discriminate U; reflexivity. }
    rewrite E. simpl. split; [auto|discriminate].
  - assert (E : pipeline w loader x text n s = (Raise e, s1)).
    { unfold pipeline, bind. rewrite L. reflexivity. }
    rewrite E. simpl. split; [discriminate|]. intros e' H. injection H as <-. auto.
Qed.

(** X3: both entry points get their handle before they look at the image:
    with an argument of an unsupported type the loader has run, and so on a
    first call the model has been constructed, by the time the
    normalization error is raised; and when the loader raises, it is the
    loader's error that comes out. *)
Theorem handle_loaded_before_image (x : pyobj) (q : str) (n : Z) (s : state) :
  supported x = false ->
  ~ whitespace_only q ->
  (returns (fst (load_caption_model w s)) = true ->
   fst (caption_image w x n s) = Raise (unsupported_image_type x)
   /\ snd (caption_image w x n s) = snd (load_caption_model w s)
   /\ is_some (caption_model (snd (caption_image w x n s))) = true)
  /\ (returns (fst (load_vqa_model w s)) = true ->
      fst (answer_question w x q n s) = Raise (unsupported_image_type x)
      /\ snd (answer_question w x q n s) = snd (load_vqa_model w s)
      /\ is_some (vqa_model (snd (answer_question w x q n s))) = true)
  /\ (forall e, fst (load_caption_model w s) = Raise e ->
      fst (caption_image w x n s) = Raise e)
  /\ (forall e, fst (load_vqa_model w s) = Raise e ->
      fst (answer_question w x q n s) = Raise e).
Proof.
  intros U W. apply not_or_blank_false in W.
  rewrite (answer_question_unfold w x q n W), caption_image_unfold.
  destruct (pipeline_unsupported (load_caption_model w) x None n s U) as [C1 C2].
  destruct (pipeline_unsupported (load_vqa_model w) x (Some q) n s U) as [V1 V2].
  split; [|split; [|split]].
  - intro L. destruct (C1 L) as [E1 E2]. split; [exact E1|]. split; [exact E2|].
    rewrite E2. destruct (load_caption_model w s) as [[l|e] s1] eqn:Ld; [|discriminate L].
    exact (proj2 (load_caption_model_returns w s Ld)).
  - intro L. destruct (V1 L) as [E1 E2]. split; [exact E1|]. split; [exact E2|].
    rewrite E2. destruct (load_vqa_model w s) as [[l|e] s1] eqn:Ld; [|discriminate L].
    exact (proj2 (load_vqa_model_returns w s Ld)).
  - intros e H. apply (C2 e H).
  - intros e H. apply (V2 e H).
Qed.

(** X4: whatever the image and the question, [answer_question] calls
    [generate] at most once and never with a cap other than the
    [max_length] it was given; for an empty or whitespace-only question it
    logs nothing at all: no call and no line. *)
Theorem answer_question_cap (x : pyobj) (q : str) (n : Z) (s : state) :
  (exists new, log (snd (answer_question w x q n s)) = log s ++ new
     /\ count is_generate new <= 1
     /\ forall m b k, In (Generate m b k) new -> k = n)
  /\ (whitespace_only q -> log (snd (answer_question w x q n s)) = log s).
Proof.
  split.
  - destruct (not_or_blank q) eqn:B.
    + unfold answer_question. rewrite B. exists []. simpl. rewrite app_nil_r.
      split; [reflexivity|]. split; [cbv; lia|]. intros ? ? ? [].
    + rewrite (answer_question_unfold w x q n B).
      apply pipeline_cap, load_vqa_model_quiet.
  - intro W. apply not_or_blank_spec in W. unfold answer_question. rewrite W.
    reflexivity.
Qed.

Lemma infer_device (m : option model) (p : option processor) (dev : option str)
    (i : image) (text : option str) (n : Z) (s : state) :
  device (snd (infer w m p dev i text n s)) = device s.
Proof.
  unfold infer, encode, generate, first_output, decode, bind, call, ret, raise, may_raise.
  destruct p as [p0|]; simpl; [|reflexivity].
  destruct (processor_call w (clock s) p0 i text) as [b|]; simpl; [|reflexivity].
  destruct (batch_to w (S (clock s)) b dev); simpl; [reflexivity|].
  destruct m as [m0|]; simpl; [|reflexivity].
  destruct (model_generate w _ m0 _ n) as [[|o outs]|]; simpl; try reflexivity.
  destruct (processor_decode w _ p0 o true); reflexivity.
Qed.

Lemma prepare_image_mode (x : pyobj) (s : state) (i : image) :
  converts_to_rgb w -> fst (prepare_image w x s) = Ret i -> im_mode i = RGB.
Proof.
  intros C. unfold prepare_image, convert_rgb, bind, call, raise.
  destruct x; simpl; try discriminate.
  - destruct (image_open w _ _); simpl; [|discriminate]. apply C.
  - destruct (image_fromarray w _ _); simpl; [|discriminate]. apply C.
  - apply C.
Qed.

Lemma pipeline_encodes (loader : M (option model * option processor * option str))
    (x : pyobj) (text : option str) (n : Z) (s s' : state) (c : str) :
  (forall s0 l s1, loader s0 = (Ret l, s1) -> snd l = device s1) ->
  pipeline w loader x text n s = (Ret c, s') ->
  exists i,
    fst (prepare_image w x (snd (loader s))) = Ret i
    /\ exists p b m o pre,
         log s' = pre ++ [ProcessorCall p i text; BatchTo b (device s');
                          Generate m (Batch (batch_pixels b) (batch_text b) (device s')) n;
                          Decode p o true].
Proof.
  intros D H.
  destruct (pipeline_returns w loader x text n s H) as (m & p & dev & s1 & i & s2 & L & P & I).
  pose proof (D s (m, p, dev) s1 L) as Dv. simpl in Dv.
  pose proof (prepare_image_globals w x s1) as G. rewrite P in G. simpl in G.
  destruct G as (_ & _ & _ & _ & Gd).
  pose proof (infer_device m p dev i text n s2) as Id. rewrite I in Id. simpl in Id.
  destruct (infer_returns w m p dev i text n s2 I) as (m0 & p0 & b & o & outs & _ & _ & El & _).
  exists i. split; [rewrite L; simpl; rewrite P; reflexivity|].
  exists p0, b, m0, o, (log s2).
  assert (E : device s' = dev) by congruence. rewrite E. exact El.
Qed.

(** X5: a returning call of either entry point ends with four calls: the
    processor on the image that [prepare_image] returned for the argument
    once the loader had run, without text for a caption and with the
    question exactly as it was passed, untrimmed, for an answer; the move of
    the encoded inputs to whatever the shared device variable holds at that
    moment; [generate]; [decode].  That image has the mode RGB as soon as
    [convert('RGB')] answers in the mode asked for. *)
Theorem inputs_encoded (x : pyobj) (q : str) (n : Z) (s : state) :
  (forall c, fst (caption_image w x n s) = Ret c ->
   exists i,
     fst (prepare_image w x (snd (load_caption_model w s))) = Ret i
     /\ (converts_to_rgb w -> im_mode i = RGB)
     /\ exists p b m o pre,
          log (snd (caption_image w x n s))
          = pre ++ [ProcessorCall p i None;
                    BatchTo b (device (snd (caption_image w x n s)));
                    Generate m (Batch (batch_pixels b) (batch_text b)
                                  (device (snd (caption_image w x n s)))) n;
                    Decode p o true])
  /\ (forall a, ~ whitespace_only q -> fst (answer_question w x q n s) = Ret a ->
      exists i,
        fst (prepare_image w x (snd (load_vqa_model w s))) = Ret i
        /\ (converts_to_rgb w -> im_mode i = RGB)
        /\ exists p b m o pre,
             log (snd (answer_question w x q n s))
             = pre ++ [ProcessorCall p i (Some q);
                       BatchTo b (device (snd (answer_question w x q n s)));
                       Generate m (Batch (batch_pixels b) (batch_text b)
                                     (device (snd (answer_question w x q n s)))) n;
                       Decode p o true]).
Proof.
  split.
  - intros c H. rewrite caption_image_unfold in *. apply pair_eta in H.
    destruct (pipeline_encodes (load_caption_model w) x None n s) with (2 := H)
      as (i & P & E).
    { intros s0 l s1 L. destruct (load_caption_model_returns w s0 L) as [-> _].
      reflexivity. }
    exists i. split; [exact P|]. split; [|exact E].
    intro C. apply (prepare_image_mode x _ C P).
  - intros a W H. apply not_or_blank_false in W.
    rewrite (answer_question_unfold w x q n W) in *. apply pair_eta in H.
    destruct (pipeline_encodes (load_vqa_model w) x (Some q) n s) with (2 := H)
      as (i & P & E).
    { intros s0 l s1 L. destruct (load_vqa_model_returns w s0 L) as [-> _].
      reflexivity. }
    exists i. split; [exact P|]. split; [|exact E].
    intro C. apply (prepare_image_mode x _ C P).
Qed.

End EntryPoints.

(** ** More on the camera and on speech *)

Section Devices.

Variable w : World.

Ltac capture_paths :=
  unfold capture_webcam_frame, try_except, open_capture, is_opened, read_frame,
    release, destroy_capture, bind, get, call, modify, print, ret; simpl.

(** X6: [capture_webcam_frame] returns a frame exactly when the camera
    opens, [cap.read()] returns a frame and [cv2.cvtColor] returns; the frame
    it returns is the one [cvtColor] made of the frame read, with the code
    [COLOR_BGR2RGB]. *)
Theorem capture_webcam_frame_result (s : state) (f : ndarray) :
  fst (capture_webcam_frame w s) = Ret (Some f)
  <-> video_capture w (clock s) 0 = Ret true
      /\ exists f0, capture_read w (S (S (clock s))) = Ret (Some f0)
                    /\ cvt_color w (S (S (S (S (clock s))))) f0 COLOR_BGR2RGB = Ret f.
Proof.
  capture_paths.
  destruct (video_capture w (clock s) 0) as [[|]|e]; simpl.
  - destruct (capture_read w (S (S (clock s)))) as [[f0|]|e]; simpl.
    + destruct (cvt_color w _ f0 COLOR_BGR2RGB) as [f1|e] eqn:C; simpl.
      * split.
        -- intro H. injection H as <-. split; [reflexivity|]. exists f0. auto.
        -- intros [_ (f0' & H1 & H2)]. injection H1 as <-. rewrite C in H2.
           injection H2 as <-. reflexivity.
      * split; [discriminate|]. intros [_ (f0' & H1 & H2)]. injection H1 as <-.
        rewrite C in H2. discriminate.
    + split; [discriminate|]. intros [_ (f0' & H1 & _)]. discriminate.
    + split; [discriminate|]. intros [_ (f0' & H1 & _)]. discriminate.
  - split; [discriminate|]. intros [H _]. discriminate.
  - split; [discriminate|]. intros [H _]. discriminate.
Qed.

(** X7: [capture_webcam_frame] calls [cap.release()] by name once when the
    camera opened and [cap.read()] returned, with a frame or without, and
    not at all otherwise, so not when [cap.read()] raises; it calls
    [cap.read()] once when the camera opened and not at all otherwise. *)
Theorem capture_webcam_frame_calls (s : state) :
  (count is_release (log (snd (capture_webcam_frame w s))) = S (count is_release (log s))
   <-> video_capture w (clock s) 0 = Ret true
       /\ exists r, capture_read w (S (S (clock s))) = Ret r)
  /\ (count is_release (log (snd (capture_webcam_frame w s))) = count is_release (log s)
      \/ count is_release (log (snd (capture_webcam_frame w s)))
         = S (count is_release (log s)))
  /\ (video_capture w (clock s) 0 = Ret true ->
      count is_read (log (snd (capture_webcam_frame w s))) = S (count is_read (log s)))
  /\ (video_capture w (clock s) 0 <> Ret true ->
      count is_read (log (snd (capture_webcam_frame w s))) = count is_read (log s)).
Proof.
  capture_paths.
  destruct (video_capture w (clock s) 0) as [[|]|e]; simpl.
  - destruct (capture_read w (S (S (clock s)))) as [[f0|]|e]; simpl.
    + destruct (cvt_color w _ f0 COLOR_BGR2RGB); simpl;
        rewrite ?Nat.ltb_irrefl, ?ltb_succ_self; simpl; rewrite !count_snoc; simpl;
        (split; [split; [intros _; split; [reflexivity | eauto] | intros _; lia]|]);
        (split; [right; lia|]); (split; [intros _; lia | congruence]).
    + rewrite ?Nat.ltb_irrefl, ?ltb_succ_self; simpl; rewrite !count_snoc; simpl.
      split; [split; [intros _; split; [reflexivity | eauto] | intros _; lia]|].
      split; [right; lia|]. split; [intros _; lia | congruence].
    + rewrite ?Nat.ltb_irrefl, ?ltb_succ_self; simpl; rewrite !count_snoc; simpl.
      split; [split; [intro H; lia | intros [_ [r H]]; discriminate]|].
      split; [left; lia|]. split; [intros _; lia | congruence].
  - rewrite ?Nat.ltb_irrefl, ?ltb_succ_self; simpl; rewrite !count_snoc; simpl.
    split; [split; [intro H; lia | intros [H _]; discriminate]|].
    split; [left; lia|]. split; [intro H; discriminate | intros _; lia].
  - rewrite ?Nat.ltb_irrefl, ?ltb_succ_self; simpl; rewrite !count_snoc; simpl.
    split; [split; [intro H; lia | intros [H _]; discriminate]|].
    split; [left; lia|]. split; [intro H; discriminate | intros _; lia].
Qed.

Lemma text_to_speech_returns (text lang : str) (slow : bool) (s s' : state) (p : str) :
  text_to_speech w text lang slow s = (Ret (Some p), s') ->
  log s' = log s ++ [NamedTemporaryFile (lit ".mp3"); GTTS text lang slow;
                     GTTSSave text p; Print (audio_generated_line p)].
Proof.
  unfold text_to_speech, try_except, new_temporary_file, bind, call, print, modify,
    ret, may_raise.
  destruct (not_or_blank text); [discriminate|]. simpl.
  destruct (named_temporary_file w (clock s) (lit ".mp3")) as [path|e]; simpl;
    [|discriminate].
  destruct (gtts_init w (S (clock s)) text lang slow); simpl; [discriminate|].
  destruct (gtts_save w (S (S (clock s))) text _); simpl; [discriminate|].
  intro H. injection H as <- <-. simpl. rewrite <- !app_assoc. reflexivity.
Qed.

(** X8: for a text that is not blank, [text_to_speech] first asks for one
    temporary file with the suffix [.mp3]; when that raises, the error is
    printed and [gTTS] is not constructed; when it answers, [gTTS] is
    constructed next, with the text, the language and the speed exactly as
    passed, also when the backend then fails; when [text_to_speech] returns
    a path, that path is the file allocated and the one passed to [save],
    and these three calls and the line it prints are all that was logged. *)
Theorem text_to_speech_calls (text lang : str) (slow : bool) (s : state) :
  ~ whitespace_only text ->
  (exists rest, log (snd (text_to_speech w text lang slow s))
                = log s ++ NamedTemporaryFile (lit ".mp3") :: rest)
  /\ (forall e, allocation w s = Raise e ->
      log (snd (text_to_speech w text lang slow s))
      = log s ++ [NamedTemporaryFile (lit ".mp3"); Print (speech_error_line e)])
  /\ (forall path, allocation w s = Ret path ->
      exists rest, log (snd (text_to_speech w text lang slow s))
                   = log s ++ NamedTemporaryFile (lit ".mp3") :: GTTS text lang slow :: rest)
  /\ (forall p, fst (text_to_speech w text lang slow s) = Ret (Some p) ->
      allocation w s = Ret p
      /\ log (snd (text_to_speech w text lang slow s))
         = log s ++ [NamedTemporaryFile (lit ".mp3"); GTTS text lang slow;
                     GTTSSave text p; Print (audio_generated_line p)]).
Proof.
  intro W. apply not_or_blank_false in W.
  unfold allocation, text_to_speech, try_except, new_temporary_file, bind, call, print,
    modify, ret, may_raise. rewrite W. simpl.
  destruct (named_temporary_file w (clock s) (lit ".mp3")) as [path|e0]; simpl.
  2:{ split; [eexists; rewrite <- !app_assoc; reflexivity|].
      split; [intros e H; injection H as <-; rewrite <- !app_assoc; reflexivity|].
      split; [intros p H; discriminate|]. intros p H; discriminate. }
  destruct (gtts_init w (S (clock s)) text lang slow); simpl.
  - split; [eexists; rewrite <- !app_assoc; reflexivity|].
    split; [intros e' H; discriminate|].
    split; [intros p _; eexists; rewrite <- !app_assoc; reflexivity|].
    intros p H; discriminate.
  - destruct (gtts_save w (S (S (clock s))) text path); simpl.
    + split; [eexists; rewrite <- !app_assoc; reflexivity|].
      split; [intros e' H; discriminate|].
      split; [intros p _; eexists; rewrite <- !app_assoc; reflexivity|].
      intros p H; discriminate.
    + split; [eexists; rewrite <- !app_assoc; reflexivity|].
      split; [intros e' H; discriminate|].
      split; [intros p _; eexists; rewrite <- !app_assoc; reflexivity|].
      intros p H. injection H as <-. split; [reflexivity|].
      rewrite <- !app_assoc. reflexivity.
Qed.

End Devices.

(** ** Saving, resizing, downloading *)

Section Files.

Variable w : World.
Variable h : Host.

Ltac host_paths :=
  unfold htry_except, hbind, host_call, lift, hret, hraise, may_raise, print, modify,
    call, bind, ret; simpl.

(** X9: [save_uploaded_image] never raises; an argument that is neither an
    array nor an image, a path string included, gives [None], after the
    directory has been made and without anything being saved. *)
Theorem save_uploaded_image_rejects (x : pyobj) (directory filename : str) (ss : session) :
  (exists v, fst (save_uploaded_image w h x directory filename ss) = Ret v)
  /\ (savable x = false ->
      fst (save_uploaded_image w h x directory filename ss) = Ret None
      /\ host_log (snd (save_uploaded_image w h x directory filename ss))
         = host_log ss ++ [(clock (process ss), Makedirs directory true)]).
Proof.
  unfold save_uploaded_image. host_paths.
  destruct (os_makedirs h (clock (process ss)) directory true); simpl.
  - split; [eauto|]. intros _. auto.
  - destruct x; simpl.
    + split; [eauto|]. auto.
    + split; [eauto|]. auto.
    + split; [|discriminate].
      destruct (image_fromarray w _ a); simpl; [|eauto].
      destruct (image_save h _ _ _); simpl; eauto.
    + split; [|discriminate].
      destruct (image_save h _ _ _); simpl; eauto.
    + split; [eauto|]. auto.
Qed.

(** X10: [save_uploaded_image] returns a path exactly when the directory
    could be made, the argument gave an image (an array through
    [fromarray], an image as it is, in neither case converted) and that
    image could be saved; the path is [os.path.join(directory, filename)],
    which is the file name alone when that is absolute, and it is the path
    the image was saved under. *)
Theorem save_uploaded_image_saves (x : pyobj) (directory filename p : str) (ss : session) :
  (fst (save_uploaded_image w h x directory filename ss) = Ret (Some p)
   <-> os_makedirs h (clock (process ss)) directory true = None
       /\ p = path_join directory filename
       /\ exists img, image_to_save w x (clock (process ss)) = Some img
            /\ image_save h (save_count x (clock (process ss))) img p = None)
  /\ (fst (save_uploaded_image w h x directory filename ss) = Ret (Some p) ->
      exists img, image_to_save w x (clock (process ss)) = Some img
        /\ In (save_count x (clock (process ss)), ImageSave img p)
             (host_log (snd (save_uploaded_image w h x directory filename ss))))
  /\ (startswith_sep filename = true -> path_join directory filename = filename).
Proof.
  unfold save_uploaded_image, image_to_save, save_count. host_paths.
  split; [|split].
  - destruct (os_makedirs h (clock (process ss)) directory true); simpl.
    { split; [discriminate|]. intros [H _]. discriminate. }
    destruct x; simpl;
      try (split; [discriminate | intros (_ & _ & img & H & _); discriminate]).
    + destruct (image_fromarray w _ a); simpl.
      * destruct (image_save h _ a0 (path_join directory filename)) eqn:S; simpl.
        -- split; [discriminate|]. intros (_ & -> & img & H & H'). injection H as <-.
           congruence.
        -- split.
           ++ intro H. injection H as <-. split; [reflexivity|]. split; [reflexivity|].
              exists a0. auto.
           ++ intros (_ & -> & _). reflexivity.
      * split; [discriminate|]. intros (_ & _ & img & H & _). discriminate.
    + destruct (image_save h _ i (path_join directory filename)) eqn:S; simpl.
      * split; [discriminate|]. intros (_ & -> & img & H & H'). injection H as <-.
        congruence.
      * split.
        -- intro H. injection H as <-. split; [reflexivity|]. split; [reflexivity|].
           exists i. auto.
        -- intros (_ & -> & _). reflexivity.
  - destruct (os_makedirs h (clock (process ss)) directory true); simpl; [discriminate|].
    destruct x; simpl; try discriminate.
    + destruct (image_fromarray w _ a); simpl; [|discriminate].
      destruct (image_save h _ a0 _); simpl; [discriminate|].
      intro H. injection H as <-. exists a0. split; [reflexivity|].
      apply in_or_app. right. left. reflexivity.
    + destruct (image_save h _ i _); simpl; [discriminate|].
      intro H. injection H as <-. exists i. split; [reflexivity|].
      apply in_or_app. right. left. reflexivity.
  - intro H. unfold path_join. rewrite H. reflexivity.
Qed.

(** X11: without a target size [preprocess_image] is [prepare_image]: the
    same result or the same error, the same calls, and no host call. *)
Theorem preprocess_image_plain (x : pyobj) (ss : session) :
  preprocess_image w h x None ss = lift (prepare_image w x) ss.
Proof.
  destruct ss as [s0 hl].
  unfold preprocess_image, prepare_image, hbind, hret, hraise, lift, raise.
  destruct x as [|path|a|i|cls]; simpl; try reflexivity.
  - destruct ((i <- call (ImageOpen path) (fun t => image_open w t path);;
               convert_rgb w i) s0) as [[i|e] s']; reflexivity.
  - destruct ((i <- call (ImageFromarray a) (fun t => image_fromarray w t a);;
               convert_rgb w i) s0) as [[i|e] s']; reflexivity.
  - destruct (image_convert w (clock s0) i RGB); reflexivity.
Qed.

Lemma preprocess_image_unfold (x : pyobj) (size : nat * nat) (ss : session) :
  preprocess_image w h x (Some size) ss
  = hbind (lift (prepare_image w x))
      (fun pil => host_call (ImageResize pil size LANCZOS)
                    (fun t => image_resize h t pil size LANCZOS)) ss.
Proof. destruct ss as [s0 hl]. destruct x; reflexivity. Qed.

(** X12: with a target size, [preprocess_image] normalizes as
    [prepare_image] does and then makes one [resize] call with that size and
    the Lanczos filter; when [resize] answers in the size asked for and
    keeps the mode, the image returned has the target size, and also the
    mode RGB as soon as [convert('RGB')] answers in the mode asked for; an
    argument of an unsupported type is turned away with the same error and
    no call at all. *)
Theorem preprocess_image_resizes (x : pyobj) (size : nat * nat) (ss : session) :
  (forall img, fst (preprocess_image w h x (Some size) ss) = Ret img ->
   exists t pil,
     fst (prepare_image w x (process ss)) = Ret pil
     /\ host_log (snd (preprocess_image w h x (Some size) ss))
        = host_log ss ++ [(t, ImageResize pil size LANCZOS)]
     /\ (resize_contract h -> (im_width img, im_height img) = size)
     /\ (resize_contract h -> converts_to_rgb w -> im_mode img = RGB))
  /\ (supported x = false ->
      preprocess_image w h x (Some size) ss = (Raise (unsupported_image_type x), ss)).
Proof.
  split.
  - intros img. rewrite preprocess_image_unfold. unfold hbind, lift, host_call.
    destruct (prepare_image w x (process ss)) as [[pil|e] s1] eqn:P; simpl;
      [|discriminate].
    intro H. exists (clock s1), pil.
    split; [reflexivity|]. split; [reflexivity|]. split.
    + intro C. apply (resize_size C _ _ _ _ H).
    + intros C Cp. rewrite (resize_mode C _ _ _ _ H).
      eapply prepare_image_mode; [exact Cp|]. rewrite P. reflexivity.
  - intro U. unfold preprocess_image, hbind, hraise.
    destruct x; try discriminate U; reflexivity.
Qed.

(** X13: [download_sample_image] makes the directory before its [try], so
    an error there is raised to the caller; after that it returns the fixed
    path [data/sample_cat.jpg] when the download returns and [None] when the
    download raises, and then it does not raise. *)
Theorem download_sample_image_result (ss : session) :
  (forall e, os_makedirs h (clock (process ss)) (lit "data") true = Some e ->
   fst (download_sample_image h ss) = Raise e)
  /\ (os_makedirs h (clock (process ss)) (lit "data") true = None ->
      (urlretrieve h (S (clock (process ss))) sample_url sample_save_path = None ->
       fst (download_sample_image h ss) = Ret (Some sample_save_path))
      /\ (urlretrieve h (S (clock (process ss))) sample_url sample_save_path <> None ->
          fst (download_sample_image h ss) = Ret None))
  /\ (forall p, fst (download_sample_image h ss) = Ret (Some p) -> p = sample_save_path).
Proof.
  unfold download_sample_image. host_paths.
  destruct (os_makedirs h (clock (process ss)) (lit "data") true); simpl.
  - split; [intros e' H; congruence|]. split; [discriminate|]. discriminate.
  - split; [discriminate|].
    destruct (urlretrieve h (S (clock (process ss))) sample_url sample_save_path); simpl.
    + split; [intros _; split; [discriminate | reflexivity]|]. discriminate.
    + split; [intros _; split; [reflexivity | congruence]|]. congruence.
Qed.

End Files.

(** ** More on the three actions *)

Section Actions.

Variable w : World.

Lemma adds_stepwise (P : event -> bool) : stepwise (adds P) (fun l => P (Print l)) P.
Proof.
  constructor; unfold adds.
  - intro s. exists []. rewrite app_nil_r. auto.
  - intros s1 s2 s3 (n1 & L1 & P1) (n2 & L2 & P2). exists (n1 ++ n2).
    rewrite L2, L1, app_assoc, forallb_app, P1, P2. auto.
  - intros l s H. exists [Print l]. simpl. rewrite H. auto.
  - intros e s H. exists [e]. simpl. rewrite H. auto.
  - intros n s. exists []. simpl. rewrite app_nil_r. auto.
Qed.

Lemma adds_modify (P : event -> bool) (f : state -> state) :
  (forall s, log (f s) = log s) -> respects (adds P) (modify f).
Proof. intros H s. exists []. simpl. rewrite H, app_nil_r. auto. Qed.

Ltac adding P known :=
  walk (adds_stepwise P)
    ltac:(first [ known | apply adds_modify; intro; reflexivity ]).

Ltac entry_points :=
  unfold caption_image, answer_question, load_caption_model, load_vqa_model, get_device,
    to_device, prepare_image, convert_rgb, encode, generate, first_output, decode.

Ltac camera :=
  unfold capture_webcam_frame, open_capture, is_opened, read_frame, release.

Ltac actions :=
  unfold generate_caption_with_audio, answer_with_audio, capture_and_caption,
    describe_body, answer_body, capture_body, report_error, speak_if.

(** X14: without an image both upload actions return the upload-first
    sentence, whatever the question, and with an image but a blank question
    the answer action returns its own enter-a-question sentence, which is not
    the sentence [answer_question] has for that case; in all three cases the
    state is as it was, so nothing was loaded, called or printed. *)
Theorem action_guards (x : pyobj) (q : str) (tts : bool) (s : state) :
  generate_caption_with_audio w PyNone tts s = (Ret (upload_first, None), s)
  /\ answer_with_audio w PyNone q tts s = (Ret (upload_first, None), s)
  /\ (is_none x = false -> whitespace_only q ->
      answer_with_audio w x q tts s = (Ret (enter_a_question, None), s))
  /\ enter_a_question <> ask_a_question.
Proof.
  split; [reflexivity|]. split; [reflexivity|]. split.
  - intros N W. apply not_or_blank_spec in W. unfold answer_with_audio.
    rewrite N, W. reflexivity.
  - discriminate.
Qed.

Lemma caption_image_no_speech (x : pyobj) (n : Z) :
  respects (adds no_speech) (caption_image w x n).
Proof. entry_points. adding no_speech fail. Qed.

Lemma answer_question_no_speech (x : pyobj) (q : str) (n : Z) :
  respects (adds no_speech) (answer_question w x q n).
Proof. entry_points. adding no_speech fail. Qed.

Lemma capture_webcam_frame_no_speech : respects (adds no_speech) (capture_webcam_frame w).
Proof. camera. adding no_speech fail. Qed.

Ltac try_paths :=
  unfold try_except, bind, print, modify, ret; simpl.

(** X15: with text-to-speech switched off, no action allocates a temporary
    file or calls gTTS, and the audio slot of what it returns is [None]. *)
Theorem actions_without_speech (x : pyobj) (q : str) (s : state) :
  adds no_speech s (snd (generate_caption_with_audio w x false s))
  /\ adds no_speech s (snd (answer_with_audio w x q false s))
  /\ adds no_speech s (snd (capture_and_caption w false s))
  /\ (forall text audio,
      fst (generate_caption_with_audio w x false s) = Ret (text, audio) -> audio = None)
  /\ (forall text audio,
      fst (answer_with_audio w x q false s) = Ret (text, audio) -> audio = None)
  /\ (forall frame text audio,
      fst (capture_and_caption w false s) = Ret (frame, text, audio) -> audio = None).
Proof.
  split; [|split; [|split; [|split; [|split]]]].
  - revert s. change (respects (adds no_speech) (generate_caption_with_audio w x false)).
    actions. adding no_speech ltac:(apply caption_image_no_speech).
  - revert s. change (respects (adds no_speech) (answer_with_audio w x q false)).
    actions. adding no_speech ltac:(apply answer_question_no_speech).
  - revert s. change (respects (adds no_speech) (capture_and_caption w false)).
    actions.
    adding no_speech ltac:(first [ apply caption_image_no_speech
                                 | apply capture_webcam_frame_no_speech ]).
  - intros text audio. actions. destruct (is_none x); [simpl; congruence|].
    try_paths.
    destruct (caption_image w x default_max_length _) as [[c|e] s1]; simpl; congruence.
  - intros text audio. actions. destruct (is_none x); [simpl; congruence|].
    destruct (not_or_blank q); [simpl; congruence|].
    try_paths.
    destruct (answer_question w x q default_max_length _) as [[c|e] s1]; simpl; congruence.
  - intros frame text audio. actions. try_paths.
    destruct (capture_webcam_frame w _) as [[[f|]|e] s1]; simpl; try congruence.
    destruct (caption_image w (PyNdarray f) default_max_length _) as [[c|e] s2]; simpl;
      congruence.
Qed.

Lemma speech_of (text : str) (s : state) (p : str) :
  fst (text_to_speech w text default_lang default_slow s) = Ret (Some p) ->
  In (GTTS text default_lang default_slow)
     (log (snd (text_to_speech w text default_lang default_slow s)))
  /\ In (GTTSSave text p) (log (snd (text_to_speech w text default_lang default_slow s))).
Proof.
  intro H. apply pair_eta in H. rewrite (text_to_speech_returns _ _ _ _ _ H).
  split; apply in_or_app; right; simpl; auto.
Qed.

(** X16: when an action returns an audio path, text-to-speech was switched
    on, and the speech saved under that path was made from exactly the text
    in the text slot, in English and at normal speed. *)
Theorem audio_speaks_the_text (x : pyobj) (q : str) (tts : bool) (s : state)
    (text path : str) :
  (fst (generate_caption_with_audio w x tts s) = Ret (text, Some path) ->
   tts = true
   /\ In (GTTS text default_lang default_slow)
        (log (snd (generate_caption_with_audio w x tts s)))
   /\ In (GTTSSave text path) (log (snd (generate_caption_with_audio w x tts s))))
  /\ (fst (answer_with_audio w x q tts s) = Ret (text, Some path) ->
      tts = true
      /\ In (GTTS text default_lang default_slow)
           (log (snd (answer_with_audio w x q tts s)))
      /\ In (GTTSSave text path) (log (snd (answer_with_audio w x q tts s))))
  /\ (forall frame, fst (capture_and_caption w tts s) = Ret (frame, text, Some path) ->
      tts = true
      /\ In (GTTS text default_lang default_slow) (log (snd (capture_and_caption w tts s)))
      /\ In (GTTSSave text path) (log (snd (capture_and_caption w tts s)))).
Proof.
  split; [|split].
  - actions. destruct (is_none x); [simpl; discriminate|]. try_paths.
    destruct (caption_image w x default_max_length _) as [[c|e] s1]; simpl;
      [|discriminate].
    destruct tts; simpl; [|discriminate].
    pose proof (speech_of c (record_line generating_audio_line
                               (record_line (caption_line c) s1))) as K.
    destruct (text_to_speech w c default_lang default_slow _) as [[a|e] s2]; simpl in *;
      [|discriminate].
    intro H. injection H as <- ->. destruct (K path eq_refl). auto.
  - actions. destruct (is_none x); [simpl; discriminate|].
    destruct (not_or_blank q); [simpl; discriminate|]. try_paths.
    destruct (answer_question w x q default_max_length _) as [[c|e] s1]; simpl;
      [|discriminate].
    destruct tts; simpl; [|discriminate].
    pose proof (speech_of c (record_line generating_audio_line
                               (record_line (answer_line c) s1))) as K.
    destruct (text_to_speech w c default_lang default_slow _) as [[a|e] s2]; simpl in *;
      [|discriminate].
    intro H. injection H as <- ->. destruct (K path eq_refl). auto.
  - intro frame. actions. try_paths.
    destruct (capture_webcam_frame w _) as [[[f|]|e] s1]; simpl; try discriminate.
    destruct (caption_image w (PyNdarray f) default_max_length _) as [[c|e] s2]; simpl;
      [|discriminate].
    destruct tts; simpl; [|discriminate].
    pose proof (speech_of c (record_line (caption_line c) s2)) as K.
    destruct (text_to_speech w c default_lang default_slow _) as [[a|e] s3]; simpl in *;
      [|discriminate].
    intro H. injection H as <- <- ->. destruct (K path eq_refl). auto.
Qed.

Lemma capped_all (n : Z) (new : list event) :
  (forall m b k, In (Generate m b k) new -> k = n) -> forallb (capped n) new = true.
Proof.
  intro H. apply forallb_forall. intros e He.
  destruct e; try reflexivity. simpl. apply Z.eqb_eq. apply (H _ _ _ He).
Qed.

Lemma caption_image_capped (x : pyobj) (n : Z) : respects (adds (capped n)) (caption_image w x n).
Proof.
  intro s. rewrite caption_image_unfold.
  destruct (pipeline_cap w x None n s (load_caption_model_quiet w)) as (new & L & _ & C).
  exists new. split; [exact L | apply capped_all, C].
Qed.

Lemma answer_question_capped (x : pyobj) (q : str) (n : Z) :
  respects (adds (capped n)) (answer_question w x q n).
Proof.
  intro s. destruct (not_or_blank q) eqn:B.
  - unfold answer_question. rewrite B. apply (sw_refl (adds_stepwise (capped n))).
  - rewrite (answer_question_unfold w x q n B).
    destruct (pipeline_cap w x (Some q) n s (load_vqa_model_quiet w)) as (new & L & _ & C).
    exists new. split; [exact L | apply capped_all, C].
Qed.

Lemma text_to_speech_capped (n : Z) (text lang : str) (slow : bool) :
  respects (adds (capped n)) (text_to_speech w text lang slow).
Proof. unfold text_to_speech, new_temporary_file. adding (capped n) fail. Qed.

Lemma capture_webcam_frame_capped (n : Z) :
  respects (adds (capped n)) (capture_webcam_frame w).
Proof. camera. adding (capped n) fail. Qed.

Ltac capping :=
  adding (capped default_max_length)
    ltac:(first [ apply caption_image_capped | apply answer_question_capped
                | apply text_to_speech_capped | apply capture_webcam_frame_capped ]).

(** X17: none of the three actions passes a cap of its own: every
    [generate] call an action makes has [max_length] 50. *)
Theorem actions_use_default_cap (x : pyobj) (q : str) (tts : bool) (s : state) :
  default_max_length = 50%Z
  /\ adds (capped 50) s (snd (generate_caption_with_audio w x tts s))
  /\ adds (capped 50) s (snd (answer_with_audio w x q tts s))
  /\ adds (capped 50) s (snd (capture_and_caption w tts s)).
Proof.
  split; [reflexivity|]. change 50%Z with default_max_length.
  split; [|split]; revert s.
  - change (respects (adds (capped default_max_length))
              (generate_caption_with_audio w x tts)).
    actions. capping.
  - change (respects (adds (capped default_max_length)) (answer_with_audio w x q tts)).
    actions. capping.
  - change (respects (adds (capped default_max_length)) (capture_and_caption w tts)).
    actions. capping.
Qed.

(** X18: the capture action returns a frame only together with its
    caption: the frame is the one [capture_webcam_frame] returned and the
    text is what [caption_image] returned for that frame as an array; when
    captioning raises after a frame was captured, the frame is dropped and
    the error line is returned alone. *)
Theorem capture_and_caption_frame (tts : bool) (s : state) (f : ndarray) :
  (forall text audio,
   fst (capture_and_caption w tts s) = Ret (Some f, text, audio) ->
   fst (capture_webcam_frame w (record_line capturing_line s)) = Ret (Some f)
   /\ fst (caption_image w (PyNdarray f) default_max_length
             (snd (capture_webcam_frame w (record_line capturing_line s)))) = Ret text)
  /\ (forall e,
      fst (capture_webcam_frame w (record_line capturing_line s)) = Ret (Some f) ->
      fst (caption_image w (PyNdarray f) default_max_length
             (snd (capture_webcam_frame w (record_line capturing_line s)))) = Raise e ->
      fst (capture_and_caption w tts s) = Ret (None, error_msg e, None)).
Proof.
  split.
  - intros text audio. actions. try_paths.
    destruct (capture_webcam_frame w _) as [[[f'|]|e] s1]; simpl; try discriminate.
    destruct (caption_image w (PyNdarray f') default_max_length _) as [[c|e] s2] eqn:C;
      simpl; [|discriminate].
    destruct (match (if tts then text_to_speech w c default_lang default_slow else ret None)
                      (record_line (caption_line c) s2) with
              | (Ret a, s3) => _ | (Raise e, s3) => _ end) as [[r|e] s4] eqn:T.
    + destruct ((if tts then text_to_speech w c default_lang default_slow else ret None)
                  (record_line (caption_line c) s2)) as [[a|e] s3]; simpl in T;
        [|discriminate T].
      injection T as <- <-. intro H. injection H as <- <- <-. rewrite C. auto.
    + simpl. discriminate.
  - intros e Hf Hc. actions. try_paths.
    destruct (capture_webcam_frame w _) as [[[f'|]|e'] s1]; simpl in *; try discriminate.
    injection Hf as ->.
    destruct (caption_image w (PyNdarray f) default_max_length s1) as [[c|e'] s2];
      simpl in *; [discriminate|].
    injection Hc as ->. reflexivity.
Qed.

End Actions.

(** ** The demonstration script *)

Section Demos.

Variable w : World.

Ltac adding P known :=
  walk (adds_stepwise P)
    ltac:(first [ known | apply adds_modify; intro; reflexivity ]).

Lemma opened_paths_app (a b : list event) :
  opened_paths (a ++ b) = opened_paths a ++ opened_paths b.
Proof. unfold opened_paths. apply flat_map_app. Qed.

Lemma opened_paths_none (l : list event) :
  forallb not_open l = true -> opened_paths l = [].
Proof.
  induction l as [|e l IH]; simpl; [reflexivity|].
  rewrite andb_true_iff. intros [H1 H2]. rewrite (IH H2).
  destruct e; try reflexivity. discriminate H1.
Qed.

Lemma adds_not_open (s s' : state) :
  adds not_open s s' -> opened_paths (log s') = opened_paths (log s).
Proof.
  intros (new & L & P). rewrite L, opened_paths_app, (opened_paths_none _ P).
  apply app_nil_r.
Qed.

Lemma caption_image_pil_not_open (i : image) (n : Z) :
  respects (adds not_open) (caption_image w (PyImage i) n).
Proof.
  unfold caption_image, load_caption_model, get_device, to_device.
  change (prepare_image w (PyImage i)) with (convert_rgb w i).
  unfold convert_rgb, encode, generate, first_output, decode.
  adding not_open fail.
Qed.

Lemma text_to_speech_not_open (text lang : str) (slow : bool) :
  respects (adds not_open) (text_to_speech w text lang slow).
Proof. unfold text_to_speech, new_temporary_file. adding not_open fail. Qed.

Lemma text_to_speech_total (text lang : str) (slow : bool) (s : state) :
  exists v, fst (text_to_speech w text lang slow s) = Ret v.
Proof.
  unfold text_to_speech, try_except, new_temporary_file, bind, call, print, modify,
    ret, may_raise.
  destruct (not_or_blank text); simpl; [eauto|].
  destruct (named_temporary_file w (clock s) (lit ".mp3")); simpl; [|eauto].
  destruct (gtts_init w _ text lang slow); simpl; [eauto|].
  destruct (gtts_save w _ text _); simpl; eauto.
Qed.

Ltac demo_paths :=
  unfold try_except, bind, call, print, modify, ret; simpl.

(** X19: [demo_captioning] never raises; it returns the caption exactly
    when [Image.open] returns an image and [caption_image], called with that
    image and the default cap, returns, and then whether or not speech could
    be made; it calls [Image.open] once, with the path it was given. *)
Theorem demo_captioning_result (path : str) (s : state) :
  (exists v, fst (demo_captioning w path s) = Ret v)
  /\ (forall c,
      fst (demo_captioning w path s) = Ret (Some c)
      <-> exists i,
            image_open w (clock s) path = Ret i
            /\ fst (caption_image w (PyImage i) default_max_length
                      (demo_captioning_ready path i s)) = Ret c)
  /\ opened_paths (log (snd (demo_captioning w path s))) = opened_paths (log s) ++ [path].
Proof.
  unfold demo_captioning, demo_captioning_ready. demo_paths.
  destruct (image_open w (clock s) path) as [i|e]; simpl.
  2:{ split; [eauto|]. split.
      - intro c. split; [discriminate|]. intros (i & H & _). discriminate.
      - rewrite !opened_paths_app. simpl. rewrite !app_nil_r. reflexivity. }
  pose proof (caption_image_pil_not_open i default_max_length
                (record_line demo_generating_caption_line
                   (record_line (size_line i)
                      (record_line (loaded_image_line path)
                         (record_call (ImageOpen path)
                            (record_line rule
                               (record_line demo1_title (record_line banner s)))))))) as K.
  apply adds_not_open in K.
  destruct (caption_image w (PyImage i) default_max_length _) as [[c|e] s1] eqn:C;
    simpl in *.
  2:{ split; [eauto|]. split.
      - intro c. split; [discriminate|]. intros (i' & H & H'). injection H as <-.
        rewrite C in H'. discriminate.
      - rewrite !opened_paths_app. simpl. rewrite K, !opened_paths_app. simpl.
        rewrite !app_nil_r. reflexivity. }
  pose proof (text_to_speech_not_open c default_lang default_slow
                (record_line demo_generating_audio_line
                   (record_line (quoted_caption_line c) s1))) as T.
  apply adds_not_open in T.
  destruct (text_to_speech_total c default_lang default_slow
              (record_line demo_generating_audio_line
                 (record_line (quoted_caption_line c) s1))) as [a0 Ha].
  destruct (text_to_speech w c default_lang default_slow _) as [[a|e] s2]; simpl in *.
  - assert (E : opened_paths (log s2) = opened_paths (log s) ++ [path]).
    { rewrite T, !opened_paths_app. simpl. rewrite K, !opened_paths_app. simpl.
      rewrite !app_nil_r. reflexivity. }
    destruct (truthy_path a); simpl.
    + split; [eauto|]. split.
      * intro c'. split.
        -- intro H. injection H as <-. exists i. rewrite C. auto.
        -- intros (i' & H & H'). injection H as <-. rewrite C in H'. simpl in H'.
           congruence.
      * rewrite opened_paths_app. simpl. rewrite app_nil_r. exact E.
    + split; [eauto|]. split.
      * intro c'. split.
        -- intro H. injection H as <-. exists i. rewrite C. auto.
        -- intros (i' & H & H'). injection H as <-. rewrite C in H'. simpl in H'.
           congruence.
      * exact E.
  - discriminate Ha.
Qed.

Lemma subsequence_length (a b : list str) :
  subsequence a b -> List.length a <= List.length b.
Proof. induction 1; simpl; lia. Qed.

Lemma process_all_cons (total i : nat) (path : str) (rest : list str)
    (results : list (str * str)) :
  process_all w total i (path :: rest) results
  = (print (processing_line i total path) ;;
     results' <- try_except
                   (image <- call (ImageOpen path) (fun t => image_open w t path) ;;
                    caption <- caption_image w (PyImage image) default_max_length ;;
                    print (batch_ok_line caption) ;;
                    ret (results ++ [(path, caption)]))
                   (fun e => print (batch_error_line e) ;; ret results) ;;
     process_all w total (S i) rest results').
Proof. reflexivity. Qed.

Lemma process_all_spec (image_paths : list str) :
  forall (total i : nat) (results : list (str * str)) (s : state),
  exists more s',
    process_all w total i image_paths results s = (Ret (results ++ more), s')
    /\ subsequence (map fst more) image_paths
    /\ opened_paths (log s') = opened_paths (log s) ++ image_paths.
Proof.
  induction image_paths as [|path rest IH]; intros total i results s.
  - exists [], s. simpl. rewrite !app_nil_r. repeat split. constructor.
  - rewrite process_all_cons. demo_paths.
    destruct (image_open w (clock s) path) as [img|e]; simpl.
    + pose proof (caption_image_pil_not_open img default_max_length
                    (record_call (ImageOpen path)
                       (record_line (processing_line i total path) s))) as K.
      apply adds_not_open in K.
      destruct (caption_image w (PyImage img) default_max_length _) as [[c|e] s1];
        simpl in *.
      * destruct (IH total (S i) (results ++ [(path, c)])
                    (record_line (batch_ok_line c) s1)) as (more & s' & E & Sb & O).
        exists ((path, c) :: more), s'. rewrite E. split.
        -- rewrite <- app_assoc. reflexivity.
        -- split; [simpl; constructor; exact Sb|].
           rewrite O. simpl. rewrite opened_paths_app. simpl.
           rewrite K, !opened_paths_app. simpl. rewrite !app_nil_r, <- app_assoc.
           reflexivity.
      * destruct (IH total (S i) results (record_line (batch_error_line e) s1))
          as (more & s' & E & Sb & O).
        exists more, s'. rewrite E. split; [reflexivity|].
        split; [constructor; exact Sb|].
        rewrite O. simpl. rewrite opened_paths_app. simpl.
        rewrite K, !opened_paths_app. simpl. rewrite !app_nil_r, <- app_assoc.
        reflexivity.
    + destruct (IH total (S i) results
                  (record_line (batch_error_line e)
                     (record_call (ImageOpen path)
                        (record_line (processing_line i total path) s))))
        as (more & s' & E & Sb & O).
      exists more, s'. rewrite E. split; [reflexivity|].
      split; [constructor; exact Sb|].
      rewrite O. simpl. rewrite !opened_paths_app. simpl.
      rewrite !app_nil_r, <- app_assoc. reflexivity.
Qed.

(** X20: [demo_batch_processing] never raises and goes through the whole
    list: [Image.open] is called with every path, in order, also after an
    image failed; the results name, in order, some of the paths given, one
    entry for a path at most, so there are never more results than paths. *)
Theorem demo_batch_processing_results (image_paths : list str) (s : state) :
  exists results s',
    demo_batch_processing w image_paths s = (Ret results, s')
    /\ subsequence (map fst results) image_paths
    /\ List.length results <= List.length image_paths
    /\ opened_paths (log s') = opened_paths (log s) ++ image_paths.
Proof.
  unfold demo_batch_processing. demo_paths.
  destruct (process_all_spec image_paths (List.length image_paths) 1 []
              (record_line rule (record_line demo3_title (record_line banner s))))
    as (more & s' & E & Sb & O).
  exists more, s'. split; [exact E|]. split; [exact Sb|]. split.
  - rewrite <- (length_map fst more). apply subsequence_length, Sb.
  - rewrite O. simpl. rewrite !opened_paths_app. simpl. rewrite !app_nil_r. reflexivity.
Qed.

Lemma answer_question_generates (x : pyobj) (q : str) (n : Z) (s : state) :
  count is_generate (log (snd (answer_question w x q n s)))
  <= count is_generate (log s) + (if asks q then 1 else 0).
Proof.
  unfold asks. destruct (not_or_blank q) eqn:B.
  - unfold answer_question. rewrite B. simpl. lia.
  - rewrite (answer_question_unfold w x q n B).
    destruct (pipeline_cap w x (Some q) n s (load_vqa_model_quiet w)) as (new & L & C & _).
    rewrite L, count_app. simpl. lia.
Qed.

Lemma ask_all_total (image : image) (questions : list str) :
  forall (i : nat) (s : state),
  count is_generate (log (snd (ask_all w image i questions s)))
  <= count is_generate (log s) + List.length (filter asks questions).
Proof.
  induction questions as [|q rest IH]; intros i s; simpl; [lia|].
  unfold bind at 1. unfold print, modify. simpl. unfold bind at 1.
  pose proof (answer_question_generates (PyImage image) q default_max_length
                (record_line (numbered_question_line i q) s)) as A.
  simpl in A. rewrite count_snoc in A. simpl in A.
  destruct (answer_question w (PyImage image) q default_max_length _) as [[a|e] s1];
    simpl in *.
  - unfold bind at 1. simpl.
    pose proof (IH (S i) (record_line (answer_line a) s1)) as R.
    simpl in R. rewrite count_snoc in R. simpl in R.
    destruct (asks q); simpl; lia.
  - destruct (asks q); simpl; lia.
Qed.

Lemma ask_all_blank_step (image : image) (i : nat) (q : str) (rest : list str)
    (s : state) :
  whitespace_only q ->
  ask_all w image i (q :: rest) s
  = ask_all w image (S i) rest
      (record_line (answer_line ask_a_question)
         (record_line (numbered_question_line i q) s)).
Proof.
  intro W. apply not_or_blank_spec in W. simpl.
  unfold bind, print, modify, answer_question. rewrite W. reflexivity.
Qed.

Lemma ask_all_blank (image : image) (questions : list str) :
  Forall whitespace_only questions ->
  forall (i : nat) (s : state),
  fst (ask_all w image i questions s) = Ret tt
  /\ log (snd (ask_all w image i questions s)) = log s ++ blank_dialogue i questions.
Proof.
  induction 1 as [|q rest W _ IH]; intros i s.
  - simpl. rewrite app_nil_r. auto.
  - rewrite (ask_all_blank_step image i rest s W).
    destruct (IH (S i) (record_line (answer_line ask_a_question)
                          (record_line (numbered_question_line i q) s))) as [E L].
    split; [exact E|]. rewrite L. simpl. rewrite <- !app_assoc. reflexivity.
Qed.

(** X21: [demo_vqa] never raises, and it calls [generate] at most once
    for each question of the list that is not blank: a blank question is
    answered with the fixed sentence without the model, the loop printing
    the question line and the sentence and going on from the state that
    these two lines alone changed; so with an image that opens and questions
    that are all blank the whole log is the heading, the opening of the
    image and, for each question, its line and the fixed sentence. *)
Theorem demo_vqa_generates (path : str) (questions : list str) (s : state) :
  fst (demo_vqa w path questions s) = Ret tt
  /\ count is_generate (log (snd (demo_vqa w path questions s)))
     <= count is_generate (log s) + List.length (filter asks questions)
  /\ (forall img i q rest s0, whitespace_only q ->
      ask_all w img i (q :: rest) s0
      = ask_all w img (S i) rest
          (record_line (answer_line ask_a_question)
             (record_line (numbered_question_line i q) s0)))
  /\ (forall img, image_open w (clock s) path = Ret img ->
      Forall whitespace_only questions ->
      log (snd (demo_vqa w path questions s))
      = log s ++ [Print banner; Print demo2_title; Print rule; ImageOpen path;
                  Print (using_image_line path)] ++ blank_dialogue 1 questions).
Proof.
  split; [|split; [|split]].
  - unfold demo_vqa. demo_paths.
    destruct (image_open w (clock s) path) as [img|e]; simpl; [|reflexivity].
    destruct (ask_all w img 1 questions _) as [[[]|e] s1]; reflexivity.
  - unfold demo_vqa. demo_paths.
    destruct (image_open w (clock s) path) as [img|e]; simpl.
    + pose proof (ask_all_total img questions 1
                    (record_line (using_image_line path)
                       (record_call (ImageOpen path)
                          (record_line rule
                             (record_line demo2_title (record_line banner s)))))) as A.
      simpl in A. rewrite !count_snoc in A. simpl in A.
      destruct (ask_all w img 1 questions _) as [[[]|e] s1]; simpl in *.
      * lia.
      * rewrite count_snoc. simpl. lia.
    + rewrite !count_snoc. simpl. lia.
  - intros img i q rest s0 W. apply ask_all_blank_step, W.
  - intros img O W. unfold demo_vqa. demo_paths. rewrite O. simpl.
    destruct (ask_all_blank img W 1
                (record_line (using_image_line path)
                   (record_call (ImageOpen path)
                      (record_line rule
                         (record_line demo2_title (record_line banner s)))))) as [E L].
    destruct (ask_all w img 1 questions _) as [[[]|e] s1]; simpl in *;
      [|discriminate E].
    rewrite L. simpl. rewrite <- !app_assoc. reflexivity.
Qed.

End Demos.

(** ** The further properties at sample environments *)

Lemma calm_resize : resize_contract calm_host.
Proof.
  constructor; simpl; intros t i size r i' H; injection H as <-; simpl.
  - destruct size; reflexivity.
  - reflexivity.
Defined.

(** X1 at work: after a question has set the handle, a captioning and
    another question leave it and construct nothing. *)
Lemma vqa_model_constructed_once_witness :
  vqa_model (serve_all calm caption_then_answer
               (serve calm (AnswerQuestion (PyImage sample_image) sample_question 50)
                  initial_state))
  = Some (Model vqa_checkpoint (lit "cpu") 2)
  /\ vqa_attempts (log (serve_all calm caption_then_answer
        (serve calm (AnswerQuestion (PyImage sample_image) sample_question 50)
           initial_state)))
     = vqa_attempts (log (serve calm (AnswerQuestion (PyImage sample_image)
                                        sample_question 50) initial_state))
  /\ vqa_constructions (log (serve_all calm caption_then_answer
        (serve calm (AnswerQuestion (PyImage sample_image) sample_question 50)
           initial_state)))
     = vqa_constructions (log (serve calm (AnswerQuestion (PyImage sample_image)
                                             sample_question 50) initial_state)).
Proof.
  exact (proj2 (proj2 (vqa_model_constructed_once calm []))
           (serve calm (AnswerQuestion (PyImage sample_image) sample_question 50)
              initial_state)
           (Model vqa_checkpoint (lit "cpu") 2) caption_then_answer eq_refl).
Defined.

(** X3 at work: an integer for an image on a fresh process: the error is
    the normalization error and the captioning model is constructed. *)
Lemma handle_loaded_before_image_witness :
  fst (caption_image calm (PyOther "int") 50 initial_state)
  = Raise (unsupported_image_type (PyOther "int"))
  /\ snd (caption_image calm (PyOther "int") 50 initial_state)
     = snd (load_caption_model calm initial_state)
  /\ is_some (caption_model (snd (caption_image calm (PyOther "int") 50 initial_state)))
     = true.
Proof.
  exact (proj1 (handle_loaded_before_image calm (PyOther "int") 50 initial_state
                  eq_refl sample_question_not_blank) eq_refl).
Defined.

(** X4 at work: three spaces for a question log nothing. *)
Lemma answer_question_cap_witness :
  log (snd (answer_question calm (PyImage sample_image) (lit "   ") 50 initial_state))
  = log initial_state.
Proof.
  exact (proj2 (answer_question_cap calm (PyImage sample_image) (lit "   ") 50
                  initial_state) blank_question).
Defined.

(** X5 at work: the sample question reaches the processor as it is, with
    the image that [prepare_image] made. *)
Lemma inputs_encoded_witness :
  exists i,
    fst (prepare_image calm (PyImage sample_image)
           (snd (load_vqa_model calm initial_state))) = Ret i
    /\ (converts_to_rgb calm -> im_mode i = RGB)
    /\ exists p b m o pre,
         log (snd (answer_question calm (PyImage sample_image) sample_question 50
                     initial_state))
         = pre ++ [ProcessorCall p i (Some sample_question);
                   BatchTo b (device (snd (answer_question calm (PyImage sample_image)
                                             sample_question 50 initial_state)));
                   Generate m (Batch (batch_pixels b) (batch_text b)
                                 (device (snd (answer_question calm (PyImage sample_image)
                                                 sample_question 50 initial_state)))) 50;
                   Decode p o true].
Proof.
  exact (proj2 (inputs_encoded calm (PyImage sample_image) sample_question 50
                  initial_state)
           (lit "a cat") sample_question_not_blank eq_refl).
Defined.

(** X6 at work: the calm camera gives its frame. *)
Lemma capture_webcam_frame_result_witness :
  fst (capture_webcam_frame calm initial_state) = Ret (Some sample_frame).
Proof.
  apply (proj2 (capture_webcam_frame_result calm initial_state sample_frame)).
  split; [reflexivity|]. exists sample_frame. split; reflexivity.
Defined.

(** X7 at work: the calm camera is released by name once; with a camera
    whose read raises, the one read is made and the log has no release. *)
Lemma capture_webcam_frame_calls_witness :
  count is_release (log (snd (capture_webcam_frame calm initial_state)))
  = S (count is_release (log initial_state))
  /\ count is_read (log (snd (capture_webcam_frame broken_read initial_state)))
     = S (count is_read (log initial_state))
  /\ count is_release (log (snd (capture_webcam_frame broken_read initial_state))) = 0.
Proof.
  split; [|split].
  - apply (proj2 (proj1 (capture_webcam_frame_calls calm initial_state))).
    split; [reflexivity|]. eexists. reflexivity.
  - exact (proj1 (proj2 (proj2 (capture_webcam_frame_calls broken_read initial_state)))
             eq_refl).
  - reflexivity.
Defined.

(** X8 at work: a greeting in English; and the same greeting when no
    temporary file can be made. *)
Lemma text_to_speech_calls_witness :
  (allocation calm initial_state = Ret (lit "/tmp/tmpk3v1.mp3")
   /\ log (snd (text_to_speech calm (lit "hello") default_lang default_slow initial_state))
      = log initial_state
        ++ [NamedTemporaryFile (lit ".mp3"); GTTS (lit "hello") default_lang default_slow;
            GTTSSave (lit "hello") (lit "/tmp/tmpk3v1.mp3");
            Print (audio_generated_line (lit "/tmp/tmpk3v1.mp3"))])
  /\ log (snd (text_to_speech no_tempdir (lit "hello") default_lang default_slow
                 initial_state))
     = log initial_state
       ++ [NamedTemporaryFile (lit ".mp3");
           Print (speech_error_line
                    (Exn "FileNotFoundError"
                       (lit "No usable temporary directory found")))].
Proof.
  split.
  - exact (proj2 (proj2 (proj2 (@text_to_speech_calls calm (lit "hello") default_lang
                                  default_slow initial_state hello_not_blank)))
             (lit "/tmp/tmpk3v1.mp3") eq_refl).
  - exact (proj1 (proj2 (@text_to_speech_calls no_tempdir (lit "hello") default_lang
                           default_slow initial_state hello_not_blank))
             (Exn "FileNotFoundError" (lit "No usable temporary directory found"))
             eq_refl).
Defined.

(** X9 at work: a path string is not saved. *)
Lemma save_uploaded_image_rejects_witness :
  fst (save_uploaded_image calm calm_host (PyStr sample_path) default_directory
         default_filename fresh_session) = Ret None
  /\ host_log (snd (save_uploaded_image calm calm_host (PyStr sample_path)
                      default_directory default_filename fresh_session))
     = host_log fresh_session ++ [(0, Makedirs default_directory true)].
Proof.
  exact (proj2 (save_uploaded_image_rejects calm calm_host (PyStr sample_path)
                  default_directory default_filename fresh_session) eq_refl).
Defined.

(** X10 at work: with the defaults the image goes to
    [data/uploaded_image.jpg]. *)
Lemma save_uploaded_image_saves_witness :
  fst (save_uploaded_image calm calm_host (PyImage sample_image) default_directory
         default_filename fresh_session) = Ret (Some (lit "data/uploaded_image.jpg")).
Proof.
  apply (proj2 (proj1 (save_uploaded_image_saves calm calm_host (PyImage sample_image)
                         default_directory default_filename
                         (lit "data/uploaded_image.jpg") fresh_session))).
  split; [reflexivity|]. split; [reflexivity|].
  exists sample_image. split; reflexivity.
Defined.

(** X12 at work: the sample file resized to 2 by 2. *)
Lemma preprocess_image_resizes_witness :
  exists t pil,
    fst (prepare_image calm (PyStr sample_path) (process fresh_session)) = Ret pil
    /\ host_log (snd (preprocess_image calm calm_host (PyStr sample_path) (Some (2, 2))
                        fresh_session))
       = host_log fresh_session ++ [(t, ImageResize pil (2, 2) LANCZOS)]
    /\ (resize_contract calm_host ->
        (im_width (Image RGB 2 2 []), im_height (Image RGB 2 2 [])) = (2, 2))
    /\ (resize_contract calm_host -> converts_to_rgb calm ->
        im_mode (Image RGB 2 2 []) = RGB).
Proof.
  exact (proj1 (preprocess_image_resizes calm calm_host (PyStr sample_path) (2, 2)
                  fresh_session) (Image RGB 2 2 []) eq_refl).
Defined.

(** X13 at work: with the network down the download gives [None]. *)
Lemma download_sample_image_result_witness :
  fst (download_sample_image calm_host fresh_session) = Ret (Some sample_save_path)
  /\ fst (download_sample_image stuck_host fresh_session) = Ret None.
Proof.
  split.
  - exact (proj1 (proj1 (proj2 (download_sample_image_result calm_host fresh_session))
                    eq_refl) eq_refl).
  - apply (proj2 (proj1 (proj2 (download_sample_image_result stuck_host fresh_session))
                    eq_refl)).
    discriminate.
Defined.

(** X14 at work: an image and three spaces. *)
Lemma action_guards_witness :
  answer_with_audio calm (PyImage sample_image) (lit "   ") true initial_state
  = (Ret (enter_a_question, None), initial_state).
Proof.
  exact (proj1 (proj2 (proj2 (action_guards calm (PyImage sample_image) (lit "   ") true
                                initial_state))) eq_refl blank_question).
Defined.

(** X15 at work: a captioning without speech logs no speech call. *)
Lemma actions_without_speech_witness :
  adds no_speech initial_state
    (snd (generate_caption_with_audio calm (PyImage sample_image) false initial_state)).
Proof.
  exact (proj1 (actions_without_speech calm (PyImage sample_image) sample_question
                  initial_state)).
Defined.

(** X16 at work: the audio of the sample image says its caption. *)
Lemma audio_speaks_the_text_witness :
  In (GTTS (lit "a cat") default_lang default_slow)
    (log (snd (generate_caption_with_audio calm (PyImage sample_image) true
                 initial_state)))
  /\ In (GTTSSave (lit "a cat") (lit "/tmp/tmpk3v1.mp3"))
       (log (snd (generate_caption_with_audio calm (PyImage sample_image) true
                    initial_state))).
Proof.
  exact (proj2 (proj1 (audio_speaks_the_text calm (PyImage sample_image) sample_question
                         true initial_state (lit "a cat") (lit "/tmp/tmpk3v1.mp3"))
                  eq_refl)).
Defined.

(** X18 at work: the calm camera's frame comes back with its caption. *)
Lemma capture_and_caption_frame_witness :
  fst (capture_webcam_frame calm (record_line capturing_line initial_state))
  = Ret (Some sample_frame)
  /\ fst (caption_image calm (PyNdarray sample_frame) default_max_length
            (snd (capture_webcam_frame calm (record_line capturing_line initial_state))))
     = Ret (lit "a cat").
Proof.
  exact (proj1 (capture_and_caption_frame calm true initial_state sample_frame)
           (lit "a cat") (Some (lit "/tmp/tmpk3v1.mp3")) eq_refl).
Defined.

(** X19 at work: the demonstration captions the sample file. *)
Lemma demo_captioning_result_witness :
  fst (demo_captioning calm sample_path initial_state) = Ret (Some (lit "a cat")).
Proof.
  apply (proj2 (proj1 (proj2 (demo_captioning_result calm sample_path initial_state))
                  (lit "a cat"))).
  exists sample_image. split; reflexivity.
Defined.

(** X21 at work: two blank questions about the sample file are answered
    with the fixed sentence, and nothing but the heading, the opening of the
    image and the dialogue is logged. *)
Lemma demo_vqa_generates_witness :
  log (snd (demo_vqa calm sample_path [lit "   "; lit "   "] initial_state))
  = log initial_state
    ++ [Print banner; Print demo2_title; Print rule; ImageOpen sample_path;
        Print (using_image_line sample_path)]
    ++ blank_dialogue 1 [lit "   "; lit "   "].
Proof.
  exact (proj2 (proj2 (proj2 (demo_vqa_generates calm sample_path [lit "   "; lit "   "]
                                initial_state)))
           sample_image eq_refl
           (Forall_cons _ blank_question (Forall_cons _ blank_question (Forall_nil _)))).
Defined.
